(** * ONNX quantization pass: parameter tables, search-point validation and
      the run-configuration builder

    Shallow embedding of [olive/passes/onnx/quantization.py].

    Python dictionaries that are only read, written and deleted by key are
    finite maps ([gmap string Value]); the parameter tables, whose order is
    the order of declaration, are association lists.  Effects (log records,
    calls to external collaborators, raised exceptions) are threaded through
    a small trace-and-error monad. *)

From Stdlib Require Import String List ZArith Bool Lia.
From stdpp Require Import base option list strings gmap fin_maps.

Local Open Scope string_scope.
Local Open Scope list_scope.

Set Warnings "-register-all".

(** ** Python values *)

(** The values a configuration dictionary can hold.  [VObj] is an opaque
    Python object (a callable, a data-config object, a data reader);
    [VEnum cls m] is member [m] of the external enumeration [cls].
    [VIgnored] and [VInvalid] are the two reserved sentinels of the search
    parameter module. *)
Inductive Value : Type :=
| VNone
| VBool (b : bool)
| VInt (z : Z)
| VStr (s : string)
| VList (l : list Value)
| VDict (d : list (string * Value))
| VObj (id : string)
| VEnum (cls member : string)
| VIgnored
| VInvalid.

(** Structural equality on values, as a boolean function. *)
Fixpoint Value_eqb (x y : Value) {struct x} : bool :=
  match x, y with
  | VNone, VNone => true
  | VBool a, VBool b => Bool.eqb a b
  | VInt a, VInt b => Z.eqb a b
  | VStr a, VStr b => String.eqb a b
  | VList a, VList b =>
      (fix go (a b : list Value) {struct a} : bool :=
         match a, b with
         | [], [] => true
         | x :: a', y :: b' => Value_eqb x y && go a' b'
         | _, _ => false
         end) a b
  | VDict a, VDict b =>
      (fix go (a b : list (string * Value)) {struct a} : bool :=
         match a, b with
         | [], [] => true
         | (k, x) :: a', (k', y) :: b' =>
             String.eqb k k' && Value_eqb x y && go a' b'
         | _, _ => false
         end) a b
  | VObj a, VObj b => String.eqb a b
  | VEnum c m, VEnum c' m' => String.eqb c c' && String.eqb m m'
  | VIgnored, VIgnored => true
  | VInvalid, VInvalid => true
  | _, _ => false
  end.

(** Equality of two tuples of values (the keys of a conditional table). *)
Fixpoint key_eqb (a b : list Value) : bool :=
  match a, b with
  | [], [] => true
  | x :: a', y :: b' => Value_eqb x y && key_eqb a' b'
  | _, _ => false
  end.

(** [v == "literal"]: for the built-in types above, a value compares equal
    to a string literal exactly when it is that string. *)
Definition py_eq_str (v : Value) (s : string) : bool :=
  match v with
  | VStr s' => String.eqb s' s
  | _ => false
  end.

(** [v is True]: identity with the [True] singleton. *)
Definition py_is_True (v : Value) : bool :=
  match v with
  | VBool true => true
  | _ => false
  end.

(** Truth value of an object in a boolean context. *)
Definition py_truthy (v : Value) : bool :=
  match v with
  | VNone => false
  | VBool b => b
  | VInt z => negb (Z.eqb z 0)
  | VStr s => negb (String.eqb s "")
  | VList l => match l with [] => false | _ => true end
  | VDict d => match d with [] => false | _ => true end
  | VObj _ => true
  | VEnum _ _ => true
  | VIgnored => true
  | VInvalid => true
  end.

(** ** Exceptions, events and the effect monad *)

(** An exception raised by an external collaborator: its class, the
    classes it inherits from, and its message. *)
Record ForeignExc : Type := {
  exc_class : string;
  exc_bases : list string;
  exc_msg : string
}.

(** [isinstance(e, cls)]. *)
Definition isinstance (e : ForeignExc) (cls : string) : bool :=
  String.eqb cls (exc_class e) || existsb (String.eqb cls) (exc_bases e).

(** Exceptions the pass itself raises, and foreign ones passing through. *)
Inductive exn : Type :=
| KeyError (key : string)
| AssertionError (msg : string)
| AttributeError (msg : string)
| ValueError (msg : string)
| TypeError (msg : string)
| UnboundLocalError (name : string)
| OlivePassError (msg : string) (cause : option exn)
| Foreign (e : ForeignExc).

(** Keyword arguments of an external call. *)
Abbreviation Dict := (gmap string Value).

(** Observable events of a run, in program order. *)
Inductive Event : Type :=
| LogWarning (msg : string) (keys : list string)
| LogInfo (msg : string)
| CallResolveOnnxPath
| CallMkdir
| CallExists
| CallQuantPreProcess
| CallOnnxLoad
| CallModelProtoToFile
| CallGetLocalPathFromRoot
| CallDataloaderFunc (func data_dir batch_size : Value) (kwargs : Value)
| CallValidateConfig (data_config : Value)
| CallCreateCalibrationDataloader
| CallGetQnnQdqConfig (calibrate_method activation_type weight_type per_channel : Value)
| CallQuantizeStatic (model_input : string) (calibration_data_reader : Value) (kwargs : Dict)
| CallQuantizeDynamic (model_input : string) (kwargs : Dict)
| CallTemporaryDirectory
| CallCleanup
| CallModelProtoToOliveModel.

(** A computation: the events it produced, then an exception or a result. *)
Definition M (A : Type) : Type := list Event * (exn + A).

Definition ret {A} (a : A) : M A := ([], inr a).
Definition raise {A} (e : exn) : M A := ([], inl e).
Definition emit (ev : Event) : M unit := ([ev], inr tt).

Definition bind {A B} (f : A -> M B) (m : M A) : M B :=
  match m with
  | (t, inl e) => (t, inl e)
  | (t, inr a) => let '(t', r) := f a in (t ++ t', r)
  end.

#[global] Instance M_ret : MRet M := @ret.
#[global] Instance M_bind : MBind M := @bind.

(** The events and the outcome of a computation. *)
Definition events {A} (m : M A) : list Event := fst m.
Definition outcome {A} (m : M A) : exn + A := snd m.

(** [d[k]]: raises [KeyError] when the key is absent. *)
Definition getitem (d : Dict) (k : string) : M Value :=
  match d !! k with
  | Some v => ret v
  | None => raise (KeyError k)
  end.

(** The hardware target a pass is configured for; the class is declared
    in [olive.hardware], and the code here reads its execution provider. *)
Record AcceleratorSpec : Type := {
  accelerator_type : string;
  execution_provider : option string
}.

(** ** Search-parameter descriptors and parameter tables *)

(** Modelled from the spec: the search-parameter classes, imported here
    from the search strategy module (section 3, SearchValue).  The
    value-space descriptor of a parameter: a fixed value, an enumerated set,
    or a table keyed by the values of named parent parameters with a
    fall-back branch. *)
Inductive SearchValue : Type :=
| Fixed (v : Value)
| Categorical (support : list Value)
| Conditional (parents : list string)
              (support : list (list Value * SearchValue))
              (default : SearchValue).

(** Modelled from the spec: [Boolean()] of the search-parameter module,
    which is not part of this file; the enumerated set of the two truth
    values. *)
Definition Boolean : SearchValue := Categorical [VBool true; VBool false].

(** Modelled from the spec: [Conditional.get_invalid_choice()] of the
    search-parameter module; a branch that carries the reserved sentinel
    [INVALID] as its value. *)
Definition Conditional_get_invalid_choice : SearchValue := Fixed VInvalid.

(** Modelled from the spec: [Conditional.get_ignored_choice()] of the
    search-parameter module; a branch that carries the reserved sentinel
    [IGNORED] as its value. *)
Definition Conditional_get_ignored_choice : SearchValue := Fixed VIgnored.

(** Modelled from the spec: [ConditionalDefault.get_ignored_choice()], the
    sentinel itself, used as one value of a conditional default. *)
Definition ConditionalDefault_get_ignored_choice : SearchValue := Fixed VIgnored.

(** Modelled from the spec: the category tag of a parameter (plain, opaque
    object, data reference), declared in the pass-configuration module. *)
Inductive ParamCategory : Type := NONE | OBJECT | DATA.

(** Modelled from the spec: one row of a parameter table
    ([PassConfigParam], section 3, ParamSpec), declared in the
    pass-configuration module.  A plain default
    value [v] is [Fixed v]; a parameter declared without [default_value]
    has default [None].  The free-text [description] is not modelled. *)
Record PassConfigParam : Type := {
  type_ : string;
  default_value : SearchValue;
  searchable_values : option SearchValue;
  category : ParamCategory
}.

Definition Table : Type := list (string * PassConfigParam).

Fixpoint table_get (k : string) (t : Table) : option PassConfigParam :=
  match t with
  | [] => None
  | (k', p) :: r => if String.eqb k k' then Some p else table_get k r
  end.

(** [t[k] = p]: an existing key keeps its position, a new key goes last. *)
Fixpoint table_set (k : string) (p : PassConfigParam) (t : Table) : Table :=
  match t with
  | [] => [(k, p)]
  | (k', p') :: r =>
      if String.eqb k k' then (k, p) :: r else (k', p') :: table_set k p r
  end.

(** [t.update(u)]. *)
Definition update (t u : Table) : Table :=
  fold_left (fun acc kp => table_set (fst kp) (snd kp) acc) u t.

(** [t[k].field = ...]: raises [KeyError] when [k] is absent. *)
Definition table_modify (k : string) (f : PassConfigParam -> PassConfigParam)
    (t : Table) : M Table :=
  match table_get k t with
  | Some p => ret (table_set k (f p) t)
  | None => raise (KeyError k)
  end.

Definition set_searchable_values (sv : SearchValue) (p : PassConfigParam) : PassConfigParam :=
  {| type_ := type_ p; default_value := default_value p;
     searchable_values := Some sv; category := category p |}.

Definition set_default_value (dv : SearchValue) (p : PassConfigParam) : PassConfigParam :=
  {| type_ := type_ p; default_value := dv;
     searchable_values := searchable_values p; category := category p |}.

Definition param (ty : string) (dv : Value) (sv : option SearchValue) : PassConfigParam :=
  {| type_ := ty; default_value := Fixed dv; searchable_values := sv; category := NONE |}.

Section Tables.

(** The branch a [Conditional] and a [ConditionalDefault] fall back to when
    they are built without a [default] argument; fixed by the
    search-parameter module. *)
Variable Conditional_default : SearchValue.
Variable ConditionalDefault_default : SearchValue.

(** The external-data parameter group of [olive.passes.onnx.common]. *)
Variable get_external_data_config : Table.

(** [ConditionalDefault(parents, support)]: the support maps parent tuples
    to plain values. *)
Definition ConditionalDefault (parents : list string)
    (support : list (list Value * SearchValue)) : SearchValue :=
  Conditional parents support ConditionalDefault_default.

(** common config for both static and dynamic quantization *)
Definition _onnx_quantization_config : Table :=
  [ ("weight_type",
      param "str" (VStr "QInt8") (Some (Categorical [VStr "QInt8"; VStr "QUInt8"])));
    ("op_types_to_quantize", param "list" VNone None);
    ("nodes_to_quantize", param "list" VNone None);
    ("nodes_to_exclude", param "list" VNone None);
    ("per_channel", param "bool" (VBool false) (Some Boolean));
    ("reduce_range", param "bool" (VBool false) (Some Boolean));
    ("quant_preprocess", param "bool" (VBool true) (Some Boolean)) ].

Definition _exposed_extra_options_config : Table :=
  [ ("extra.Sigmoid.nnapi", param "bool" (VBool false) None);
    ("ActivationSymmetric", param "bool" (VBool false) None);
    ("WeightSymmetric", param "bool" (VBool true) None);
    ("EnableSubgraph", param "bool" (VBool false) None);
    ("ForceQuantizeNoInputCheck", param "bool" (VBool false) None);
    ("MatMulConstBOnly",
      {| type_ := "bool";
         default_value :=
           ConditionalDefault ["quant_mode"]
             [ ([VStr "dynamic"], Fixed (VBool true));
               ([VStr "static"], Fixed (VBool false)) ];
         searchable_values := None;
         category := NONE |}) ].

Definition _extra_options_config : Table :=
  [ ("extra_options", param "dict" VNone None) ].

(** static quantization specific config *)
Definition _static_dataloader_config : Table :=
  [ ("data_dir",
      {| type_ := "OLIVE_RESOURCE_ANNOTATIONS"; default_value := Fixed VNone;
         searchable_values := None; category := DATA |});
    ("batch_size", param "int" (VInt 1) None);
    ("dataloader_func",
      {| type_ := "Union[Callable, str]"; default_value := Fixed VNone;
         searchable_values := None; category := OBJECT |});
    ("dataloader_func_kwargs", param "Dict[str, Any]" VNone None);
    ("data_config", param "Union[DataConfig, Dict]" VNone None) ].

(** The search space of [activation_type], conditional on [quant_format]
    and [weight_type]. *)
Definition activation_type_searchable_values : SearchValue :=
  Conditional ["quant_format"; "weight_type"]
    [ ([VStr "QDQ"; VStr "QInt8"], Categorical [VStr "QInt8"]);
      ([VStr "QDQ"; VStr "QUInt8"], Categorical [VStr "QUInt8"]);
      ([VStr "QOperator"; VStr "QUInt8"], Categorical [VStr "QUInt8"]);
      ([VStr "QOperator"; VStr "QInt8"], Conditional_get_invalid_choice) ]
    Conditional_default.

Definition _static_optional_config : Table :=
  [ ("calibrate_method",
      param "str" (VStr "MinMax")
        (Some (Categorical [VStr "MinMax"; VStr "Entropy"; VStr "Percentile"])));
    ("quant_format",
      param "str" (VStr "QDQ") (Some (Categorical [VStr "QOperator"; VStr "QDQ"])));
    ("activation_type",
      param "str" (VStr "QInt8") (Some activation_type_searchable_values));
    ("prepare_qnn_config", param "bool" (VBool false) None) ].

Definition is_QNN (accelerator_spec : AcceleratorSpec) : bool :=
  match execution_provider accelerator_spec with
  | Some ep => String.eqb ep "QNNExecutionProvider"
  | None => false
  end.

End Tables.


(** ** The external world of a run *)

(** A released version of a library, compared component-wise as
    [packaging.version] does for plain release numbers. *)
Record Version : Type := { major : nat; minor : nat; micro : nat }.

Definition version_lt (a b : Version) : bool :=
  (major a <? major b)%nat
  || ((major a =? major b)%nat
      && ((minor a <? minor b)%nat
          || ((minor a =? minor b)%nat && (micro a <? micro b)%nat))).

(** The outcome of a call into a collaborator: a raised exception or a
    returned value. *)
Definition Ext (A : Type) : Type := (ForeignExc + A)%type.

(** What the collaborators of one run answer.  Every collaborator is called
    at most once per run, so one answer each describes the run; the two
    quantization entry points and the QNN configuration helper answer as
    functions of the arguments they are given.  [render_set] is the order in
    which the interpreter enumerates a set of strings when it is formatted
    into a log record. *)
Record World : Type := {
  OrtVersion : Version;
  enum_has_member : string -> string -> bool;
  resolve_onnx_path : Ext string;
  mkdir : Ext unit;
  preprocessed_exists : Ext bool;
  preprocessed_temp_model_path : string;
  quant_pre_process : Ext unit;
  onnx_load_input : Ext unit;
  model_proto_to_file : Ext unit;
  new_tmp_dir : Ext string;
  get_local_path_from_root : Value -> Ext Value;
  call_object : Value -> Value -> Value -> Value -> Ext Value;
  validate_config : Value -> Ext Value;
  create_calibration_dataloader : Value -> Ext Value;
  get_qnn_qdq_config :
    string -> Value -> Value -> Value -> Value -> Value -> Ext (list (string * Value));
  quantize_static : string -> Value -> Dict -> Ext unit;
  quantize_dynamic : string -> Dict -> Ext unit;
  onnx_load : Ext unit;
  cleanup : Ext unit;
  model_proto_to_olive_model : Ext Value;
  render_set : gset string -> list string
}.

(** The interpreter enumerates every element of a set exactly once. *)
Definition render_set_ok (w : World) : Prop :=
  forall X : gset string, render_set w X ≡ₚ elements X.

(** A call into a collaborator: the event, then its answer. *)
Definition call {A} (ev : Event) (r : Ext A) : M A :=
  emit ev ;;
  match r with
  | inl e => raise (Foreign e)
  | inr a => ret a
  end.

(** Calls into the external libraries (onnxruntime, onnx), as opposed to
    logging, file-system bookkeeping, helpers of this code base and the
    user's own data loader. *)
Definition is_external_library_call (ev : Event) : bool :=
  match ev with
  | CallQuantPreProcess | CallOnnxLoad | CallGetQnnQdqConfig _ _ _ _
  | CallQuantizeStatic _ _ _ | CallQuantizeDynamic _ _ => true
  | _ => false
  end.

(** The external quantization entry points and the QNN helper. *)
Definition is_quantization_call (ev : Event) : bool :=
  match ev with
  | CallGetQnnQdqConfig _ _ _ _
  | CallQuantizeStatic _ _ _ | CallQuantizeDynamic _ _ => true
  | _ => false
  end.

(** [Enum[name]]: the member called [name], or [KeyError]. *)
Definition enum_getitem (w : World) (cls : string) (v : Value) : M Value :=
  match v with
  | VStr s => if enum_has_member w cls s then ret (VEnum cls s) else raise (KeyError s)
  | _ => raise (KeyError "<not a member name>")
  end.

(** A dictionary held as a value, read as a finite map and back. *)
Definition dict_of_value (d : list (string * Value)) : Dict := list_to_map d.
Definition value_of_dict (d : Dict) : Value := VDict (map_to_list d).

(** ** The quantization pass *)

Module OnnxQuantization.

Section Pass.

Variable Conditional_default : SearchValue.
Variable ConditionalDefault_default : SearchValue.
Variable get_external_data_config : Table.

(** *** Parameter table *)

Definition quant_mode_param : PassConfigParam :=
  param "str" (VStr "static") (Some (Categorical [VStr "dynamic"; VStr "static"])).

(** The loop over [static_optional_config.values()]: the default becomes
    conditional on [quant_mode], and so does the search space. *)
Definition make_conditional_on_quant_mode (value : PassConfigParam) : PassConfigParam :=
  {| type_ := type_ value;
     default_value :=
       ConditionalDefault ConditionalDefault_default ["quant_mode"]
         [ ([VStr "static"], default_value value);
           ([VStr "dynamic"], ConditionalDefault_get_ignored_choice) ];
     searchable_values :=
       match searchable_values value with
       | Some (Categorical support) =>
           Some (Conditional ["quant_mode"]
                   [ ([VStr "static"], Categorical support) ]
                   Conditional_get_ignored_choice)
       | Some (Conditional parents support _) =>
           Some (Conditional ("quant_mode" :: parents)
                   (map (fun kv => (VStr "static" :: fst kv, snd kv)) support)
                   Conditional_get_ignored_choice)
       | other => other
       end;
     category := category value |}.

Definition _default_config (accelerator_spec : AcceleratorSpec) : M Table :=
  let config := [ ("quant_mode", quant_mode_param) ] in
  let config := update config _onnx_quantization_config in
  let config := update config _static_dataloader_config in
  let static_optional_config :=
    map (fun kv => (fst kv, make_conditional_on_quant_mode (snd kv)))
        (_static_optional_config Conditional_default) in
  let config := update config static_optional_config in
  let config := update config (_exposed_extra_options_config ConditionalDefault_default) in
  let config := update config _extra_options_config in
  let config := update config get_external_data_config in
  ret config.

(** *** Search-point validation *)

Definition S8S8_warning : string :=
  "S8S8 with QOperator will be slow on x86-64 CPUs and should be avoided in general, try QDQ instead.".

Definition EnableSubgraph_info : string :=
  "EnableSubgraph is not supported for static quantization.".

(** The dictionary the validator inspects: [search_point or {}], replaced
    by [self.config_at_search_point(search_point)] when [with_fixed_value]
    is set.  [config_at_search_point] belongs to the pass base class and is
    a parameter here. *)
Definition inspected_config
    (config_at_search_point : option Dict -> M Dict)
    (search_point : option Dict) (with_fixed_value : bool) : M Dict :=
  if with_fixed_value then config_at_search_point search_point
  else ret (default ∅ search_point).

(** The condition of the advisory rule; [and] evaluates left to right and
    stops at the first false operand, so later keys are only read when the
    earlier comparisons hold. *)
Definition s8s8_qoperator (config : Dict) : M bool :=
  weight_type ← getitem config "weight_type";
  if py_eq_str weight_type "QInt8" then
    activation_type ← getitem config "activation_type";
    if py_eq_str activation_type "QInt8" then
      quant_format ← getitem config "quant_format";
      ret (py_eq_str quant_format "QOperator")
    else ret false
  else ret false.

Definition validate_search_point
    (config_at_search_point : option Dict -> M Dict)
    (search_point : option Dict) (accelerator_spec : AcceleratorSpec)
    (with_fixed_value : bool) : M bool :=
  config ← inspected_config config_at_search_point search_point with_fixed_value;
  quant_mode ← getitem config "quant_mode";
  if py_eq_str quant_mode "static" then
    slow ← s8s8_qoperator config;
    (if slow : bool then emit (LogWarning S8S8_warning []) else ret tt) ;;
    EnableSubgraph ← getitem config "EnableSubgraph";
    if py_is_True EnableSubgraph then
      emit (LogInfo EnableSubgraph_info) ;; ret false
    else ret true
  else ret true.



(** *** Running the pass on one configuration *)

(** [deepcopy] is the identity on immutable values and is left implicit:
    [config] is never mutated, [run_config] is the working copy. *)

Variable w : World.

Definition exposed_keys : list string :=
  map fst (_exposed_extra_options_config ConditionalDefault_default).

Definition calibration_required : string :=
  "dataloader_func or data_config is required for static quantization.".

Definition overwritten_warning : string :=
  "Extra config keys %s are already exposed in the pass config. They will be overwritten by the corresponding pass config parameter values.".

Definition qnn_version_error : string :=
  "prepare_qnn_config is only supported for onnxruntime-qnn>=1.17.0".

(** [assert config["dataloader_func"] or config["data_config"]]. *)
Definition assert_calibration_source (config : Dict) : M unit :=
  dataloader_func ← getitem config "dataloader_func";
  supplied ← (if py_truthy dataloader_func then ret true
              else data_config ← getitem config "data_config";
                   ret (py_truthy data_config));
  if supplied : bool then ret tt else raise (AssertionError calibration_required).

(** [deepcopy(config["extra_options"]) if config["extra_options"] else {}],
    followed by the first use of the result as a dictionary. *)
Definition initial_extra_options (config : Dict) : M Dict :=
  extra_options ← getitem config "extra_options";
  if py_truthy extra_options then
    match extra_options with
    | VDict d => ret (dict_of_value d)
    | _ => raise (AttributeError "object has no attribute 'keys'")
    end
  else ret ∅.

(** The loop over the exposed keys: each value moves from the run
    configuration into the extra options. *)
Fixpoint move_exposed (keys : list string) (extra_options run_config : Dict)
    : M (Dict * Dict) :=
  match keys with
  | [] => ret (extra_options, run_config)
  | key :: rest =>
      v ← getitem run_config key;
      move_exposed rest (<[key := v]> extra_options) (delete key run_config)
  end.

Definition _quant_preprocess (model : string) : M string :=
  emit CallQuantPreProcess ;;
  match quant_pre_process w with
  | inr _ => ret (preprocessed_temp_model_path w)
  | inl e =>
      if isinstance e "Exception" then
        emit (LogWarning "Failed to run quantization preprocessing with error of %s. Using original model." []) ;;
        call CallOnnxLoad (onnx_load_input w) ;;
        call CallModelProtoToFile (model_proto_to_file w) ;;
        ret (preprocessed_temp_model_path w)
      else raise (Foreign e)
  end.

Definition preprocess (run_config : Dict) (model : string) : M string :=
  call CallMkdir (mkdir w) ;;
  quant_preprocess ← getitem run_config "quant_preprocess";
  if py_truthy quant_preprocess then
    present ← call CallExists (preprocessed_exists w);
    if negb present then
      emit (LogInfo "Preprocessing model for quantization") ;;
      _quant_preprocess model
    else
      emit (LogInfo "Already processed model for quantization, skipping preprocessing") ;;
      ret (preprocessed_temp_model_path w)
  else ret model.

Definition v1_17_0 : Version := {| major := 1; minor := 17; micro := 0 |}.
Definition v1_16_0 : Version := {| major := 1; minor := 16; micro := 0 |}.

(** [run_config.get("prepare_qnn_config", False) and OrtVersion < 1.17.0]. *)
Definition check_qnn_version (run_config : Dict) : M unit :=
  if py_truthy (default (VBool false) (run_config !! "prepare_qnn_config"))
     && version_lt (OrtVersion w) v1_17_0
  then raise (OlivePassError qnn_version_error None)
  else ret tt.

Definition to_delete (is_static : bool) : list string :=
  [ "quant_mode"; "script_dir"; "user_script"; "quant_preprocess";
    "data_config"; "prepare_qnn_config" ]
  ++ map fst get_external_data_config
  ++ (if is_static then map fst _static_dataloader_config
      else map fst _static_dataloader_config
           ++ map fst (_static_optional_config Conditional_default)).

(** [for key in keys: if key in d: del d[key]]. *)
Definition delete_keys (keys : list string) (d : Dict) : Dict :=
  fold_left (fun acc key => delete key acc) keys d.

(** The update of string values to enum values, and of [extra_options]. *)
Definition to_enum_values (is_static : bool) (extra_options run_config : Dict)
    : M Dict :=
  if is_static then
    v ← getitem run_config "calibrate_method";
    calibrate_method ← enum_getitem w "CalibrationMethod" v;
    v ← getitem run_config "quant_format";
    quant_format ← enum_getitem w "QuantFormat" v;
    v ← getitem run_config "activation_type";
    activation_type ← enum_getitem w "QuantType" v;
    v ← getitem run_config "weight_type";
    weight_type ← enum_getitem w "QuantType" v;
    ret (<["extra_options" := value_of_dict extra_options]>
         (<["weight_type" := weight_type]>
          (<["activation_type" := activation_type]>
           (<["quant_format" := quant_format]>
            (<["calibrate_method" := calibrate_method]> run_config)))))
  else
    v ← getitem run_config "weight_type";
    weight_type ← enum_getitem w "QuantType" v;
    ret (<["extra_options" := value_of_dict extra_options]>
         (<["weight_type" := weight_type]> run_config)).

Definition set_optimize_model (run_config : Dict) : Dict :=
  if version_lt (OrtVersion w) v1_16_0
  then <["optimize_model" := VBool false]> run_config
  else run_config.

(** The state of a run after the optional preprocessing step. *)
Record Inputs : Type := {
  in_is_static : bool;
  in_output_model_path : string;
  in_extra_options : Dict;
  in_run_config : Dict;
  in_model : string
}.

(** The state of a run once the keyword arguments are built. *)
Record Prepared : Type := {
  is_static : bool;
  model_path : string;
  run_config : Dict;
  output_model_path : string;
  tmp_model_path : string
}.

(** From the start of [_run_for_config] to the end of preprocessing. *)
Definition prepare_inputs (model : string) (config : Dict) : M Inputs :=
  let run_config := config in
  quant_mode ← getitem run_config "quant_mode";
  let is_static := py_eq_str quant_mode "static" in
  (if is_static then assert_calibration_source config else ret tt) ;;
  output_model_path ← call CallResolveOnnxPath (resolve_onnx_path w);
  extra_options ← initial_extra_options config;
  let intersection : gset string := dom extra_options ∩ list_to_set exposed_keys in
  (if bool_decide (intersection = ∅) then ret tt
   else emit (LogWarning overwritten_warning (render_set w intersection))) ;;
  moved ← move_exposed exposed_keys extra_options run_config;
  model ← preprocess (snd moved) model;
  ret {| in_is_static := is_static; in_output_model_path := output_model_path;
         in_extra_options := fst moved; in_run_config := snd moved;
         in_model := model |}.

(** From the version check to the creation of the temporary output
    directory. *)
Definition prepare_arguments (i : Inputs) : M Prepared :=
  check_qnn_version (in_run_config i) ;;
  run_config ← to_enum_values (in_is_static i) (in_extra_options i) (in_run_config i);
  let run_config := delete_keys (to_delete (in_is_static i)) run_config in
  let run_config := set_optimize_model run_config in
  tmp_model_path ← call CallTemporaryDirectory (new_tmp_dir w);
  ret {| is_static := in_is_static i; model_path := in_model i;
         run_config := run_config;
         output_model_path := in_output_model_path i;
         tmp_model_path := tmp_model_path |}.

Definition prepare (model : string) (config : Dict) : M Prepared :=
  i ← prepare_inputs model config;
  prepare_arguments i.

(** The calibration data reader of a static run.  When neither source is
    set the name [dataloader] stays unbound and its first use fails; the
    assertion at the start of a static run excludes that case. *)
Definition get_dataloader (data_root : Value) (config : Dict) : M Value :=
  dataloader_func ← getitem config "dataloader_func";
  if py_truthy dataloader_func then
    data_dir ← getitem config "data_dir";
    data_dir ← call CallGetLocalPathFromRoot (get_local_path_from_root w data_dir);
    batch_size ← getitem config "batch_size";
    kwargs ← getitem config "dataloader_func_kwargs";
    let kwargs := if py_truthy kwargs then kwargs else VDict [] in
    call (CallDataloaderFunc dataloader_func data_dir batch_size kwargs)
         (call_object w dataloader_func data_dir batch_size kwargs)
  else
    data_config ← getitem config "data_config";
    if py_truthy data_config then
      data_config ← call (CallValidateConfig data_config) (validate_config w data_config);
      call CallCreateCalibrationDataloader (create_calibration_dataloader w data_root)
    else raise (UnboundLocalError "dataloader").

(** [{k: v for k, v in inspect.getmembers(qnn_config) if not k.startswith("_")}]. *)
Definition public_members (members : list (string * Value)) : Dict :=
  fold_left (fun acc kv => <[fst kv := snd kv]> acc)
    (filter (fun kv => negb (String.prefix "_" (fst kv))) members) ∅.

(** The QNN branch: the run configuration is replaced by the attributes of
    the configuration object the helper returns. *)
Definition prepare_qnn (config : Dict) (model : string) (dataloader : Value)
    (run_config : Dict) : M Dict :=
  prepare_qnn_config ← getitem config "prepare_qnn_config";
  if py_truthy prepare_qnn_config then
    calibrate_method ← getitem run_config "calibrate_method";
    activation_type ← getitem run_config "activation_type";
    weight_type ← getitem run_config "weight_type";
    per_channel ← getitem run_config "per_channel";
    members ← call (CallGetQnnQdqConfig calibrate_method activation_type weight_type per_channel)
                   (get_qnn_qdq_config w model dataloader calibrate_method
                      activation_type weight_type per_channel);
    ret (delete "calibration_data_reader" (public_members members))
  else ret run_config.

(** A keyword passed both by name and through [**run_config]: the call
    itself raises [TypeError] before the callee runs. *)
Definition repeated_keyword (explicit : list string) (run_config : Dict) : bool :=
  existsb (fun k => bool_decide (is_Some (run_config !! k))) explicit.

(** [except (AttributeError, ValueError) as e: raise OlivePassError(msg) from e]. *)
Definition reraise_as_pass_error (msg : string) (e : ForeignExc) : exn :=
  if isinstance e "AttributeError" || isinstance e "ValueError"
  then OlivePassError msg (Some (Foreign e))
  else Foreign e.

Definition call_quantize_static (model : string) (dataloader : Value)
    (run_config : Dict) : M unit :=
  if repeated_keyword ["model_input"; "model_output"; "calibration_data_reader";
                       "use_external_data_format"] run_config
  then raise (TypeError "got multiple values for keyword argument")
  else
    emit (CallQuantizeStatic model dataloader run_config) ;;
    match quantize_static w model dataloader run_config with
    | inr _ => ret tt
    | inl e => raise (reraise_as_pass_error "quantize_static failed." e)
    end.

Definition call_quantize_dynamic (model : string) (run_config : Dict) : M unit :=
  if repeated_keyword ["model_input"; "model_output"; "use_external_data_format"]
       run_config
  then raise (TypeError "got multiple values for keyword argument")
  else
    emit (CallQuantizeDynamic model run_config) ;;
    match quantize_dynamic w model run_config with
    | inr _ => ret tt
    | inl e => raise (reraise_as_pass_error "quantize_dynamic failed." e)
    end.

(** The keyword arguments a static run hands to [quantize_static]. *)
Definition static_arguments (data_root : Value) (config : Dict) (p : Prepared)
    : M (Value * Dict) :=
  dataloader ← get_dataloader data_root config;
  run_config ← prepare_qnn config (model_path p) dataloader (run_config p);
  ret (dataloader,
       delete_keys ["calibration_data_reader"; "use_external_data_format"] run_config).

Definition quantize (data_root : Value) (config : Dict) (p : Prepared) : M unit :=
  if is_static p then
    args ← static_arguments data_root config p;
    call_quantize_static (model_path p) (fst args) (snd args)
  else call_quantize_dynamic (model_path p) (run_config p).

Definition _run_for_config (model : string) (data_root : Value) (config : Dict)
    (output_model_path : string) : M Value :=
  p ← prepare model config;
  quantize data_root config p ;;
  call CallOnnxLoad (onnx_load w) ;;
  call CallCleanup (cleanup w) ;;
  call CallModelProtoToOliveModel (model_proto_to_olive_model w).

End Pass.

End OnnxQuantization.

(** ** The two specialised passes *)

Module OnnxDynamicQuantization.

Section Pass.

Variable ConditionalDefault_default : SearchValue.
Variable get_external_data_config : Table.

Definition _default_config (accelerator_spec : AcceleratorSpec) : M Table :=
  if is_QNN accelerator_spec then
    raise (ValueError "QNNExecutionProvider is not supported for dynamic quantization.")
  else
    let config := [ ("quant_mode", param "str" (VStr "dynamic") None) ] in
    let config := update config _onnx_quantization_config in
    let config := update config (_exposed_extra_options_config ConditionalDefault_default) in
    let config := update config _extra_options_config in
    let config := update config get_external_data_config in
    ret config.

End Pass.

End OnnxDynamicQuantization.

Module OnnxStaticQuantization.

Section Pass.

Variable Conditional_default : SearchValue.
Variable ConditionalDefault_default : SearchValue.
Variable get_external_data_config : Table.

Definition qnn_types : SearchValue :=
  Categorical [VStr "QInt8"; VStr "QUInt8"; VStr "QUInt16"; VStr "QInt16"].

Definition _default_config (accelerator_spec : AcceleratorSpec) : M Table :=
  let config := [ ("quant_mode", param "str" (VStr "static") None) ] in
  let config := update config _onnx_quantization_config in
  let config := update config _static_dataloader_config in
  let config := update config (_static_optional_config Conditional_default) in
  let config := update config (_exposed_extra_options_config ConditionalDefault_default) in
  let config := update config _extra_options_config in
  let config := update config get_external_data_config in
  if is_QNN accelerator_spec then
    config ← table_modify "quant_format"
               (set_searchable_values (Categorical [VStr "QDQ"])) config;
    config ← table_modify "activation_type" (set_searchable_values qnn_types) config;
    config ← table_modify "weight_type" (set_searchable_values qnn_types) config;
    config ← table_modify "prepare_qnn_config" (set_default_value (Fixed (VBool true))) config;
    config ← table_modify "quant_preprocess" (set_default_value (Fixed (VBool false))) config;
    ret config
  else ret config.

End Pass.

End OnnxStaticQuantization.

(** ** Resolution of a search point against a parameter table *)

(** The resolution engine itself (the walk over conditional descriptors
    and the run-configuration resolution built on it) lives in the search
    strategy and pass base modules, which this file only imports. *)

(** Modelled from the spec: the error taxonomy of resolution (section 7);
    [UndeclaredParent] covers a parent that is neither in the point nor in
    the table, a case the spec leaves open. *)
Inductive ResolveError : Type :=
| CyclicDependency (name : string)
| UnresolvedCategorical (name : string)
| InvalidSearchPoint (name : string) (blocking : list (string * Value))
| UndeclaredParent (name : string).

(** Modelled from the spec: the outcome of resolving one descriptor
    (section 4.1): a real result, or one of the two sentinel outcomes;
    [INVALID] names the parent combination whose branch was invalid. *)
Inductive Resolved (A : Type) : Type :=
| Concrete (a : A)
| INVALID (blocking : list (string * Value))
| IGNORED.

Arguments Concrete {A} a.
Arguments INVALID {A} blocking.
Arguments IGNORED {A}.

Definition Res (A : Type) : Type := (ResolveError + A)%type.

Definition is_ignored (v : Value) : bool :=
  match v with
  | VIgnored => true
  | _ => false
  end.

(** Modelled from the spec: a concrete value is one that is not a
    sentinel (section 3). *)
Definition is_concrete (v : Value) : bool :=
  match v with
  | VInvalid | VIgnored => false
  | _ => true
  end.

(** Modelled from the spec: a parameter already present with a concrete
    value in the point (section 4.3, step 1). *)
Definition has_concrete (point : Dict) (name : string) : bool :=
  match point !! name with
  | Some v => is_concrete v
  | None => false
  end.

(** Modelled from the spec: the key of a conditional, read in parent
    order (section 4.1, step 1). *)
Fixpoint collect {A} (f : string -> Res A) (names : list string) : Res (list A) :=
  match names with
  | [] => inr []
  | n :: rest =>
      match f n with
      | inl e => inl e
      | inr a =>
          match collect f rest with
          | inl e => inl e
          | inr l => inr (a :: l)
          end
      end
  end.

(** Modelled from the spec: the walk over one descriptor (section 4.1).
    [Fixed v] resolves to [v]; a [Conditional] builds its key from the
    parents' current values in parent order, takes the branch whose key is
    exactly that tuple, and otherwise its default branch; a sentinel found
    in a branch is passed upwards unchanged.  What a bare [Categorical]
    yields is left to [categorical]: an error when a default is asked for,
    the set itself when the allowed values are. *)
Fixpoint resolve_descriptor {A} (parent_value : string -> Res Value)
    (fixed : Value -> A) (categorical : list Value -> Res (Resolved A))
    (blocking : list (string * Value)) (sv : SearchValue) : Res (Resolved A) :=
  match sv with
  | Fixed VInvalid => inr (INVALID blocking)
  | Fixed VIgnored => inr IGNORED
  | Fixed v => inr (Concrete (fixed v))
  | Categorical support => categorical support
  | Conditional parents support default =>
      match collect parent_value parents with
      | inl e => inl e
      | inr key =>
          let blocking := zip parents key in
          (fix pick (branches : list (list Value * SearchValue)) : Res (Resolved A) :=
             match branches with
             | [] => resolve_descriptor parent_value fixed categorical blocking default
             | (k, branch) :: rest =>
                 if key_eqb k key
                 then resolve_descriptor parent_value fixed categorical blocking branch
                 else pick rest
             end) support
      end
  end.

Section Resolver.

Variable table : Table.

(** Modelled from the spec: the sentinels are carried as values
    (section 3). *)
Definition value_of_resolved (r : Resolved Value) : Value :=
  match r with
  | Concrete v => v
  | INVALID _ => VInvalid
  | IGNORED => VIgnored
  end.

(** Modelled from the spec: the current value of a parent (section 4.1,
    step 1).  A parent present in the point is read from it; an unresolved
    parent is resolved first, depth-first, from its own default; a parent
    that is already being resolved is a [CyclicDependency].  Every descent
    adds a declared name to [visiting], so the recursion is bounded by the
    number of rows; [fuel] carries that bound, and any fuel above the number
    of rows not yet visited gives the same answer
    ([current_value_fuel_irrelevant]). *)
Fixpoint current_value (fuel : nat) (visiting : list string) (point : Dict)
    (name : string) {struct fuel} : Res Value :=
  match point !! name with
  | Some v => inr v
  | None =>
      match fuel with
      | O => inl (CyclicDependency name)
      | S fuel' =>
          if bool_decide (name ∈ visiting) then inl (CyclicDependency name)
          else
            match table_get name table with
            | None => inl (UndeclaredParent name)
            | Some ps =>
                match resolve_descriptor
                        (current_value fuel' (name :: visiting) point)
                        (fun v => v)
                        (fun _ => inl (UnresolvedCategorical name))
                        [] (default_value ps) with
                | inl e => inl e
                | inr r => inr (value_of_resolved r)
                end
            end
      end
  end.

(** Modelled from the spec: [resolve_default] and [resolve_allowed] of
    section 4.1, for the descriptor of parameter [name]. *)
Definition resolve_default (point : Dict) (name : string) (sv : SearchValue)
    : Res (Resolved Value) :=
  resolve_descriptor (current_value (S (length table)) [name] point)
    (fun v => v) (fun _ => inl (UnresolvedCategorical name)) [] sv.

Definition resolve_allowed (point : Dict) (name : string) (sv : SearchValue)
    : Res (Resolved (list Value)) :=
  resolve_descriptor (current_value (S (length table)) [name] point)
    (fun v => [v]) (fun support => inr (Concrete support)) [] sv.

(** Modelled from the spec: run-configuration resolution (section 4.3,
    steps 1 to 3), row by row in table order.  A parameter the point
    already gives a concrete value is kept; otherwise its default is
    resolved: a value is stored back, [IGNORED] removes the parameter, and
    [INVALID] fails the whole resolution with [InvalidSearchPoint]. *)
Fixpoint resolve_rows (rows : Table) (point : Dict) : Res Dict :=
  match rows with
  | [] => inr point
  | (name, ps) :: rest =>
      if has_concrete point name then resolve_rows rest point
      else
        match resolve_default point name (default_value ps) with
        | inl e => inl e
        | inr (INVALID blocking) => inl (InvalidSearchPoint name blocking)
        | inr IGNORED => resolve_rows rest (delete name point)
        | inr (Concrete v) => resolve_rows rest (<[name := v]> point)
        end
  end.

(** Modelled from the spec: the effective configuration has no
    [IGNORED] entry (section 3). *)
Definition drop_ignored (point : Dict) : Dict :=
  filter (fun kv => is_ignored (snd kv) = false) point.

(** Modelled from the spec: [resolve] of section 4.3. *)
Definition resolve (point : Dict) : Res Dict :=
  match resolve_rows table point with
  | inl e => inl e
  | inr config => inr (drop_ignored config)
  end.

End Resolver.

(** ** Concrete inputs *)

(** A fully resolved static point with the slow combination. *)
Definition s8s8_point : Dict :=
  list_to_map
    [ ("quant_mode", VStr "static"); ("weight_type", VStr "QInt8");
      ("activation_type", VStr "QInt8"); ("quant_format", VStr "QOperator");
      ("EnableSubgraph", VBool false) ].

Definition cpu_spec : AcceleratorSpec :=
  {| accelerator_type := "cpu"; execution_provider := Some "CPUExecutionProvider" |}.

(** A static point that lacks [activation_type] and [quant_format]. *)
Definition partial_point : Dict :=
  list_to_map
    [ ("quant_mode", VStr "static"); ("weight_type", VStr "QUInt8");
      ("EnableSubgraph", VBool false) ].

(** A fully resolved static point that enables subgraph quantization. *)
Definition subgraph_point : Dict :=
  list_to_map
    [ ("quant_mode", VStr "static"); ("weight_type", VStr "QInt8");
      ("activation_type", VStr "QInt8"); ("quant_format", VStr "QDQ");
      ("EnableSubgraph", VBool true) ].

(** The keys the validator reads on a dictionary, in the order and under
    the conditions it reads them: some key it reads is absent. *)
Definition touches_missing_key (config : Dict) : Prop :=
  config !! "quant_mode" = None
  \/ (config !! "quant_mode" = Some (VStr "static")
      /\ (config !! "weight_type" = None
          \/ config !! "EnableSubgraph" = None
          \/ (config !! "weight_type" = Some (VStr "QInt8")
              /\ (config !! "activation_type" = None
                  \/ (config !! "activation_type" = Some (VStr "QInt8")
                      /\ config !! "quant_format" = None))))).

Definition qnn_spec : AcceleratorSpec :=
  {| accelerator_type := "npu"; execution_provider := Some "QNNExecutionProvider" |}.

(** The members of the onnxruntime enumerations the pass indexes by name. *)
Definition ort_enum_has_member (cls name : string) : bool :=
  if String.eqb cls "CalibrationMethod" then
    existsb (String.eqb name) ["MinMax"; "Entropy"; "Percentile"; "Distribution"]
  else if String.eqb cls "QuantFormat" then
    existsb (String.eqb name) ["QOperator"; "QDQ"]
  else if String.eqb cls "QuantType" then
    existsb (String.eqb name) ["QInt8"; "QUInt8"; "QInt16"; "QUInt16"]
  else false.

(** A world in which every collaborator answers without raising, except as
    given for the two quantization entry points. *)
Definition sample_world (v : Version) (cached : bool)
    (members : list (string * Value)) (static_answer dynamic_answer : Ext unit)
    (order : gset string -> list string) : World :=
  {| OrtVersion := v;
     enum_has_member := ort_enum_has_member;
     resolve_onnx_path := inr "out/model.onnx";
     mkdir := inr tt;
     preprocessed_exists := inr cached;
     preprocessed_temp_model_path := "tmp/preprocessed.onnx";
     quant_pre_process := inr tt;
     onnx_load_input := inr tt;
     model_proto_to_file := inr tt;
     new_tmp_dir := inr "tmp/out/model.onnx";
     get_local_path_from_root := fun d => inr d;
     call_object := fun _ _ _ _ => inr (VObj "data_reader");
     validate_config := fun c => inr c;
     create_calibration_dataloader := fun _ => inr (VObj "data_reader");
     get_qnn_qdq_config := fun _ _ _ _ _ _ => inr members;
     quantize_static := fun _ _ _ => static_answer;
     quantize_dynamic := fun _ _ => dynamic_answer;
     onnx_load := inr tt;
     cleanup := inr tt;
     model_proto_to_olive_model := inr (VObj "output_model");
     render_set := order |}.

Definition v1_17 : Version := {| major := 1; minor := 17; micro := 0 |}.
Definition v1_16 : Version := {| major := 1; minor := 16; micro := 0 |}.

Definition sample_external_data_config : Table :=
  [ ("save_as_external_data", param "bool" (VBool false) None);
    ("all_tensors_to_one_file", param "bool" (VBool true) None);
    ("external_data_name", param "str" VNone None);
    ("size_threshold", param "int" (VInt 1024) None);
    ("convert_attribute", param "bool" (VBool false) None) ].

(** A run configuration with every parameter at its declared default, in
    static mode, without a calibration source. *)
Definition default_config : Dict :=
  list_to_map
    [ ("quant_mode", VStr "static");
      ("weight_type", VStr "QInt8");
      ("op_types_to_quantize", VNone);
      ("nodes_to_quantize", VNone);
      ("nodes_to_exclude", VNone);
      ("per_channel", VBool false);
      ("reduce_range", VBool false);
      ("quant_preprocess", VBool true);
      ("data_dir", VNone);
      ("batch_size", VInt 1);
      ("dataloader_func", VNone);
      ("dataloader_func_kwargs", VNone);
      ("data_config", VNone);
      ("calibrate_method", VStr "MinMax");
      ("quant_format", VStr "QDQ");
      ("activation_type", VStr "QInt8");
      ("prepare_qnn_config", VBool false);
      ("extra.Sigmoid.nnapi", VBool false);
      ("ActivationSymmetric", VBool false);
      ("WeightSymmetric", VBool true);
      ("EnableSubgraph", VBool false);
      ("ForceQuantizeNoInputCheck", VBool false);
      ("MatMulConstBOnly", VBool false);
      ("extra_options", VNone);
      ("save_as_external_data", VBool false);
      ("all_tensors_to_one_file", VBool true);
      ("external_data_name", VNone);
      ("size_threshold", VInt 1024);
      ("convert_attribute", VBool false);
      ("script_dir", VNone);
      ("user_script", VNone) ].

(** The same, with a calibration callable. *)
Definition static_config : Dict :=
  <["dataloader_func" := VObj "create_dataloader"]> default_config.

Definition quiet_world : World :=
  sample_world v1_17 false [] (inr tt) (inr tt) elements.

(** A static run that asks for the QNN configuration, on onnxruntime
    1.16.0, with preprocessing enabled and nothing cached. *)
Definition qnn_config_on_old_runtime : Dict :=
  <["prepare_qnn_config" := VBool true]> static_config.

Definition old_world : World :=
  sample_world v1_16 false [] (inr tt) (inr tt) elements.

Definition dynamic_config : Dict :=
  <["quant_mode" := VStr "dynamic"]> default_config.

Definition a_ValueError : ForeignExc :=
  {| exc_class := "ValueError"; exc_bases := ["Exception"; "BaseException"];
     exc_msg := "unsupported operator" |}.

(** A world whose dynamic quantization entry point raises [ValueError]. *)
Definition failing_world : World :=
  sample_world v1_17 true [] (inr tt) (inl a_ValueError) elements.

(** The two external quantization entry points. *)
Definition is_quantize_entry (ev : Event) : bool :=
  match ev with
  | CallQuantizeStatic _ _ _ | CallQuantizeDynamic _ _ => true
  | _ => false
  end.

Section Precedence.

Variable ConditionalDefault_default : SearchValue.

(** The options handed to the quantization call carry, for every exposed
    key, the value the run configuration gives to that key. *)
Definition exposed_values_win (config kwargs : Dict) : Prop :=
  exists options,
    kwargs !! "extra_options" = Some (VDict options)
    /\ forall k, k ∈ OnnxQuantization.exposed_keys ConditionalDefault_default ->
         is_Some (config !! k) /\ dict_of_value options !! k = config !! k.

(** The keys of the caller's [extra_options] that are also exposed. *)
Definition overwritten_keys (config : Dict) : gset string :=
  match config !! "extra_options" with
  | Some (VDict d) =>
      dom (dict_of_value d)
      ∩ list_to_set (OnnxQuantization.exposed_keys ConditionalDefault_default)
  | _ => ∅
  end.

End Precedence.

(** A dynamic run whose caller-supplied [extra_options] name two exposed
    keys and one key that is not exposed. *)
Definition colliding_config : Dict :=
  <["extra_options" :=
      VDict [ ("WeightSymmetric", VBool false);
              ("ActivationSymmetric", VBool true);
              ("CalibMovingAverage", VBool true) ]]> dynamic_config.

(** The public and private attributes of a QNN configuration object. *)
Definition qnn_members : list (string * Value) :=
  [ ("_op_types", VNone);
    ("activation_type", VEnum "QuantType" "QUInt8");
    ("calibrate_method", VEnum "CalibrationMethod" "MinMax");
    ("calibration_data_reader", VObj "data_reader");
    ("extra_options", VDict [ ("DedicatedQDQPair", VBool false) ]);
    ("per_channel", VBool false);
    ("quant_format", VEnum "QuantFormat" "QDQ");
    ("use_external_data_format", VBool false);
    ("weight_type", VEnum "QuantType" "QUInt8") ].

Definition qnn_world : World :=
  sample_world v1_17 true qnn_members (inr tt) (inr tt) elements.

(** A static run for QNN whose [extra_options] name an exposed key. *)
Definition qnn_colliding_config : Dict :=
  <["extra_options" := VDict [ ("WeightSymmetric", VBool false) ]]>
    (<["prepare_qnn_config" := VBool true]> static_config).

(** The quiet world with the opposite enumeration order of sets. *)
Definition reversed_world : World :=
  sample_world v1_17 false [] (inr tt) (inr tt) (fun X => reverse (elements X)).

(** A table in which [activation_type] is resolved from the conditional
    search space of the static optional group. *)
Definition searched_activation_type : Table :=
  [ ("weight_type",
      param "str" (VStr "QInt8") (Some (Categorical [VStr "QInt8"; VStr "QUInt8"])));
    ("quant_format",
      param "str" (VStr "QDQ") (Some (Categorical [VStr "QOperator"; VStr "QDQ"])));
    ("activation_type",
      {| type_ := "str";
         default_value := activation_type_searchable_values (Fixed VInvalid);
         searchable_values := None;
         category := NONE |}) ].

Definition qoperator_qint8_point : Dict :=
  list_to_map [ ("quant_format", VStr "QOperator"); ("weight_type", VStr "QInt8") ].

(** The parameters that only static quantization uses. *)
Definition static_optional_keys : list string :=
  map fst (_static_optional_config (Fixed VInvalid)).

Definition static_only_keys : list string :=
  map fst _static_dataloader_config ++ static_optional_keys.

Definition dynamic_point : Dict := {[ "quant_mode" := VStr "dynamic" ]}.

(** The row of [calibrate_method] in the table of the pass. *)
Definition wrapped_calibrate_method : PassConfigParam :=
  OnnxQuantization.make_conditional_on_quant_mode (Fixed VInvalid)
    (param "str" (VStr "MinMax")
       (Some (Categorical [VStr "MinMax"; VStr "Entropy"; VStr "Percentile"]))).

(** The rows of a table whose parameter is not being resolved yet. *)
Definition unvisited (table : Table) (visiting : list string) : list (string * PassConfigParam) :=
  List.filter (fun row => negb (existsb (String.eqb (fst row)) visiting)) table.

(** ** Further inputs *)

(** A dynamic point that enables subgraph quantization and has no other
    key. *)
Definition dynamic_subgraph_point : Dict :=
  list_to_map [ ("quant_mode", VStr "dynamic"); ("EnableSubgraph", VBool true) ].

(** A fully resolved static point whose [EnableSubgraph] is the integer 1. *)
Definition integer_subgraph_point : Dict :=
  list_to_map
    [ ("quant_mode", VStr "static"); ("weight_type", VStr "QUInt8");
      ("activation_type", VStr "QUInt8"); ("quant_format", VStr "QDQ");
      ("EnableSubgraph", VInt 1) ].

(** The events of the two validation rules on a fully resolved static
    point. *)
Definition advisory_events (weight_type activation_type quant_format : Value)
    : list Event :=
  if py_eq_str weight_type "QInt8" && py_eq_str activation_type "QInt8"
     && py_eq_str quant_format "QOperator"
  then [LogWarning OnnxQuantization.S8S8_warning []] else [].

Definition rejection_events (EnableSubgraph : Value) : list Event :=
  if py_is_True EnableSubgraph
  then [LogInfo OnnxQuantization.EnableSubgraph_info] else [].

(** A quantization entry reached without the QNN branch: the dynamic
    entry, or the static one in a run whose [prepare_qnn_config] is unset. *)
Definition plain_entry (config : Dict) (ev : Event) (kwargs : Dict) : Prop :=
  (exists m, ev = CallQuantizeDynamic m kwargs)
  \/ ((exists m reader, ev = CallQuantizeStatic m reader kwargs)
      /\ exists v, config !! "prepare_qnn_config" = Some v /\ py_truthy v = false).

(** The model file a quantization entry is given. *)
Definition entry_model_input (ev : Event) : option string :=
  match ev with
  | CallQuantizeStatic m _ _ | CallQuantizeDynamic m _ => Some m
  | _ => None
  end.

Definition is_static_entry (ev : Event) : bool :=
  match ev with
  | CallQuantizeStatic _ _ _ => true
  | _ => false
  end.

(** The keys a run removes because the quantization entry points do not
    take them. *)
Definition internal_keys : list string :=
  [ "quant_mode"; "script_dir"; "user_script"; "quant_preprocess";
    "data_config"; "prepare_qnn_config" ].

(** The keys whose string value is replaced by an enum member. *)
Definition converted_keys (static : bool) : list string :=
  if static
  then [ "calibrate_method"; "quant_format"; "activation_type"; "weight_type" ]
  else [ "weight_type" ].

(** The last step of a static run on its keyword arguments. *)
Definition passed_on (static : bool) (run_config : Dict) : Dict :=
  if static
  then OnnxQuantization.delete_keys
         ["calibration_data_reader"; "use_external_data_format"] run_config
  else run_config.

(** The caller's own [extra_options], read as a dictionary. *)
Definition caller_options (config : Dict) : Dict :=
  match config !! "extra_options" with
  | Some (VDict d) => dict_of_value d
  | _ => ∅
  end.

(** The calls that obtain calibration data or a QNN configuration. *)
Definition is_calibration_call (ev : Event) : bool :=
  match ev with
  | CallGetLocalPathFromRoot | CallDataloaderFunc _ _ _ _ | CallValidateConfig _
  | CallCreateCalibrationDataloader | CallGetQnnQdqConfig _ _ _ _ => true
  | _ => false
  end.

Definition is_data_config_call (ev : Event) : bool :=
  match ev with
  | CallValidateConfig _ | CallCreateCalibrationDataloader => true
  | _ => false
  end.

Definition is_dataloader_func_call (ev : Event) : bool :=
  match ev with
  | CallGetLocalPathFromRoot | CallDataloaderFunc _ _ _ _ => true
  | _ => false
  end.

(** The value the last pair with key [k] gives, as a dictionary
    comprehension over the pairs would. *)
Fixpoint last_value (k : string) (pairs : list (string * Value)) : option Value :=
  match pairs with
  | [] => None
  | (k', v) :: rest =>
      match last_value k rest with
      | Some v' => Some v'
      | None => if String.eqb k k' then Some v else None
      end
  end.

(** The events the preparation of a run can produce: log records, path
    resolution, the preprocessing cache and the temporary directory. *)
Definition is_prepare_event (ev : Event) : bool :=
  match ev with
  | LogWarning _ _ | LogInfo _ | CallResolveOnnxPath | CallMkdir | CallExists
  | CallQuantPreProcess | CallOnnxLoad | CallModelProtoToFile
  | CallTemporaryDirectory => true
  | _ => false
  end.

Definition is_preprocess_call (ev : Event) : bool :=
  match ev with
  | CallQuantPreProcess => true
  | _ => false
  end.

(** The quantization entry point behind an entry event returned normally. *)
Definition entry_returned (w : World) (ev : Event) : Prop :=
  match ev with
  | CallQuantizeStatic m reader kwargs => quantize_static w m reader kwargs = inr tt
  | CallQuantizeDynamic m kwargs => quantize_dynamic w m kwargs = inr tt
  | _ => False
  end.

(** The three events that end a run that returns. *)
Definition closing_events : list Event :=
  [ CallOnnxLoad; CallCleanup; CallModelProtoToOliveModel ].

(** ** The 4-bit MatMul quantization pass *)

Module OnnxMatMul4Quantizer.

(** The calls a run makes into its collaborators, in program order, with
    the arguments the code passes. *)
Inductive Call : Type :=
| ImportMatMul4BitsQuantizer
| ResolveOnnxPath (output_model_path : string)
| LoadModel
| NewMatMul4BitsQuantizer (model block_size is_symmetric nodes_to_exclude : Value)
| Process
| TopologicalSort
| ModelProtoToOliveModel (output_model_path : string) (config : Dict).

(** What the collaborators of one run answer.  [resolve_onnx_path] is given
    the output path and the path of the input model, whose file name the
    code passes on; the quantizer object is the one built by the
    constructor, so its two methods answer once each. *)
Record World : Type := {
  OrtVersion : Version;
  import_MatMul4BitsQuantizer : Ext unit;
  resolve_onnx_path : string -> string -> Ext string;
  load_model : Ext Value;
  MatMul4BitsQuantizer : Value -> Value -> Value -> Value -> Ext unit;
  process : Ext unit;
  topological_sort : Ext unit;
  model_proto_to_olive_model : string -> Dict -> Ext Value
}.

(** A computation: the calls it made, then an exception or a result. *)
Definition Run (A : Type) : Type := list Call * (exn + A).

Definition pure {A} (a : A) : Run A := ([], inr a).
Definition fail {A} (e : exn) : Run A := ([], inl e).

Definition and_then {A B} (f : A -> Run B) (m : Run A) : Run B :=
  match m with
  | (t, inl e) => (t, inl e)
  | (t, inr a) => let '(t', r) := f a in (t ++ t', r)
  end.

#[local] Instance Run_ret : MRet Run := @pure.
#[local] Instance Run_bind : MBind Run := @and_then.

Definition calls {A} (m : Run A) : list Call := fst m.

(** A call into a collaborator: the call, then its answer. *)
Definition invoke {A} (c : Call) (r : Ext A) : Run A :=
  match r with
  | inl e => ([c], inl (Foreign e))
  | inr a => ([c], inr a)
  end.

(** [d[k]]: raises [KeyError] when the key is absent. *)
Definition item (d : Dict) (k : string) : Run Value :=
  match d !! k with
  | Some v => pure v
  | None => fail (KeyError k)
  end.

Section Pass.

Variable get_external_data_config : Table.

Definition _default_config (accelerator_spec : AcceleratorSpec) : Table :=
  let config :=
    [ ("block_size", param "int" (VInt 32) None);
      ("is_symmetric", param "bool" (VBool true) None);
      ("nodes_to_exclude", param "list" VNone None) ] in
  update config get_external_data_config.

Variable w : World.

Definition v1_16_2 : Version := {| major := 1; minor := 16; micro := 2 |}.

Definition unsupported_version : string :=
  "MatMul4BitsQuantizer is only supported in onnxruntime >= 1.16.2".

(** The arguments of the constructor are evaluated left to right: the
    model is loaded first, then the three settings are read. *)
Definition _run_for_config (model : string) (data_root : Value) (config : Dict)
    (output_model_path : string) : Run Value :=
  if version_lt (OrtVersion w) v1_16_2 then
    fail (OlivePassError unsupported_version None)
  else
    invoke ImportMatMul4BitsQuantizer (import_MatMul4BitsQuantizer w) ;;
    output_model_path ← invoke (ResolveOnnxPath output_model_path)
                               (resolve_onnx_path w output_model_path model);
    loaded ← invoke LoadModel (load_model w);
    block_size ← item config "block_size";
    is_symmetric ← item config "is_symmetric";
    nodes_to_exclude ← item config "nodes_to_exclude";
    invoke (NewMatMul4BitsQuantizer loaded block_size is_symmetric nodes_to_exclude)
           (MatMul4BitsQuantizer w loaded block_size is_symmetric nodes_to_exclude) ;;
    invoke Process (process w) ;;
    invoke TopologicalSort (topological_sort w) ;;
    invoke (ModelProtoToOliveModel output_model_path config)
           (model_proto_to_olive_model w output_model_path config).

End Pass.

(** The position of a call in the body of [_run_for_config]. *)
Definition stage (c : Call) : nat :=
  match c with
  | ImportMatMul4BitsQuantizer => 0
  | ResolveOnnxPath _ => 1
  | LoadModel => 2
  | NewMatMul4BitsQuantizer _ _ _ _ => 3
  | Process => 4
  | TopologicalSort => 5
  | ModelProtoToOliveModel _ _ => 6
  end.

(** The settings the constructor reads, in the order it reads them. *)
Definition constructor_settings : list string :=
  [ "block_size"; "is_symmetric"; "nodes_to_exclude" ].

(** The first setting of the constructor that a configuration lacks. *)
Definition first_missing (config : Dict) : option string :=
  List.find (fun k => bool_decide (config !! k = None)) constructor_settings.

(** A world in which every collaborator answers normally. *)
Definition sample_world (v : Version) : World :=
  {| OrtVersion := v;
     import_MatMul4BitsQuantizer := inr tt;
     resolve_onnx_path := fun output_model_path _ => inr output_model_path;
     load_model := inr (VObj "ModelProto");
     MatMul4BitsQuantizer := fun _ _ _ _ => inr tt;
     process := inr tt;
     topological_sort := inr tt;
     model_proto_to_olive_model := fun _ _ => inr (VObj "ONNXModelHandler") |}.

Definition sample_config : Dict :=
  {[ "block_size" := VInt 32; "is_symmetric" := VBool true;
     "nodes_to_exclude" := VNone; "save_as_external_data" := VBool false ]}.

End OnnxMatMul4Quantizer.

(** ** Relations between the parameter tables *)

(** The rows the static pass rewrites for the QNN execution provider. *)
Definition qnn_rows : list string :=
  [ "quant_format"; "activation_type"; "weight_type"; "prepare_qnn_config";
    "quant_preprocess" ].

(** * Properties *)

Lemma table_get_set (k k' : string) (p : PassConfigParam) (t : Table) :
  table_get k' (table_set k p t) =
  if String.eqb k' k then Some p else table_get k' t.
Proof.
  induction t as [|[k0 p0] r IH]; simpl.
  - destruct (String.eqb_spec k' k); reflexivity.
  - destruct (String.eqb_spec k k0) as [->|Hne]; simpl.
    + destruct (String.eqb_spec k' k0); reflexivity.
    + rewrite IH. destruct (String.eqb_spec k' k0) as [->|]; [|reflexivity].
      destruct (String.eqb_spec k0 k); [congruence|reflexivity].
Qed.

Lemma table_get_app (k : string) (a b : Table) :
  table_get k (a ++ b) =
  match table_get k a with Some p => Some p | None => table_get k b end.
Proof.
  induction a as [|[k1 p1] a IH]; simpl; [reflexivity|].
  destruct (String.eqb k k1); [reflexivity|apply IH].
Qed.

Lemma table_get_update (k : string) (u t : Table) :
  table_get k (update t u) =
  match table_get k (rev u) with
  | Some p => Some p
  | None => table_get k t
  end.
Proof.
  unfold update. revert t.
  induction u as [|[k0 p0] r IH]; intros t; simpl; [reflexivity|].
  rewrite IH, table_get_set, table_get_app. simpl.
  destruct (table_get k (rev r)); [reflexivity|].
  destruct (String.eqb k k0); reflexivity.
Qed.

Lemma table_get_update_is_Some (k : string) (u t : Table) :
  is_Some (table_get k t) -> is_Some (table_get k (update t u)).
Proof.
  intros H. rewrite table_get_update.
  destruct (table_get k (rev u)); [eauto|exact H].
Qed.

(** ** Tactics for the effect monad *)

Ltac munfold :=
  unfold mbind, M_bind, bind, mret, M_ret, ret, raise, emit, call, getitem in *.

Lemma py_eq_str_true (v : Value) (s : string) :
  py_eq_str v s = true <-> v = VStr s.
Proof.
  destruct v; simpl; try (split; [discriminate|congruence]).
  rewrite String.eqb_eq. split; congruence.
Qed.

Lemma py_is_True_true (v : Value) : py_is_True v = true <-> v = VBool true.
Proof.
  destruct v as [|[]| | | | | | | |]; simpl; split; congruence.
Qed.

Lemma bind_ret_l {A B} (a : A) (f : A -> M B) : (ret a ≫= f) = f a.
Proof. munfold. destruct (f a) as [t r]. reflexivity. Qed.

Lemma bind_raise {A B} (e : exn) (f : A -> M B) : (raise e ≫= f) = raise e.
Proof. reflexivity. Qed.

Lemma bind_ok {A B} (m : M A) (f : A -> M B) t a :
  m = (t, inr a) -> (m ≫= f) = (t ++ fst (f a), snd (f a)).
Proof. intros ->. munfold. destruct (f a). reflexivity. Qed.

Lemma bind_err {A B} (m : M A) (f : A -> M B) t e :
  m = (t, inl e) -> (m ≫= f) = (t, inl e).
Proof. intros ->. reflexivity. Qed.

Lemma getitem_Some (d : Dict) k v : d !! k = Some v -> getitem d k = ret v.
Proof. unfold getitem. intros ->. reflexivity. Qed.

Lemma getitem_None (d : Dict) k : d !! k = None -> getitem d k = raise (KeyError k).
Proof. unfold getitem. intros ->. reflexivity. Qed.

(** ** Search-point validation *)

Section Validation.

Import OnnxQuantization.

Variable config_at_search_point : option Dict -> M Dict.
Variable accelerator_spec : AcceleratorSpec.

(** The body of the validator, once the inspected dictionary is known. *)
Lemma validate_search_point_unfold search_point with_fixed_value t0 config :
  inspected_config config_at_search_point search_point with_fixed_value = (t0, inr config) ->
  validate_search_point config_at_search_point search_point accelerator_spec with_fixed_value =
  let r :=
    (quant_mode ← getitem config "quant_mode";
     if py_eq_str quant_mode "static" then
       slow ← s8s8_qoperator config;
       (if slow : bool then emit (LogWarning S8S8_warning []) else ret tt) ;;
       EnableSubgraph ← getitem config "EnableSubgraph";
       if py_is_True EnableSubgraph then
         emit (LogInfo EnableSubgraph_info) ;; ret false
       else ret true
     else ret true) in
  (t0 ++ fst r, snd r).
Proof.
  intros H. unfold validate_search_point. erewrite bind_ok by exact H. reflexivity.
Qed.

(** C4.  A point the validator inspects with [quant_mode = "static"],
    [weight_type = "QInt8"], [activation_type = "QInt8"],
    [quant_format = "QOperator"] and [EnableSubgraph] present but not [True]
    is accepted: the validator returns [True], and its only event is the
    advisory warning about the slow combination. *)
Theorem validate_accepts_s8s8_qoperator_with_warning
    search_point with_fixed_value t0 config EnableSubgraph :
  inspected_config config_at_search_point search_point with_fixed_value = (t0, inr config) ->
  config !! "quant_mode" = Some (VStr "static") ->
  config !! "weight_type" = Some (VStr "QInt8") ->
  config !! "activation_type" = Some (VStr "QInt8") ->
  config !! "quant_format" = Some (VStr "QOperator") ->
  config !! "EnableSubgraph" = Some EnableSubgraph ->
  EnableSubgraph <> VBool true ->
  validate_search_point config_at_search_point search_point accelerator_spec with_fixed_value
  = (t0 ++ [LogWarning S8S8_warning []], inr true).
Proof.
  intros Hc Hm Hw Ha Hf He Hne.
  rewrite (validate_search_point_unfold _ _ _ _ Hc).
  unfold s8s8_qoperator.
  rewrite (getitem_Some _ _ _ Hm), (getitem_Some _ _ _ Hw),
    (getitem_Some _ _ _ Ha), (getitem_Some _ _ _ Hf), (getitem_Some _ _ _ He).
  assert (py_is_True EnableSubgraph = false) as Hnt.
  { destruct (py_is_True EnableSubgraph) eqn:E; [|reflexivity].
    apply py_is_True_true in E. contradiction. }
  munfold. simpl. rewrite Hnt. reflexivity.
Qed.

End Validation.

Lemma validate_accepts_s8s8_qoperator_with_warning_witness :
  OnnxQuantization.validate_search_point (fun _ => ret ∅) (Some s8s8_point) cpu_spec false
  = ([LogWarning OnnxQuantization.S8S8_warning []], inr true).
Proof.
  apply (validate_accepts_s8s8_qoperator_with_warning
           (fun _ => ret ∅) cpu_spec (Some s8s8_point) false [] s8s8_point (VBool false));
    try reflexivity.
  discriminate.
Defined.

Section ValidationRules.

Import OnnxQuantization.

Variable config_at_search_point : option Dict -> M Dict.
Variable accelerator_spec : AcceleratorSpec.

(** The events of the advisory rule on a point that has the three keys. *)
Lemma s8s8_qoperator_total (config : Dict) wt at_ qf :
  config !! "weight_type" = Some wt ->
  config !! "activation_type" = Some at_ ->
  config !! "quant_format" = Some qf ->
  s8s8_qoperator config =
  ret (py_eq_str wt "QInt8" && py_eq_str at_ "QInt8" && py_eq_str qf "QOperator").
Proof.
  intros Hw Ha Hf. unfold s8s8_qoperator.
  rewrite (getitem_Some _ _ _ Hw), bind_ret_l.
  destruct (py_eq_str wt "QInt8"); [|reflexivity].
  rewrite (getitem_Some _ _ _ Ha), bind_ret_l.
  destruct (py_eq_str at_ "QInt8"); [|reflexivity].
  rewrite (getitem_Some _ _ _ Hf), bind_ret_l. reflexivity.
Qed.

(** C5.  A fully resolved point the validator inspects with
    [quant_mode = "static"] and [EnableSubgraph = True] is rejected: the
    validator returns [False] (a result, not an exception), and the last
    event is the log record that states the reason. *)
Theorem validate_rejects_static_EnableSubgraph
    search_point with_fixed_value t0 config wt at_ qf :
  inspected_config config_at_search_point search_point with_fixed_value = (t0, inr config) ->
  config !! "quant_mode" = Some (VStr "static") ->
  config !! "weight_type" = Some wt ->
  config !! "activation_type" = Some at_ ->
  config !! "quant_format" = Some qf ->
  config !! "EnableSubgraph" = Some (VBool true) ->
  validate_search_point config_at_search_point search_point accelerator_spec with_fixed_value
  = (t0
     ++ (if py_eq_str wt "QInt8" && py_eq_str at_ "QInt8" && py_eq_str qf "QOperator"
         then [LogWarning S8S8_warning []] else [])
     ++ [LogInfo EnableSubgraph_info],
     inr false).
Proof.
  intros Hc Hm Hw Ha Hf He.
  rewrite (validate_search_point_unfold _ _ _ _ _ _ Hc).
  rewrite (getitem_Some _ _ _ Hm), bind_ret_l. simpl py_eq_str.
  rewrite (s8s8_qoperator_total _ _ _ _ Hw Ha Hf), bind_ret_l.
  rewrite (getitem_Some _ _ _ He).
  destruct (py_eq_str wt "QInt8" && py_eq_str at_ "QInt8" && py_eq_str qf "QOperator");
    reflexivity.
Qed.

End ValidationRules.

Lemma validate_rejects_static_EnableSubgraph_witness :
  OnnxQuantization.validate_search_point (fun _ => ret ∅) (Some subgraph_point) cpu_spec false
  = ([LogInfo OnnxQuantization.EnableSubgraph_info], inr false).
Proof.
  apply (validate_rejects_static_EnableSubgraph
           (fun _ => ret ∅) cpu_spec (Some subgraph_point) false [] subgraph_point
           (VStr "QInt8") (VStr "QInt8") (VStr "QDQ"));
    reflexivity.
Defined.

(** C9 fails as stated: a static point without [activation_type] and
    [quant_format] whose [weight_type] is not ["QInt8"] is accepted, because
    the later operands of the conjunction are never evaluated. *)
Lemma validate_partial_point_no_KeyError :
  partial_point !! "quant_mode" = Some (VStr "static")
  /\ partial_point !! "activation_type" = None
  /\ partial_point !! "quant_format" = None
  /\ OnnxQuantization.validate_search_point (fun _ => ret ∅) (Some partial_point)
       cpu_spec false = ([], inr true).
Proof. repeat split. Qed.

Lemma py_eq_str_false (v : Value) (s : string) :
  py_eq_str v s = false <-> v <> VStr s.
Proof.
  rewrite <- py_eq_str_true. destruct (py_eq_str v s); split; congruence.
Qed.

(** C9, amended.  With [with_fixed_value = False] the validator raises
    [KeyError] exactly when a key it reads is absent: [quant_mode]; or, for a
    static point, [weight_type] or [EnableSubgraph]; or [activation_type]
    when [weight_type] is ["QInt8"]; or [quant_format] when both are
    ["QInt8"]. *)
Theorem validate_KeyError_iff_touched_key_missing
    (config_at_search_point : option Dict -> M Dict)
    (accelerator_spec : AcceleratorSpec) (search_point : option Dict) :
  (exists t k,
      OnnxQuantization.validate_search_point config_at_search_point search_point
        accelerator_spec false = (t, inl (KeyError k)))
  <-> touches_missing_key (default ∅ search_point).
Proof.
  unfold OnnxQuantization.validate_search_point, OnnxQuantization.inspected_config.
  rewrite bind_ret_l.
  unfold touches_missing_key, OnnxQuantization.s8s8_qoperator, getitem.
  generalize (default ∅ search_point). intros cfg.
  destruct (cfg !! "quant_mode") as [qm|] eqn:Hqm;
    [|split; [intros _; left; reflexivity|intros _; eexists _, _; reflexivity]].
  rewrite bind_ret_l.
  destruct (py_eq_str qm "static") eqn:Eqm.
  2:{ apply py_eq_str_false in Eqm.
      split; [intros (t & k & H); discriminate H|].
      intros [H|[H _]]; congruence. }
  apply py_eq_str_true in Eqm. subst qm.
  destruct (cfg !! "weight_type") as [wt|] eqn:Hwt;
    [|split; [intros _; right; split; [reflexivity|left; reflexivity]
             |intros _; eexists _, _; reflexivity]].
  rewrite bind_ret_l.
  destruct (py_eq_str wt "QInt8") eqn:Ewt.
  - apply py_eq_str_true in Ewt. subst wt.
    destruct (cfg !! "activation_type") as [a|] eqn:Ha;
      [|split; [intros _; right; split; [reflexivity|]; right; right; split;
                 [reflexivity|left; reflexivity]
               |intros _; eexists _, _; reflexivity]].
    rewrite bind_ret_l.
    destruct (py_eq_str a "QInt8") eqn:Ea.
    + apply py_eq_str_true in Ea. subst a.
      destruct (cfg !! "quant_format") as [qf|] eqn:Hqf;
        [|split; [intros _; right; split; [reflexivity|]; right; right; split;
                   [reflexivity|right; split; reflexivity]
                 |intros _; eexists _, _; reflexivity]].
      rewrite !bind_ret_l.
      destruct (cfg !! "EnableSubgraph") as [es|] eqn:Hes.
      * split.
        -- intros (t & k & H). exfalso. revert H. munfold.
           destruct (py_eq_str qf "QOperator"), (py_is_True es); simpl; discriminate.
        -- intros [H|[_ [H|[H|[_ [H|[_ H]]]]]]]; congruence.
      * split; [intros _; right; split; [reflexivity|]; right; left; reflexivity|].
        intros _. munfold. destruct (py_eq_str qf "QOperator"); simpl; eexists _, _; reflexivity.
    + apply py_eq_str_false in Ea. rewrite !bind_ret_l.
      destruct (cfg !! "EnableSubgraph") as [es|] eqn:Hes.
      * split.
        -- intros (t & k & H). exfalso. revert H. munfold.
           destruct (py_is_True es); simpl; discriminate.
        -- intros [H|[_ [H|[H|[_ [H|[H _]]]]]]]; congruence.
      * split; [intros _; right; split; [reflexivity|]; right; left; reflexivity|].
        intros _. eexists _, _; reflexivity.
  - apply py_eq_str_false in Ewt. rewrite !bind_ret_l.
    destruct (cfg !! "EnableSubgraph") as [es|] eqn:Hes.
    + split.
      * intros (t & k & H). exfalso. revert H. munfold.
        destruct (py_is_True es); simpl; discriminate.
      * intros [H|[_ [H|[H|[H _]]]]]; congruence.
    + split; [intros _; right; split; [reflexivity|]; right; left; reflexivity|].
      intros _. eexists _, _; reflexivity.
Qed.

(** ** Parameter tables of the specialised passes *)

Lemma table_modify_Some k f t p :
  table_get k t = Some p -> table_modify k f t = ret (table_set k (f p) t).
Proof. unfold table_modify. intros ->. reflexivity. Qed.

Lemma table_get_update_known (k : string) (u t : Table) p :
  table_get k t = Some p -> exists p', table_get k (update t u) = Some p'.
Proof.
  intros H. destruct (table_get_update_is_Some k u t) as [p' Hp']; eauto.
Qed.

(** C10.  For the QNN execution provider the dynamic pass raises
    [ValueError] without building any table, while the static pass returns a
    table in which [quant_format] is restricted to ["QDQ"], the activation
    and weight types also allow the 16-bit types, [prepare_qnn_config]
    defaults to [True] and [quant_preprocess] defaults to [False]. *)
Theorem QNN_dynamic_raises_static_specializes
    (Conditional_default ConditionalDefault_default : SearchValue)
    (get_external_data_config : Table) (accelerator_spec : AcceleratorSpec) :
  execution_provider accelerator_spec = Some "QNNExecutionProvider" ->
  OnnxDynamicQuantization._default_config ConditionalDefault_default
    get_external_data_config accelerator_spec
  = ([], inl (ValueError "QNNExecutionProvider is not supported for dynamic quantization."))
  /\ exists config,
      OnnxStaticQuantization._default_config Conditional_default
        ConditionalDefault_default get_external_data_config accelerator_spec
      = ([], inr config)
      /\ searchable_values <$> table_get "quant_format" config
         = Some (Some (Categorical [VStr "QDQ"]))
      /\ searchable_values <$> table_get "activation_type" config
         = Some (Some (Categorical [VStr "QInt8"; VStr "QUInt8"; VStr "QUInt16"; VStr "QInt16"]))
      /\ searchable_values <$> table_get "weight_type" config
         = Some (Some (Categorical [VStr "QInt8"; VStr "QUInt8"; VStr "QUInt16"; VStr "QInt16"]))
      /\ default_value <$> table_get "prepare_qnn_config" config
         = Some (Fixed (VBool true))
      /\ default_value <$> table_get "quant_preprocess" config
         = Some (Fixed (VBool false)).
Proof.
  intros Hep.
  assert (Hq : is_QNN accelerator_spec = true) by (unfold is_QNN; rewrite Hep; reflexivity).
  split.
  { unfold OnnxDynamicQuantization._default_config. rewrite Hq. reflexivity. }
  unfold OnnxStaticQuantization._default_config. rewrite Hq.
  match goal with
  | |- context [table_modify "quant_format" _ (update ?t ?u)] =>
      set (base := t); set (config0 := update t u)
  end.
  destruct (table_get_update_known "quant_format" get_external_data_config base
              (param "str" (VStr "QDQ") (Some (Categorical [VStr "QOperator"; VStr "QDQ"]))))
    as [p1 H1]; [reflexivity|].
  destruct (table_get_update_known "activation_type" get_external_data_config base
              (param "str" (VStr "QInt8")
                 (Some (activation_type_searchable_values Conditional_default))))
    as [p2 H2]; [reflexivity|].
  destruct (table_get_update_known "weight_type" get_external_data_config base
              (param "str" (VStr "QInt8") (Some (Categorical [VStr "QInt8"; VStr "QUInt8"]))))
    as [p3 H3]; [reflexivity|].
  destruct (table_get_update_known "prepare_qnn_config" get_external_data_config base
              (param "bool" (VBool false) None))
    as [p4 H4]; [reflexivity|].
  destruct (table_get_update_known "quant_preprocess" get_external_data_config base
              (param "bool" (VBool true) (Some Boolean)))
    as [p5 H5]; [reflexivity|].
  fold config0 in H1, H2, H3, H4, H5.
  rewrite (table_modify_Some _ _ _ _ H1), bind_ret_l.
  erewrite table_modify_Some, bind_ret_l
    by (rewrite table_get_set; exact H2).
  erewrite table_modify_Some, bind_ret_l
    by (rewrite !table_get_set; exact H3).
  erewrite table_modify_Some, bind_ret_l
    by (rewrite !table_get_set; exact H4).
  erewrite table_modify_Some, bind_ret_l
    by (rewrite !table_get_set; exact H5).
  eexists. split; [reflexivity|].
  rewrite !table_get_set. simpl. repeat split.
Qed.

Lemma QNN_dynamic_raises_static_specializes_witness :
  OnnxDynamicQuantization._default_config (Fixed VInvalid) [] qnn_spec
  = ([], inl (ValueError "QNNExecutionProvider is not supported for dynamic quantization."))
  /\ exists config,
      OnnxStaticQuantization._default_config (Fixed VInvalid) (Fixed VInvalid) [] qnn_spec
      = ([], inr config)
      /\ searchable_values <$> table_get "quant_format" config
         = Some (Some (Categorical [VStr "QDQ"]))
      /\ searchable_values <$> table_get "activation_type" config
         = Some (Some (Categorical [VStr "QInt8"; VStr "QUInt8"; VStr "QUInt16"; VStr "QInt16"]))
      /\ searchable_values <$> table_get "weight_type" config
         = Some (Some (Categorical [VStr "QInt8"; VStr "QUInt8"; VStr "QUInt16"; VStr "QInt16"]))
      /\ default_value <$> table_get "prepare_qnn_config" config
         = Some (Fixed (VBool true))
      /\ default_value <$> table_get "quant_preprocess" config
         = Some (Fixed (VBool false)).
Proof.
  apply (QNN_dynamic_raises_static_specializes (Fixed VInvalid) (Fixed VInvalid) [] qnn_spec).
  reflexivity.
Defined.

(** ** Running the pass *)

Lemma first_event_call_bind {A B} (ev : Event) (r : Ext A) (f : A -> M B) :
  exists t o, (call ev r ≫= f) = (ev :: t, o).
Proof.
  unfold call. munfold. destruct r as [e|a]; simpl; [eauto|].
  destruct (f a) as [t o]. eauto.
Qed.

Lemma first_event_bind {A B} (ev : Event) (m : M A) (f : A -> M B) :
  (exists t o, m = (ev :: t, o)) -> exists t o, (m ≫= f) = (ev :: t, o).
Proof.
  intros (t & o & ->). munfold. destruct o as [e|a]; [eauto|].
  destruct (f a) as [t' o']. simpl. eauto.
Qed.

Lemma events_bind {A B} (m : M A) (f : A -> M B) :
  events (m ≫= f) =
  events m ++ match outcome m with inr a => events (f a) | inl _ => [] end.
Proof.
  destruct m as [t [e|a]]; munfold; simpl; [rewrite app_nil_r; reflexivity|].
  destruct (f a). reflexivity.
Qed.

Lemma outcome_bind {A B} (m : M A) (f : A -> M B) :
  outcome (m ≫= f) = match outcome m with inr a => outcome (f a) | inl e => inl e end.
Proof.
  destruct m as [t [e|a]]; munfold; simpl; [reflexivity|].
  destruct (f a). reflexivity.
Qed.

Lemma Forall_events_bind {A B} (P : Event -> Prop) (m : M A) (f : A -> M B) :
  Forall P (events m) ->
  (forall t a, m = (t, inr a) -> Forall P (events (f a))) ->
  Forall P (events (m ≫= f)).
Proof.
  intros Hm Hf. rewrite events_bind. apply Forall_app. split; [exact Hm|].
  destruct m as [t [e|a]]; simpl; [constructor|]. eapply Hf. reflexivity.
Qed.

Lemma bind_inr_inv {A B} (m : M A) (f : A -> M B) t b :
  (m ≫= f) = (t, inr b) ->
  exists t1 a t2, m = (t1, inr a) /\ f a = (t2, inr b) /\ t = t1 ++ t2.
Proof.
  destruct m as [t1 [e|a]]; munfold; [discriminate|].
  destruct (f a) as [t2 o] eqn:E. intros [= <- ->]. eauto 10.
Qed.

Lemma bind_inl_inv {A B} (m : M A) (f : A -> M B) t e :
  (m ≫= f) = (t, inl e) ->
  m = (t, inl e)
  \/ exists t1 a t2, m = (t1, inr a) /\ f a = (t2, inl e) /\ t = t1 ++ t2.
Proof.
  destruct m as [t1 [e1|a]]; munfold; [intros [= <- <-]; left; reflexivity|].
  destruct (f a) as [t2 o] eqn:E. intros [= <- ->]. right. eauto 10.
Qed.

Lemma events_getitem (d : Dict) k : events (getitem d k) = [].
Proof. unfold getitem. destruct (d !! k); reflexivity. Qed.

Lemma events_call {A} ev (r : Ext A) : events (call ev r) = [ev].
Proof. destruct r; reflexivity. Qed.

Lemma getitem_inr_inv (d : Dict) k t v :
  getitem d k = (t, inr v) -> d !! k = Some v /\ t = [].
Proof. unfold getitem. destruct (d !! k); munfold; intros [= <- <-]; auto. Qed.

(** Proves that every event of a computation satisfies a decidable
    property, by following the structure of the computation. *)
Ltac events_step :=
  match goal with
  | |- Forall _ (events (_ ≫= _)) => apply Forall_events_bind; [|intros ? ? ?]
  | |- Forall _ (events (getitem _ _)) => rewrite events_getitem; constructor
  | |- Forall _ (events (call _ _)) => rewrite events_call; repeat constructor
  | |- Forall _ (events (ret _)) => constructor
  | |- Forall _ (events (mret _)) => constructor
  | |- Forall _ (events (raise _)) => constructor
  | |- Forall _ (events (emit _)) => repeat constructor
  | |- Forall _ (events (if ?b then _ else _)) => destruct b eqn:?
  | |- Forall _ (events (match ?x with _ => _ end)) => destruct x eqn:?
  end.

Ltac events_tac := repeat events_step.

Section Run.

Import OnnxQuantization.

Variable Conditional_default : SearchValue.
Variable ConditionalDefault_default : SearchValue.
Variable get_external_data_config : Table.
Variable w : World.

Local Abbreviation run :=
  (_run_for_config Conditional_default ConditionalDefault_default
     get_external_data_config w).

(** C6.  A static run whose [dataloader_func] and [data_config] are both
    unset fails on the assertion with no event before it; when one of them
    is set the assertion passes and the run goes on to its first call. *)
Theorem static_run_requires_calibration_source
    model data_root config output_model_path dataloader_func data_config :
  config !! "quant_mode" = Some (VStr "static") ->
  config !! "dataloader_func" = Some dataloader_func ->
  config !! "data_config" = Some data_config ->
  (py_truthy dataloader_func || py_truthy data_config = false ->
   run model data_root config output_model_path
   = ([], inl (AssertionError calibration_required)))
  /\ (py_truthy dataloader_func || py_truthy data_config = true ->
      assert_calibration_source config = ret tt
      /\ exists t o,
          run model data_root config output_model_path
          = (CallResolveOnnxPath :: t, o)).
Proof.
  intros Hm Hf Hc.
  assert (Hassert : assert_calibration_source config =
    if py_truthy dataloader_func || py_truthy data_config
    then ret tt else raise (AssertionError calibration_required)).
  { unfold assert_calibration_source.
    rewrite (getitem_Some _ _ _ Hf), bind_ret_l.
    destruct (py_truthy dataloader_func); cbv iota.
    - rewrite bind_ret_l. reflexivity.
    - rewrite (getitem_Some _ _ _ Hc), !bind_ret_l.
      destruct (py_truthy data_config); reflexivity. }
  unfold _run_for_config, prepare, prepare_inputs.
  rewrite (getitem_Some _ _ _ Hm), bind_ret_l. simpl py_eq_str. cbv iota.
  rewrite Hassert.
  split; intros ->.
  - reflexivity.
  - split; [reflexivity|]. rewrite bind_ret_l.
    do 2 apply first_event_bind. apply first_event_call_bind.
Qed.

End Run.

Lemma static_run_requires_calibration_source_witness :
  OnnxQuantization._run_for_config (Fixed VInvalid) (Fixed VInvalid)
    sample_external_data_config quiet_world "model.onnx" VNone default_config "out"
  = ([], inl (AssertionError OnnxQuantization.calibration_required)).
Proof.
  apply (proj1 (static_run_requires_calibration_source (Fixed VInvalid) (Fixed VInvalid)
                  sample_external_data_config quiet_world "model.onnx" VNone
                  default_config "out" VNone VNone eq_refl eq_refl eq_refl)).
  reflexivity.
Defined.

Lemma call_inr_inv {A} ev (r : Ext A) t a :
  call ev r = (t, inr a) -> r = inr a /\ t = [ev].
Proof. destruct r; munfold; simpl; intros [= <- <-]; auto. Qed.

Lemma ret_inr_inv {A} (a b : A) t : ret a = (t, inr b) -> a = b /\ t = [].
Proof. munfold. intros [= <- <-]. auto. Qed.

Lemma emit_inr_inv ev t u : emit ev = (t, inr u) -> t = [ev].
Proof. munfold. intros [= <-]. reflexivity. Qed.

(** Inversion of a successful computation, one step at a time. *)
Ltac bind_inv :=
  match goal with
  | H : (_ ≫= _) = (_, inr _) |- _ =>
      let t1 := fresh "t" in
      let a := fresh "a" in
      let t2 := fresh "t" in
      let H1 := fresh "Hm" in
      apply bind_inr_inv in H as (t1 & a & t2 & H1 & H & ->)
  | H : getitem _ _ = (_, inr _) |- _ => apply getitem_inr_inv in H as [H ->]
  | H : call _ _ = (_, inr _) |- _ => apply call_inr_inv in H as [H ->]
  | H : ret _ = (_, inr _) |- _ => apply ret_inr_inv in H as [H ->]
  | H : mret _ = (_, inr _) |- _ => apply ret_inr_inv in H as [H ->]
  | H : emit _ = (_, inr _) |- _ => apply emit_inr_inv in H as ->
  | H : raise _ = (_, inr _) |- _ => discriminate H
  end.

Lemma elem_of_events_bind {A B} (m : M A) (f : A -> M B) ev :
  ev ∈ events (m ≫= f) ->
  ev ∈ events m \/ exists t a, m = (t, inr a) /\ ev ∈ events (f a).
Proof.
  rewrite events_bind. intros H. apply elem_of_app in H as [H|H]; [left; exact H|].
  destruct m as [t [e|a]]; simpl in H; [inversion H|]. right. eauto.
Qed.

Lemma lookup_fold_insert (pairs : list (string * Value)) (acc : Dict) k :
  fold_left (fun acc kv => <[fst kv := snd kv]> acc) pairs acc !! k
  = match last_value k pairs with
    | Some v => Some v
    | None => acc !! k
    end.
Proof.
  revert acc. induction pairs as [|[k' v] rest IH]; intros acc; simpl; [reflexivity|].
  rewrite IH. destruct (last_value k rest); [reflexivity|].
  destruct (String.eqb_spec k k') as [->|Hne].
  - apply lookup_insert_eq.
  - apply lookup_insert_ne. congruence.
Qed.

Lemma last_value_filter (pairs : list (string * Value)) k :
  last_value k (filter (fun kv => negb (String.prefix "_" (fst kv))) pairs)
  = if String.prefix "_" k then None else last_value k pairs.
Proof.
  induction pairs as [|[k' v] rest IH]; simpl.
  - destruct (String.prefix "_" k); reflexivity.
  - rewrite filter_cons. simpl. destruct (decide _) as [Hp|Hp]; simpl.
    + rewrite IH. destruct (String.prefix "_" k) eqn:Hk; [|reflexivity].
      destruct (last_value k rest); [|].
      * destruct (String.eqb_spec k k') as [->|_]; [|reflexivity].
        rewrite Hk in Hp. simpl in Hp. contradiction.
      * destruct (String.eqb_spec k k') as [->|_]; [|reflexivity].
        rewrite Hk in Hp. simpl in Hp. contradiction.
    + rewrite IH. destruct (String.prefix "_" k) eqn:Hk; [reflexivity|].
      destruct (last_value k rest); [reflexivity|].
      destruct (String.eqb_spec k k') as [->|_]; [|reflexivity].
      rewrite Hk in Hp. simpl in Hp. exfalso. apply Hp. exact I.
Qed.

Section RunPhases.

Import OnnxQuantization.

Variable Conditional_default : SearchValue.
Variable ConditionalDefault_default : SearchValue.
Variable get_external_data_config : Table.
Variable w : World.

Lemma move_exposed_events keys eo rc : events (move_exposed keys eo rc) = [].
Proof.
  revert eo rc. induction keys as [|key rest IH]; intros eo rc; simpl; [reflexivity|].
  rewrite events_bind, events_getitem. unfold getitem.
  destruct (rc !! key); simpl; [apply IH|reflexivity].
Qed.

(** What the loop over the exposed keys leaves behind. *)
Lemma move_exposed_inr keys eo rc t eo' rc' :
  move_exposed keys eo rc = (t, inr (eo', rc')) ->
  (forall k, k ∈ keys -> is_Some (rc !! k) /\ eo' !! k = rc !! k /\ rc' !! k = None)
  /\ (forall k, k ∉ keys -> eo' !! k = eo !! k /\ rc' !! k = rc !! k).
Proof.
  revert eo rc t. induction keys as [|key rest IH]; intros eo rc t; simpl.
  - intros [= <- <- <-]. split; [intros k Hk; inversion Hk|auto].
  - intros H. apply bind_inr_inv in H as (t1 & v & t2 & Hg & Hrest & ->).
    apply getitem_inr_inv in Hg as [Hv ->].
    apply IH in Hrest as [Hin Hout].
    assert (Hnotin : key ∉ rest).
    { intros Hk. destruct (Hin key Hk) as [[x Hx] _].
      rewrite lookup_delete_eq in Hx. discriminate. }
    split.
    + intros k Hk. apply elem_of_cons in Hk as [->|Hk].
      * destruct (Hout key Hnotin) as [He Hr].
        rewrite He, Hr, lookup_insert_eq, lookup_delete_eq, Hv. eauto.
      * destruct (Hin k Hk) as ([x Hx] & He & Hr).
        assert (k <> key) by (intros ->; contradiction).
        rewrite lookup_delete_ne in Hx, He by congruence. rewrite Hx in *. eauto.
    + intros k Hk. apply not_elem_of_cons in Hk as [Hne Hk].
      destruct (Hout k Hk) as [He Hr].
      rewrite lookup_insert_ne in He by congruence.
      rewrite lookup_delete_ne in Hr by congruence. auto.
Qed.

Lemma assert_calibration_source_events config :
  events (assert_calibration_source config) = [].
Proof.
  unfold assert_calibration_source, getitem.
  destruct (config !! "dataloader_func") as [f|]; [|reflexivity].
  rewrite bind_ret_l. destruct (py_truthy f).
  - reflexivity.
  - destruct (config !! "data_config") as [c|]; [|reflexivity].
    rewrite !bind_ret_l. destruct (py_truthy c); reflexivity.
Qed.

Lemma initial_extra_options_events config :
  events (initial_extra_options config) = [].
Proof.
  unfold initial_extra_options, getitem.
  destruct (config !! "extra_options") as [v|]; [|reflexivity].
  rewrite bind_ret_l. destruct (py_truthy v); [|reflexivity].
  destruct v; reflexivity.
Qed.

(** What a successful first phase establishes. *)
Lemma prepare_inputs_inr model config t i :
  prepare_inputs ConditionalDefault_default w model config = (t, inr i) ->
  exists quant_mode extra_options,
    config !! "quant_mode" = Some quant_mode
    /\ in_is_static i = py_eq_str quant_mode "static"
    /\ initial_extra_options config = ([], inr extra_options)
    /\ (forall k, k ∈ exposed_keys ConditionalDefault_default ->
          is_Some (config !! k)
          /\ in_extra_options i !! k = config !! k
          /\ in_run_config i !! k = None)
    /\ (forall k, k ∉ exposed_keys ConditionalDefault_default ->
          in_extra_options i !! k = extra_options !! k
          /\ in_run_config i !! k = config !! k)
    /\ (let X : gset string :=
          dom extra_options ∩ list_to_set (exposed_keys ConditionalDefault_default) in
        X <> ∅ -> LogWarning overwritten_warning (render_set w X) ∈ t).
Proof.
  unfold prepare_inputs. intros H.
  repeat bind_inv. subst i. simpl.
  assert (t2 = []) as ->.
  { pose proof (initial_extra_options_events config) as E.
    rewrite Hm2 in E. exact E. }
  destruct a4 as [eo' rc']. apply move_exposed_inr in Hm4 as [Hin Hout].
  exists a, a2. repeat split; auto.
  - apply Hin; assumption.
  - apply Hin; assumption.
  - apply Hin; assumption.
  - apply Hout; assumption.
  - apply Hout; assumption.
  - intros HX. rewrite bool_decide_eq_false_2 in Hm3 by exact HX.
    bind_inv. rewrite !elem_of_app. right.
    apply elem_of_cons. right. apply elem_of_cons. left. reflexivity.
Qed.

Ltac phase_events_step :=
  match goal with
  | |- Forall _ (events (assert_calibration_source _)) =>
      rewrite assert_calibration_source_events; constructor
  | |- Forall _ (events (initial_extra_options _)) =>
      rewrite initial_extra_options_events; constructor
  | |- Forall _ (events (move_exposed _ _ _)) =>
      rewrite move_exposed_events; constructor
  | _ => events_step
  end.

Lemma preprocess_no_quantization_call run_config model :
  Forall (fun ev => is_quantization_call ev = false)
    (events (preprocess w run_config model)).
Proof. unfold preprocess, _quant_preprocess. repeat phase_events_step. Qed.

Lemma preprocess_skipped run_config model quant_preprocess :
  run_config !! "quant_preprocess" = Some quant_preprocess ->
  py_truthy quant_preprocess = false ->
  Forall (fun ev => is_external_library_call ev = false)
    (events (preprocess w run_config model)).
Proof.
  intros Hq Hf. unfold preprocess.
  apply Forall_events_bind; [phase_events_step|intros _ _ _].
  rewrite (getitem_Some _ _ _ Hq), bind_ret_l, Hf. constructor.
Qed.

Lemma prepare_inputs_no_quantization_call model config :
  Forall (fun ev => is_quantization_call ev = false)
    (events (prepare_inputs ConditionalDefault_default w model config)).
Proof.
  unfold prepare_inputs.
  repeat first [apply preprocess_no_quantization_call | phase_events_step].
Qed.

Lemma not_exposed_key (k : string) :
  existsb (String.eqb k) (exposed_keys ConditionalDefault_default) = false ->
  k ∉ exposed_keys ConditionalDefault_default.
Proof.
  intros H Hin. apply list_elem_of_In in Hin.
  assert (existsb (String.eqb k) (exposed_keys ConditionalDefault_default) = true).
  { apply existsb_exists. exists k. split; [exact Hin|apply String.eqb_refl]. }
  congruence.
Qed.

Lemma prepare_inputs_no_external_library_call model config quant_preprocess :
  config !! "quant_preprocess" = Some quant_preprocess ->
  py_truthy quant_preprocess = false ->
  Forall (fun ev => is_external_library_call ev = false)
    (events (prepare_inputs ConditionalDefault_default w model config)).
Proof.
  intros Hq Hf. unfold prepare_inputs.
  repeat first
    [ match goal with
      | H : move_exposed _ _ _ = (_, inr ?moved) |- Forall _ (events (preprocess _ _ _)) =>
          destruct moved as [eo rc]; apply move_exposed_inr in H as [_ Hout];
          apply (preprocess_skipped _ _ quant_preprocess); [|exact Hf];
          simpl; destruct (Hout "quant_preprocess") as [_ ->];
          [apply not_exposed_key; reflexivity|exact Hq]
      end
    | phase_events_step ].
Qed.

Local Abbreviation run :=
  (_run_for_config Conditional_default ConditionalDefault_default
     get_external_data_config w).

(** With [prepare_qnn_config] requested on an old runtime, the run ends
    where the first phase ends: with its error, or with the version error. *)
Lemma run_stops_at_version_check
    model data_root config output_model_path prepare_qnn_config :
  config !! "prepare_qnn_config" = Some prepare_qnn_config ->
  py_truthy prepare_qnn_config = true ->
  version_lt (OrtVersion w) v1_17_0 = true ->
  run model data_root config output_model_path =
  match prepare_inputs ConditionalDefault_default w model config with
  | (t, inl e) => (t, inl e)
  | (t, inr _) => (t, inl (OlivePassError qnn_version_error None))
  end.
Proof.
  intros Hp Ht Hv. unfold _run_for_config, prepare.
  destruct (prepare_inputs ConditionalDefault_default w model config)
    as [t [e|i]] eqn:E; [reflexivity|].
  destruct (prepare_inputs_inr _ _ _ _ E) as (qm & eo & _ & _ & _ & _ & Hout & _).
  destruct (Hout "prepare_qnn_config") as [_ Hrc];
    [apply not_exposed_key; reflexivity|].
  assert (Hargs : prepare_arguments Conditional_default get_external_data_config w i
                  = raise (OlivePassError qnn_version_error None)).
  { unfold prepare_arguments, check_qnn_version.
    rewrite Hrc, Hp. simpl default. rewrite Ht, Hv. reflexivity. }
  rewrite (bind_ok _ _ _ _ eq_refl), Hargs. simpl. rewrite app_nil_r. reflexivity.
Qed.

(** An external-library call during preprocessing was asked for, and
    nothing was cached. *)
Lemma preprocess_external_library_call run_config model ev :
  ev ∈ events (preprocess w run_config model) ->
  is_external_library_call ev = true ->
  (exists qp, run_config !! "quant_preprocess" = Some qp /\ py_truthy qp = true)
  /\ preprocessed_exists w = inr false.
Proof.
  unfold preprocess. intros H He.
  apply elem_of_events_bind in H as [H|(t & a & Hm & H)].
  { rewrite events_call in H. apply list_elem_of_singleton in H. subst ev. discriminate. }
  apply elem_of_events_bind in H as [H|(t0 & qp & Hq & H)].
  { rewrite events_getitem in H. inversion H. }
  apply getitem_inr_inv in Hq as [Hq _].
  destruct (py_truthy qp) eqn:Hqp; [|inversion H].
  apply elem_of_events_bind in H as [H|(t1 & present & Hex & H)].
  { rewrite events_call in H. apply list_elem_of_singleton in H. subst ev. discriminate. }
  apply call_inr_inv in Hex as [Hex _].
  destruct present; simpl in H.
  - apply elem_of_cons in H as [->|H]; [discriminate|inversion H].
  - split; [eauto|exact Hex].
Qed.

Lemma prepare_inputs_external_library_call model config ev :
  ev ∈ events (prepare_inputs ConditionalDefault_default w model config) ->
  is_external_library_call ev = true ->
  (exists qp, config !! "quant_preprocess" = Some qp /\ py_truthy qp = true)
  /\ preprocessed_exists w = inr false.
Proof.
  unfold prepare_inputs. intros H He.
  apply elem_of_events_bind in H as [H|(? & ? & _ & H)];
    [rewrite events_getitem in H; inversion H|].
  apply elem_of_events_bind in H as [H|(? & ? & _ & H)].
  { destruct (py_eq_str _ _); [rewrite assert_calibration_source_events in H|];
      inversion H. }
  apply elem_of_events_bind in H as [H|(? & ? & _ & H)];
    [rewrite events_call in H; apply list_elem_of_singleton in H; subst ev;
     discriminate|].
  apply elem_of_events_bind in H as [H|(? & ? & _ & H)];
    [rewrite initial_extra_options_events in H; inversion H|].
  apply elem_of_events_bind in H as [H|(? & ? & _ & H)].
  { destruct (bool_decide _); simpl in H; [inversion H|].
    apply list_elem_of_singleton in H. subst ev. discriminate. }
  apply elem_of_events_bind in H as [H|(tm & [eo rc] & Hmove & H)];
    [rewrite move_exposed_events in H; inversion H|].
  apply elem_of_events_bind in H as [H|(? & ? & _ & H)]; [|inversion H].
  apply move_exposed_inr in Hmove as [_ Hout].
  destruct (preprocess_external_library_call _ _ _ H He) as [(qp & Hqp & Ht) Hex].
  split; [|exact Hex]. exists qp. split; [|exact Ht].
  simpl in Hqp. destruct (Hout "quant_preprocess") as [_ <-]; [|exact Hqp].
  apply not_exposed_key. reflexivity.
Qed.

(** Preprocessing that was asked for, found nothing cached and returned
    has called [quant_pre_process]. *)
Lemma preprocess_ran_quant_pre_process run_config model t m qp :
  preprocess w run_config model = (t, inr m) ->
  run_config !! "quant_preprocess" = Some qp ->
  py_truthy qp = true ->
  preprocessed_exists w = inr false ->
  CallQuantPreProcess ∈ t.
Proof.
  unfold preprocess. intros H Hq Ht Hex.
  apply bind_inr_inv in H as (t1 & u & t2 & _ & H & ->).
  rewrite (getitem_Some _ _ _ Hq), bind_ret_l, Ht in H.
  apply bind_inr_inv in H as (t3 & present & t4 & Hc & H & ->).
  apply call_inr_inv in Hc as [Hc ->].
  rewrite Hex in Hc. injection Hc as <-. cbn [negb] in H.
  apply bind_inr_inv in H as (t5 & u5 & t6 & _ & H & ->).
  unfold _quant_preprocess in H.
  apply bind_inr_inv in H as (t7 & u7 & t8 & He & _ & ->).
  apply emit_inr_inv in He as ->.
  rewrite !elem_of_app. do 3 right. left. left.
Qed.

Lemma prepare_inputs_ran_quant_pre_process model config t i qp :
  prepare_inputs ConditionalDefault_default w model config = (t, inr i) ->
  config !! "quant_preprocess" = Some qp ->
  py_truthy qp = true ->
  preprocessed_exists w = inr false ->
  CallQuantPreProcess ∈ t.
Proof.
  unfold prepare_inputs. intros H Hq Ht Hex. repeat bind_inv.
  destruct a4 as [eo rc]. apply move_exposed_inr in Hm4 as [_ Hout].
  rewrite !elem_of_app. do 6 right. left.
  apply (preprocess_ran_quant_pre_process _ _ _ _ qp Hm5); [|exact Ht|exact Hex].
  simpl. destruct (Hout "quant_preprocess") as [_ ->]; [|exact Hq].
  apply not_exposed_key. reflexivity.
Qed.

(** C7, amended.  When [prepare_qnn_config] is requested and the runtime
    is older than 1.17.0, the run fails and never calls the QNN helper or a
    quantization entry point; once the steps before the check succeed the
    failure is the version error.  The check comes after the optional
    preprocessing: an external-library operation has run before the
    failure only if [quant_preprocess] is set and no preprocessed model is
    cached, so none has run when [quant_preprocess] is unset and none when
    a preprocessed model is cached; and when it is set and nothing is
    cached, [quant_pre_process] has run before the version error. *)
Theorem qnn_version_error_precedes_quantization
    model data_root config output_model_path prepare_qnn_config :
  config !! "prepare_qnn_config" = Some prepare_qnn_config ->
  py_truthy prepare_qnn_config = true ->
  version_lt (OrtVersion w) v1_17_0 = true ->
  (exists e, outcome (run model data_root config output_model_path) = inl e)
  /\ Forall (fun ev => is_quantization_call ev = false)
       (events (run model data_root config output_model_path))
  /\ (forall t i,
        prepare_inputs ConditionalDefault_default w model config = (t, inr i) ->
        run model data_root config output_model_path
        = (t, inl (OlivePassError qnn_version_error None)))
  /\ (forall quant_preprocess,
        config !! "quant_preprocess" = Some quant_preprocess ->
        py_truthy quant_preprocess = false ->
        Forall (fun ev => is_external_library_call ev = false)
          (events (run model data_root config output_model_path)))
  /\ (preprocessed_exists w = inr true ->
      Forall (fun ev => is_external_library_call ev = false)
        (events (run model data_root config output_model_path)))
  /\ (forall ev,
        ev ∈ events (run model data_root config output_model_path) ->
        is_external_library_call ev = true ->
        (exists quant_preprocess,
            config !! "quant_preprocess" = Some quant_preprocess
            /\ py_truthy quant_preprocess = true)
        /\ preprocessed_exists w = inr false)
  /\ (forall t i quant_preprocess,
        prepare_inputs ConditionalDefault_default w model config = (t, inr i) ->
        config !! "quant_preprocess" = Some quant_preprocess ->
        py_truthy quant_preprocess = true ->
        preprocessed_exists w = inr false ->
        run model data_root config output_model_path
        = (t, inl (OlivePassError qnn_version_error None))
        /\ CallQuantPreProcess ∈ t
        /\ is_external_library_call CallQuantPreProcess = true).
Proof.
  intros Hp Ht Hv.
  pose proof (run_stops_at_version_check model data_root config output_model_path
                _ Hp Ht Hv) as Hrun.
  pose proof (prepare_inputs_no_quantization_call model config) as Hq.
  assert (Hev : events (run model data_root config output_model_path)
                = events (prepare_inputs ConditionalDefault_default w model config)).
  { rewrite Hrun.
    destruct (prepare_inputs ConditionalDefault_default w model config) as [t [e|i]];
      reflexivity. }
  assert (Hext : forall ev,
    ev ∈ events (run model data_root config output_model_path) ->
    is_external_library_call ev = true ->
    (exists quant_preprocess,
        config !! "quant_preprocess" = Some quant_preprocess
        /\ py_truthy quant_preprocess = true)
    /\ preprocessed_exists w = inr false).
  { intros ev Hin He. rewrite Hev in Hin.
    exact (prepare_inputs_external_library_call model config ev Hin He). }
  split; [|split; [|split; [|split; [|split; [|split]]]]].
  - rewrite Hrun.
    destruct (prepare_inputs ConditionalDefault_default w model config) as [t [e|i]];
      simpl; eauto.
  - rewrite Hev. exact Hq.
  - intros t i Hi. rewrite Hrun, Hi. reflexivity.
  - intros qp Hqp Hf. rewrite Hev.
    exact (prepare_inputs_no_external_library_call model config qp Hqp Hf).
  - intros Hcached. apply List.Forall_forall. intros ev Hin.
    destruct (is_external_library_call ev) eqn:He; [|reflexivity].
    apply list_elem_of_In in Hin.
    destruct (Hext ev Hin He) as [_ Hex]. congruence.
  - exact Hext.
  - intros t i qp Hi Hqp Hset Hex. split; [|split; [|reflexivity]].
    + rewrite Hrun, Hi. reflexivity.
    + exact (prepare_inputs_ran_quant_pre_process model config t i qp Hi Hqp Hset Hex).
Qed.

(** C8.  When the external quantization call raises, an exception that is
    an [AttributeError] or a [ValueError] is replaced by [OlivePassError]
    with the original exception as its cause; any other exception leaves
    the run unchanged. *)
Theorem quantization_failure_is_wrapped_narrowly
    model data_root config output_model_path t p e :
  prepare Conditional_default ConditionalDefault_default get_external_data_config w
    model config = (t, inr p) ->
  (is_static p = false ->
   repeated_keyword ["model_input"; "model_output"; "use_external_data_format"]
     (run_config p) = false ->
   quantize_dynamic w (model_path p) (run_config p) = inl e ->
   run model data_root config output_model_path
   = (t ++ [CallQuantizeDynamic (model_path p) (run_config p)],
      inl (if isinstance e "AttributeError" || isinstance e "ValueError"
           then OlivePassError "quantize_dynamic failed." (Some (Foreign e))
           else Foreign e)))
  /\ (is_static p = true ->
      forall t' dataloader kwargs,
        static_arguments w data_root config p = (t', inr (dataloader, kwargs)) ->
        repeated_keyword ["model_input"; "model_output"; "calibration_data_reader";
                          "use_external_data_format"] kwargs = false ->
        quantize_static w (model_path p) dataloader kwargs = inl e ->
        run model data_root config output_model_path
        = (t ++ t' ++ [CallQuantizeStatic (model_path p) dataloader kwargs],
           inl (if isinstance e "AttributeError" || isinstance e "ValueError"
                then OlivePassError "quantize_static failed." (Some (Foreign e))
                else Foreign e))).
Proof.
  intros Hp. unfold _run_for_config. rewrite (bind_ok _ _ _ _ Hp).
  split.
  - intros Hs Hk He. unfold quantize, call_quantize_dynamic.
    rewrite Hs, Hk, He. reflexivity.
  - intros Hs t' dl kw Ha Hk He. unfold quantize. rewrite Hs.
    rewrite (bind_ok _ _ _ _ Ha). simpl fst. simpl snd.
    unfold call_quantize_static. rewrite Hk, He. reflexivity.
Qed.

Lemma lookup_delete_keys (keys : list string) (d : Dict) (k : string) :
  delete_keys keys d !! k = if decide (k ∈ keys) then None else d !! k.
Proof.
  unfold delete_keys. revert d.
  induction keys as [|key rest IH]; intros d; simpl.
  - destruct (decide (k ∈ [])) as [H|_]; [inversion H|reflexivity].
  - rewrite IH. destruct (decide (k ∈ rest)) as [Hin|Hnin].
    + rewrite decide_True by (right; exact Hin). reflexivity.
    + destruct (decide (k = key)) as [->|Hne].
      * rewrite decide_True by left. apply lookup_delete_eq.
      * rewrite decide_False by (intros H; apply elem_of_cons in H; tauto).
        apply lookup_delete_ne. congruence.
Qed.

Lemma lookup_set_optimize_model (d : Dict) (k : string) :
  k <> "optimize_model" -> set_optimize_model w d !! k = d !! k.
Proof.
  intros Hne. unfold set_optimize_model.
  destruct (version_lt (OrtVersion w) v1_16_0); [|reflexivity].
  apply lookup_insert_ne. congruence.
Qed.

Lemma enum_getitem_inr cls v t v' :
  enum_getitem w cls v = (t, inr v') -> t = [].
Proof.
  unfold enum_getitem. destruct v; try discriminate.
  destruct (enum_has_member w cls s); munfold; intros [= <- _]; reflexivity.
Qed.

Lemma to_enum_values_inr static extra_options rc t rc' :
  to_enum_values w static extra_options rc = (t, inr rc') ->
  t = []
  /\ rc' !! "extra_options" = Some (value_of_dict extra_options)
  /\ forall k, k ∉ ["calibrate_method"; "quant_format"; "activation_type";
                    "weight_type"; "extra_options"] -> rc' !! k = rc !! k.
Proof.
  unfold to_enum_values. intros H. destruct static.
  - repeat bind_inv.
    repeat match goal with
           | H : enum_getitem _ _ _ = _ |- _ => apply enum_getitem_inr in H as ->
           end.
    subst rc'. split; [reflexivity|]. split; [apply lookup_insert_eq|].
    intros k Hk. rewrite !not_elem_of_cons in Hk.
    rewrite !lookup_insert_ne by (intros E; symmetry in E; tauto). reflexivity.
  - repeat bind_inv.
    repeat match goal with
           | H : enum_getitem _ _ _ = _ |- _ => apply enum_getitem_inr in H as ->
           end.
    subst rc'. split; [reflexivity|]. split; [apply lookup_insert_eq|].
    intros k Hk. rewrite !not_elem_of_cons in Hk.
    rewrite !lookup_insert_ne by (intros E; symmetry in E; tauto). reflexivity.
Qed.

Lemma check_qnn_version_events rc : events (check_qnn_version w rc) = [].
Proof. unfold check_qnn_version. destruct (_ && _); reflexivity. Qed.

Lemma to_enum_values_events static extra_options rc :
  events (to_enum_values w static extra_options rc) = [].
Proof.
  destruct (to_enum_values w static extra_options rc) as [t [e|rc']] eqn:E.
  2:{ apply to_enum_values_inr in E as [-> _]. reflexivity. }
  assert (Forall (fun _ => False) (events (to_enum_values w static extra_options rc))) as HF.
  { unfold to_enum_values, enum_getitem. repeat events_step. }
  rewrite E in HF. simpl in HF. destruct t; [reflexivity|]. inversion HF. contradiction.
Qed.

(** What a successful second phase establishes. *)
Lemma prepare_arguments_inr i t p :
  prepare_arguments Conditional_default get_external_data_config w i = (t, inr p) ->
  is_static p = in_is_static i
  /\ model_path p = in_model i
  /\ exists rc,
      to_enum_values w (in_is_static i) (in_extra_options i) (in_run_config i)
      = ([], inr rc)
      /\ run_config p
         = set_optimize_model w
             (delete_keys (to_delete Conditional_default get_external_data_config
                             (in_is_static i)) rc).
Proof.
  unfold prepare_arguments. intros H. repeat bind_inv. subst p. simpl.
  repeat split. exists a0. split; [|reflexivity].
  destruct (to_enum_values_inr _ _ _ _ _ Hm0) as [-> _]. exact Hm0.
Qed.

Lemma prepare_arguments_no_quantization_call i :
  Forall (fun ev => is_quantization_call ev = false)
    (events (prepare_arguments Conditional_default get_external_data_config w i)).
Proof.
  unfold prepare_arguments.
  apply Forall_events_bind;
    [rewrite check_qnn_version_events; exact (List.Forall_nil _)|intros _ _ _].
  apply Forall_events_bind;
    [rewrite to_enum_values_events; exact (List.Forall_nil _)|intros ? ? _].
  repeat events_step.
Qed.

Lemma prepare_no_quantization_call model config :
  Forall (fun ev => is_quantization_call ev = false)
    (events (prepare Conditional_default ConditionalDefault_default
               get_external_data_config w model config)).
Proof.
  unfold prepare. apply Forall_events_bind.
  - apply prepare_inputs_no_quantization_call.
  - intros _ i _. apply prepare_arguments_no_quantization_call.
Qed.

Lemma entry_is_quantization_call ev :
  is_quantize_entry ev = true -> is_quantization_call ev = true.
Proof. destruct ev; simpl; congruence. Qed.

Lemma Forall_not_entry (t : list Event) ev :
  Forall (fun ev => is_quantize_entry ev = false) t ->
  ev ∈ t -> is_quantize_entry ev = true -> False.
Proof.
  intros HF Hin He. rewrite List.Forall_forall in HF.
  apply list_elem_of_In in Hin. specialize (HF _ Hin). congruence.
Qed.

Lemma static_arguments_no_entry data_root config p :
  Forall (fun ev => is_quantize_entry ev = false)
    (events (static_arguments w data_root config p)).
Proof.
  unfold static_arguments, get_dataloader, prepare_qnn. repeat events_step.
Qed.

Lemma prepare_qnn_not_requested config model dataloader rc v :
  config !! "prepare_qnn_config" = Some v -> py_truthy v = false ->
  prepare_qnn w config model dataloader rc = ret rc.
Proof.
  intros Hv Hf. unfold prepare_qnn.
  rewrite (getitem_Some _ _ _ Hv), bind_ret_l, Hf. reflexivity.
Qed.

(** The only quantization entry a run can reach, and its arguments. *)
Lemma quantize_entry data_root config p ev :
  ev ∈ events (quantize w data_root config p) ->
  is_quantize_entry ev = true ->
  (is_static p = false /\ ev = CallQuantizeDynamic (model_path p) (run_config p))
  \/ (is_static p = true
      /\ exists t dataloader t' rc,
          get_dataloader w data_root config = (t, inr dataloader)
          /\ prepare_qnn w config (model_path p) dataloader (run_config p) = (t', inr rc)
          /\ ev = CallQuantizeStatic (model_path p) dataloader
                    (delete_keys ["calibration_data_reader"; "use_external_data_format"] rc)).
Proof.
  unfold quantize. intros Hin He. destruct (is_static p).
  - right. split; [reflexivity|].
    rewrite events_bind in Hin. apply elem_of_app in Hin as [Hin|Hin].
    { exfalso. exact (Forall_not_entry _ _ (static_arguments_no_entry _ _ _) Hin He). }
    destruct (static_arguments w data_root config p) as [ta [e|[dl kw]]] eqn:Ha;
      simpl in Hin; [inversion Hin|].
    unfold static_arguments in Ha. repeat bind_inv.
    injection Ha as <- <-.
    unfold call_quantize_static in Hin.
    destruct (repeated_keyword _ _); [inversion Hin|].
    exists t, a, t1, a0. repeat split; try assumption.
    destruct (quantize_static w _ _ _); simpl in Hin;
      apply list_elem_of_singleton in Hin; exact Hin.
  - left. split; [reflexivity|].
    unfold call_quantize_dynamic in Hin.
    destruct (repeated_keyword _ _); [inversion Hin|].
    destruct (quantize_dynamic w _ _); simpl in Hin;
      apply list_elem_of_singleton in Hin; exact Hin.
Qed.

Lemma initial_extra_options_overwritten config t extra_options :
  initial_extra_options config = (t, inr extra_options) ->
  overwritten_keys ConditionalDefault_default config
  = dom extra_options ∩ list_to_set (exposed_keys ConditionalDefault_default).
Proof.
  unfold initial_extra_options, overwritten_keys, getitem.
  destruct (config !! "extra_options") as [v|]; [|discriminate].
  rewrite bind_ret_l.
  destruct v; simpl;
    try (intros H; apply ret_inr_inv in H as [<- _]; rewrite dom_empty_L;
         symmetry; apply (left_absorb_L _ _));
    try discriminate.
  - destruct b; [discriminate|].
    intros H; apply ret_inr_inv in H as [<- _]. rewrite dom_empty_L.
    symmetry; apply (left_absorb_L _ _).
  - destruct (negb (z =? 0)%Z); [discriminate|].
    intros H; apply ret_inr_inv in H as [<- _]. rewrite dom_empty_L.
    symmetry; apply (left_absorb_L _ _).
  - destruct (negb (String.eqb s "")); [discriminate|].
    intros H; apply ret_inr_inv in H as [<- _]. rewrite dom_empty_L.
    symmetry; apply (left_absorb_L _ _).
  - destruct l; [|discriminate].
    intros H; apply ret_inr_inv in H as [<- _]. rewrite dom_empty_L.
    symmetry; apply (left_absorb_L _ _).
  - destruct d; intros H; apply ret_inr_inv in H as [<- _]; reflexivity.
Qed.

Lemma run_tail_no_entry :
  Forall (fun ev => is_quantize_entry ev = false)
    (events (call CallOnnxLoad (onnx_load w) ;;
             call CallCleanup (cleanup w) ;;
             call CallModelProtoToOliveModel (model_proto_to_olive_model w))).
Proof. repeat events_step. Qed.

(** A quantization entry in the events of a run comes from the quantize
    phase of a run whose two preparation phases succeeded. *)
Lemma run_entry_inv model data_root config output_model_path ev :
  ev ∈ events (run model data_root config output_model_path) ->
  is_quantize_entry ev = true ->
  exists t1 i t2 p,
    prepare_inputs ConditionalDefault_default w model config = (t1, inr i)
    /\ prepare_arguments Conditional_default get_external_data_config w i = (t2, inr p)
    /\ ev ∈ events (quantize w data_root config p)
    /\ forall ev', ev' ∈ t1 -> ev' ∈ events (run model data_root config output_model_path).
Proof.
  intros Hin He.
  assert (Hsub : forall t1 i,
    prepare_inputs ConditionalDefault_default w model config = (t1, inr i) ->
    forall ev', ev' ∈ t1 -> ev' ∈ events (run model data_root config output_model_path)).
  { intros t1 i Hi ev' Hev'. unfold _run_for_config, prepare.
    rewrite !events_bind, Hi. apply elem_of_app. left. apply elem_of_app. left.
    exact Hev'. }
  unfold _run_for_config in Hin.
  rewrite events_bind in Hin. apply elem_of_app in Hin as [Hin|Hin].
  { exfalso. pose proof (prepare_no_quantization_call model config) as HF.
    rewrite List.Forall_forall in HF. apply list_elem_of_In in Hin.
    specialize (HF _ Hin). apply entry_is_quantization_call in He. congruence. }
  destruct (prepare _ _ _ _ _ _) as [t [e|p]] eqn:Hp; simpl in Hin; [inversion Hin|].
  rewrite events_bind in Hin. apply elem_of_app in Hin as [Hin|Hin].
  2:{ exfalso. destruct (outcome _); [inversion Hin|].
      exact (Forall_not_entry _ _ run_tail_no_entry Hin He). }
  unfold prepare in Hp. bind_inv.
  exists t0, a, t1, p. repeat split; try assumption.
  exact (Hsub _ _ Hm).
Qed.

(** C3, amended.  Whenever a run reaches a quantization entry point,
    in the QNN branch or not: if the caller's [extra_options] named exposed
    keys, a warning listing them was logged on the way, in the order the
    interpreter enumerates that set.  When the entry is reached without the
    QNN branch, the [extra_options] it passes give every exposed key the
    value of the run configuration.  In the QNN branch the keyword
    arguments, [extra_options] included, are instead the public attributes
    of the object [get_qnn_qdq_config] returned. *)
Theorem exposed_values_win_with_warning
    model data_root config output_model_path ev :
  ev ∈ events (run model data_root config output_model_path) ->
  is_quantize_entry ev = true ->
  (overwritten_keys ConditionalDefault_default config <> ∅ ->
   LogWarning overwritten_warning
     (render_set w (overwritten_keys ConditionalDefault_default config))
   ∈ events (run model data_root config output_model_path)
   /\ (render_set_ok w ->
       forall k, k ∈ render_set w (overwritten_keys ConditionalDefault_default config)
                 <-> k ∈ overwritten_keys ConditionalDefault_default config))
  /\ (forall kwargs,
        "extra_options" ∉ map fst get_external_data_config ->
        (exists m, ev = CallQuantizeDynamic m kwargs)
        \/ ((exists m reader, ev = CallQuantizeStatic m reader kwargs)
            /\ exists v, config !! "prepare_qnn_config" = Some v
                         /\ py_truthy v = false) ->
        exposed_values_win ConditionalDefault_default config kwargs)
  /\ (forall m reader kwargs v,
        ev = CallQuantizeStatic m reader kwargs ->
        config !! "prepare_qnn_config" = Some v ->
        py_truthy v = true ->
        exists calibrate_method activation_type weight_type per_channel members,
          get_qnn_qdq_config w m reader calibrate_method activation_type
            weight_type per_channel = inr members
          /\ forall k,
               kwargs !! k
               = if String.prefix "_" k
                    || String.eqb k "calibration_data_reader"
                    || String.eqb k "use_external_data_format"
                 then None
                 else last_value k members).
Proof.
  intros Hin He.
  destruct (run_entry_inv _ _ _ _ _ Hin He) as (t1 & i & t2 & p & Hi & Ha & Hq & Hsub).
  destruct (prepare_inputs_inr _ _ _ _ Hi)
    as (qm & eo0 & Hqm & Hstatic & Heo0 & Hexp & Hnexp & Hwarn).
  destruct (prepare_arguments_inr _ _ _ Ha) as (Hps & Hpm & rc & Hrc & Hrun).
  destruct (to_enum_values_inr _ _ _ _ _ Hrc) as (_ & Hopt & _).
  split; [|split].
  - intros HX. split.
    + apply Hsub. rewrite (initial_extra_options_overwritten _ _ _ Heo0) in HX |- *.
      apply Hwarn. exact HX.
    + intros Hok k. rewrite (Hok _). apply elem_of_elements.
  - intros kwargs Hext Hev.
    assert (Hpassed : run_config p !! "extra_options"
                      = Some (value_of_dict (in_extra_options i))).
    { rewrite Hrun, lookup_set_optimize_model by discriminate.
      rewrite lookup_delete_keys, decide_False; [exact Hopt|].
      unfold to_delete. rewrite !elem_of_app. intros [H|[H|H]].
      - apply list_elem_of_In in H. simpl in H. intuition discriminate.
      - contradiction.
      - destruct (in_is_static i); [|apply elem_of_app in H as [H|H]];
          apply list_elem_of_In in H; simpl in H; intuition discriminate. }
    assert (Hkw : kwargs !! "extra_options" = Some (value_of_dict (in_extra_options i))).
    { destruct (quantize_entry _ _ _ _ Hq He)
        as [[_ ->]|(_ & t & dl & t' & rc' & _ & Hqnn & ->)].
      - destruct Hev as [[m [= _ <-]]|[(m & r & [=]) _]]. exact Hpassed.
      - destruct Hev as [[m [=]]|[(m & r & [= _ _ <-]) (v & Hv & Hf)]].
        rewrite (prepare_qnn_not_requested _ _ _ _ _ Hv Hf) in Hqnn.
        apply ret_inr_inv in Hqnn as [<- _].
        unfold delete_keys. simpl. rewrite !lookup_delete_ne by discriminate.
        exact Hpassed. }
    exists (map_to_list (in_extra_options i)). split; [exact Hkw|].
    intros k Hk. destruct (Hexp k Hk) as (Hsome & Heq & _).
    split; [exact Hsome|]. unfold dict_of_value.
    rewrite list_to_map_to_list. exact Heq.
  - intros m reader kwargs v -> Hv Htr.
    destruct (quantize_entry _ _ _ _ Hq He)
      as [[_ [=]]|(_ & t & dl & t' & rc' & _ & Hqnn & [= -> -> ->])].
    unfold prepare_qnn in Hqnn.
    rewrite (getitem_Some _ _ _ Hv), bind_ret_l, Htr in Hqnn.
    repeat bind_inv. subst rc'.
    exists a, a0, a1, a2, a3. split; [assumption|].
    intros k. unfold delete_keys. simpl.
    destruct (String.eqb_spec k "use_external_data_format") as [->|Hn1].
    { rewrite lookup_delete_eq, !orb_true_r. reflexivity. }
    rewrite lookup_delete_ne by congruence.
    destruct (String.eqb_spec k "calibration_data_reader") as [->|Hn2].
    { rewrite lookup_delete_eq, orb_true_r. reflexivity. }
    rewrite !lookup_delete_ne by congruence. rewrite !orb_false_r.
    unfold public_members. rewrite lookup_fold_insert, last_value_filter.
    destruct (String.prefix "_" k); [apply lookup_empty|].
    destruct (last_value k a3); [reflexivity|apply lookup_empty].
Qed.

(** In dynamic mode the only quantization entry a run reaches is
    [quantize_dynamic], and its keyword arguments have none of the
    static-only keys. *)
Lemma dynamic_entry_lacks_static_keys model data_root config output_model_path ev :
  config !! "quant_mode" = Some (VStr "dynamic") ->
  ev ∈ events (run model data_root config output_model_path) ->
  is_quantize_entry ev = true ->
  exists m kwargs,
    ev = CallQuantizeDynamic m kwargs
    /\ forall k, k ∈ static_only_keys -> kwargs !! k = None.
Proof.
  intros Hm Hin He.
  destruct (run_entry_inv _ _ _ _ _ Hin He) as (t1 & i & t2 & p & Hi & Ha & Hq & _).
  destruct (prepare_inputs_inr _ _ _ _ Hi) as (qm & _ & Hqm & Hstatic & _).
  rewrite Hm in Hqm. injection Hqm as <-. simpl in Hstatic.
  destruct (prepare_arguments_inr _ _ _ Ha) as (Hps & _ & rc & _ & Hrun).
  rewrite Hstatic in Hps, Hrun.
  destruct (quantize_entry _ _ _ _ Hq He) as [[_ ->]|[Hs _]]; [|congruence].
  exists (model_path p), (run_config p). split; [reflexivity|].
  intros k Hk. rewrite Hrun.
  assert (Hdel : k ∈ to_delete Conditional_default get_external_data_config false).
  { unfold to_delete. rewrite !elem_of_app. right. right.
    unfold static_only_keys in Hk. apply elem_of_app in Hk as [Hk|Hk]; [left|right];
      apply list_elem_of_In; apply list_elem_of_In in Hk; exact Hk. }
  assert (Hne : k <> "optimize_model").
  { intros ->. apply list_elem_of_In in Hk. simpl in Hk. intuition discriminate. }
  rewrite lookup_set_optimize_model by exact Hne.
  rewrite lookup_delete_keys, decide_True by exact Hdel. reflexivity.
Qed.

End RunPhases.

Lemma quantization_failure_is_wrapped_narrowly_witness :
  exists t,
    OnnxQuantization._run_for_config (Fixed VInvalid) (Fixed VInvalid)
      sample_external_data_config failing_world "model.onnx" VNone dynamic_config "out"
    = (t, inl (OlivePassError "quantize_dynamic failed." (Some (Foreign a_ValueError)))).
Proof.
  eexists.
  refine (proj1 (quantization_failure_is_wrapped_narrowly (Fixed VInvalid) (Fixed VInvalid)
                   sample_external_data_config failing_world "model.onnx" VNone
                   dynamic_config "out" _ _ a_ValueError eq_refl) _ _ _);
    reflexivity.
Defined.

Lemma qnn_version_error_precedes_quantization_witness :
  exists e,
    outcome (OnnxQuantization._run_for_config (Fixed VInvalid) (Fixed VInvalid)
               sample_external_data_config old_world "model.onnx" VNone
               qnn_config_on_old_runtime "out") = inl e.
Proof.
  apply (proj1 (qnn_version_error_precedes_quantization (Fixed VInvalid) (Fixed VInvalid)
                  sample_external_data_config old_world "model.onnx" VNone
                  qnn_config_on_old_runtime "out" (VBool true)
                  eq_refl eq_refl eq_refl)).
Defined.

(** C7 fails as stated: with preprocessing enabled and nothing cached, the
    preprocessing call into onnxruntime comes before the version error. *)
Lemma qnn_version_error_after_preprocessing :
  qnn_config_on_old_runtime !! "prepare_qnn_config" = Some (VBool true)
  /\ version_lt (OrtVersion old_world) OnnxQuantization.v1_17_0 = true
  /\ OnnxQuantization._run_for_config (Fixed VInvalid) (Fixed VInvalid)
       sample_external_data_config old_world "model.onnx" VNone
       qnn_config_on_old_runtime "out"
     = ([ CallResolveOnnxPath; CallMkdir; CallExists;
          LogInfo "Preprocessing model for quantization"; CallQuantPreProcess ],
        inl (OlivePassError OnnxQuantization.qnn_version_error None))
  /\ is_external_library_call CallQuantPreProcess = true.
Proof. repeat split. Qed.

Lemma exposed_values_win_with_warning_witness :
  exists m kwargs,
    CallQuantizeDynamic m kwargs
    ∈ events (OnnxQuantization._run_for_config (Fixed VInvalid) (Fixed VInvalid)
                sample_external_data_config quiet_world "model.onnx" VNone
                colliding_config "out")
    /\ exposed_values_win (Fixed VInvalid) colliding_config kwargs
    /\ LogWarning OnnxQuantization.overwritten_warning
         (render_set quiet_world (overwritten_keys (Fixed VInvalid) colliding_config))
       ∈ events (OnnxQuantization._run_for_config (Fixed VInvalid) (Fixed VInvalid)
                   sample_external_data_config quiet_world "model.onnx" VNone
                   colliding_config "out").
Proof.
  assert (Hfind : exists m kwargs,
    List.find is_quantize_entry
      (events (OnnxQuantization._run_for_config (Fixed VInvalid) (Fixed VInvalid)
                 sample_external_data_config quiet_world "model.onnx" VNone
                 colliding_config "out"))
    = Some (CallQuantizeDynamic m kwargs)).
  { vm_compute. eexists _, _. reflexivity. }
  destruct Hfind as (m & kwargs & Hf). apply find_some in Hf as [Hin He].
  apply list_elem_of_In in Hin. exists m, kwargs. split; [exact Hin|].
  destruct (exposed_values_win_with_warning (Fixed VInvalid) (Fixed VInvalid)
              sample_external_data_config quiet_world "model.onnx" VNone
              colliding_config "out" (CallQuantizeDynamic m kwargs) Hin He)
    as (Hwarn & Hwin & _).
  split.
  - apply Hwin.
    + intros H. apply list_elem_of_In in H. simpl in H. intuition discriminate.
    + left. exists m. reflexivity.
  - apply Hwarn. apply (bool_decide_unpack _). vm_compute. exact I.
Defined.

(** C3 fails as stated, twice over.  In a static run with
    [prepare_qnn_config] set, the run configuration is replaced by the
    attributes of the QNN configuration object, so the options passed to
    [quantize_static] do not carry the exposed value.  And the warning lists
    the overwritten keys in the order the interpreter enumerates the set:
    two interpreters that enumerate it differently log different records. *)
Lemma qnn_branch_drops_exposed_values_and_order_varies :
  (exists m reader kwargs,
      CallQuantizeStatic m reader kwargs
      ∈ events (OnnxQuantization._run_for_config (Fixed VInvalid) (Fixed VInvalid)
                  sample_external_data_config qnn_world "model.onnx" VNone
                  qnn_colliding_config "out")
      /\ qnn_colliding_config !! "extra_options"
         = Some (VDict [ ("WeightSymmetric", VBool false) ])
      /\ qnn_colliding_config !! "WeightSymmetric" = Some (VBool true)
      /\ kwargs !! "extra_options" = Some (VDict [ ("DedicatedQDQPair", VBool false) ])
      /\ ~ exposed_values_win (Fixed VInvalid) qnn_colliding_config kwargs)
  /\ (render_set_ok quiet_world
      /\ render_set_ok reversed_world
      /\ events (OnnxQuantization._run_for_config (Fixed VInvalid) (Fixed VInvalid)
                   sample_external_data_config quiet_world "model.onnx" VNone
                   colliding_config "out")
         <> events (OnnxQuantization._run_for_config (Fixed VInvalid) (Fixed VInvalid)
                      sample_external_data_config reversed_world "model.onnx" VNone
                      colliding_config "out")).
Proof.
  split.
  - assert (Hfind : exists m reader kwargs,
      List.find is_quantize_entry
        (events (OnnxQuantization._run_for_config (Fixed VInvalid) (Fixed VInvalid)
                   sample_external_data_config qnn_world "model.onnx" VNone
                   qnn_colliding_config "out"))
      = Some (CallQuantizeStatic m reader kwargs)
      /\ kwargs !! "extra_options" = Some (VDict [ ("DedicatedQDQPair", VBool false) ])).
    { vm_compute. eexists _, _, _. split; reflexivity. }
    destruct Hfind as (m & reader & kwargs & Hf & Hk).
    apply find_some in Hf as [Hin _]. apply list_elem_of_In in Hin.
    exists m, reader, kwargs. repeat split; try assumption.
    intros (options & Ho & Hall). rewrite Hk in Ho. injection Ho as <-.
    destruct (Hall "WeightSymmetric") as [_ Hw].
    { apply list_elem_of_In. simpl. auto. }
    vm_compute in Hw. discriminate Hw.
  - split; [intros X; reflexivity|].
    split; [intros X; apply reverse_Permutation|].
    intros H. vm_compute in H. discriminate H.
Qed.

(** ** Resolution of search points *)

Section Resolution.

Variable table : Table.

Lemma current_value_present fuel visiting (point : Dict) name v :
  point !! name = Some v -> current_value table fuel visiting point name = inr v.
Proof. intros H. destruct fuel; simpl; rewrite H; reflexivity. Qed.

Lemma resolve_rows_app (a b : Table) (point : Dict) :
  resolve_rows table (a ++ b) point =
  match resolve_rows table a point with
  | inl e => inl e
  | inr point' => resolve_rows table b point'
  end.
Proof.
  revert point. induction a as [|[name ps] a IH]; intros point; simpl; [reflexivity|].
  destruct (has_concrete point name); [apply IH|].
  destruct (resolve_default table point name (default_value ps)) as [e|[v|bl|]];
    [reflexivity|apply IH|reflexivity|apply IH].
Qed.

(** Resolution never changes a parameter that already has a concrete value. *)
Lemma resolve_rows_keeps_concrete (rows : Table) (point point' : Dict) k :
  resolve_rows table rows point = inr point' ->
  has_concrete point k = true ->
  point' !! k = point !! k.
Proof.
  revert point. induction rows as [|[name ps] rows IH]; intros point; simpl.
  - intros [= <-] _. reflexivity.
  - intros H Hk. destruct (has_concrete point name) eqn:Hn; [apply IH; assumption|].
    assert (name <> k) by (intros ->; congruence).
    destruct (resolve_default table point name (default_value ps)) as [e|[v|bl|]];
      try discriminate.
    + rewrite (IH _ H); unfold has_concrete in *;
        rewrite lookup_insert_ne by assumption; [reflexivity|exact Hk].
    + rewrite (IH _ H); unfold has_concrete in *;
        rewrite lookup_delete_ne by assumption; [reflexivity|exact Hk].
Qed.

(** Resolution only touches the parameters of the rows it walks. *)
Lemma resolve_rows_untouched (rows : Table) (point point' : Dict) k :
  resolve_rows table rows point = inr point' ->
  k ∉ map fst rows ->
  point' !! k = point !! k.
Proof.
  revert point. induction rows as [|[name ps] rows IH]; intros point; simpl.
  - intros [= <-] _. reflexivity.
  - intros H Hk. apply not_elem_of_cons in Hk as [Hne Hk].
    destruct (has_concrete point name); [apply IH; assumption|].
    destruct (resolve_default table point name (default_value ps)) as [e|[v|bl|]];
      try discriminate.
    + rewrite (IH _ H Hk). apply lookup_insert_ne. congruence.
    + rewrite (IH _ H Hk). apply lookup_delete_ne. congruence.
Qed.

(** Resolving the search space of [activation_type] at a point that has
    chosen [QOperator] and [QInt8] reaches the invalid branch. *)
Lemma activation_type_invalid_branch Conditional_default (point : Dict) name :
  point !! "quant_format" = Some (VStr "QOperator") ->
  point !! "weight_type" = Some (VStr "QInt8") ->
  resolve_default table point name (activation_type_searchable_values Conditional_default)
  = inr (INVALID [("quant_format", VStr "QOperator"); ("weight_type", VStr "QInt8")]).
Proof.
  intros Hf Hw. unfold resolve_default, activation_type_searchable_values.
  cbn [resolve_descriptor collect].
  rewrite (current_value_present _ _ _ _ _ Hf), (current_value_present _ _ _ _ _ Hw).
  reflexivity.
Qed.

Lemma activation_type_invalid_allowed Conditional_default (point : Dict) name :
  point !! "quant_format" = Some (VStr "QOperator") ->
  point !! "weight_type" = Some (VStr "QInt8") ->
  resolve_allowed table point name (activation_type_searchable_values Conditional_default)
  = inr (INVALID [("quant_format", VStr "QOperator"); ("weight_type", VStr "QInt8")]).
Proof.
  intros Hf Hw. unfold resolve_allowed, activation_type_searchable_values.
  cbn [resolve_descriptor collect].
  rewrite (current_value_present _ _ _ _ _ Hf), (current_value_present _ _ _ _ _ Hw).
  reflexivity.
Qed.

(** C1.  Let a search point assign [quant_format = "QOperator"] and
    [weight_type = "QInt8"].  The conditional search space that the static
    optional group declares for [activation_type] resolves to [INVALID] at
    that point, with that parent tuple as the blocking combination.  And
    for a table that resolves [activation_type] from this conditional, at a
    point that leaves [activation_type] unresolved, resolution produces no
    effective configuration: once the rows before [activation_type] have
    resolved, it fails with [InvalidSearchPoint], naming [activation_type]
    and the blocking parent combination. *)
Theorem invalid_parent_combination_fails_resolution
    Conditional_default (pre post : Table) (ps : PassConfigParam) (point : Dict) :
  table = pre ++ ("activation_type", ps) :: post ->
  default_value ps = activation_type_searchable_values Conditional_default ->
  "activation_type" ∉ map fst pre ->
  point !! "quant_format" = Some (VStr "QOperator") ->
  point !! "weight_type" = Some (VStr "QInt8") ->
  has_concrete point "activation_type" = false ->
  (forall row sv,
      table_get "activation_type" (_static_optional_config Conditional_default) = Some row ->
      searchable_values row = Some sv ->
      resolve_allowed table point "activation_type" sv
      = inr (INVALID [("quant_format", VStr "QOperator"); ("weight_type", VStr "QInt8")]))
  /\ (exists e, resolve table point = inl e)
  /\ (forall point',
        resolve_rows table pre point = inr point' ->
        resolve table point
        = inl (InvalidSearchPoint "activation_type"
                 [("quant_format", VStr "QOperator"); ("weight_type", VStr "QInt8")])).
Proof.
  intros Ht Hd Hpre Hf Hw Ha.
  assert (Hmain : forall point',
    resolve_rows table pre point = inr point' ->
    resolve table point
    = inl (InvalidSearchPoint "activation_type"
             [("quant_format", VStr "QOperator"); ("weight_type", VStr "QInt8")])).
  { intros point' Hrows.
    unfold resolve. rewrite Ht at 2. rewrite resolve_rows_app, Hrows. simpl.
    assert (has_concrete point' "activation_type" = false) as ->.
    { unfold has_concrete in *.
      rewrite (resolve_rows_untouched _ _ _ _ Hrows Hpre). exact Ha. }
    rewrite Hd, activation_type_invalid_branch; [reflexivity| |].
    - rewrite (resolve_rows_keeps_concrete _ _ _ _ Hrows); [exact Hf|].
      unfold has_concrete. rewrite Hf. reflexivity.
    - rewrite (resolve_rows_keeps_concrete _ _ _ _ Hrows); [exact Hw|].
      unfold has_concrete. rewrite Hw. reflexivity. }
  split; [|split; [|exact Hmain]].
  - intros row sv Hrow Hsv. simpl in Hrow. injection Hrow as <-.
    simpl in Hsv. injection Hsv as <-.
    apply activation_type_invalid_allowed; assumption.
  - destruct (resolve_rows table pre point) as [e|point'] eqn:Hrows.
    + exists e. unfold resolve. rewrite Ht at 2. rewrite resolve_rows_app, Hrows.
      reflexivity.
    + eexists. apply (Hmain point'). reflexivity.
Qed.

Lemma collect_ext {A} (f g : string -> Res A) (names : list string) :
  (forall n, f n = g n) -> collect f names = collect g names.
Proof.
  intros Hfg. induction names as [|n rest IH]; simpl; [reflexivity|].
  rewrite Hfg, IH. reflexivity.
Qed.

(** The walk over a descriptor only depends on the parents' values. *)
Lemma resolve_descriptor_ext {A} (f g : string -> Res Value)
    (fixed : Value -> A) (categorical : list Value -> Res (Resolved A)) :
  (forall n, f n = g n) ->
  forall sv blocking,
    resolve_descriptor f fixed categorical blocking sv
    = resolve_descriptor g fixed categorical blocking sv.
Proof.
  intros Hfg. fix IH 1. intros [v|support|parents support default] blocking; simpl.
  - reflexivity.
  - reflexivity.
  - rewrite (collect_ext f g parents Hfg).
    destruct (collect g parents) as [e|key]; [reflexivity|].
    induction support as [|[k branch] rest IHs]; [apply IH|].
    destruct (key_eqb k key); [apply IH|apply IHs].
Qed.

Lemma unvisited_length_le (t : Table) n visiting :
  length (unvisited t (n :: visiting)) <= length (unvisited t visiting).
Proof.
  induction t as [|[k p] t IH]; simpl; [lia|].
  destruct (String.eqb k n); simpl.
  - destruct (existsb (String.eqb k) visiting); simpl; lia.
  - destruct (existsb (String.eqb k) visiting); simpl; lia.
Qed.

(** Descending into a declared parameter that is not being resolved yet
    leaves strictly fewer rows to visit. *)
Lemma unvisited_length_lt (t : Table) n ps visiting :
  table_get n t = Some ps ->
  existsb (String.eqb n) visiting = false ->
  length (unvisited t (n :: visiting)) < length (unvisited t visiting).
Proof.
  intros Hget Hn. induction t as [|[k p] t IH]; simpl in *; [discriminate|].
  destruct (String.eqb_spec n k) as [<-|Hne].
  - rewrite String.eqb_refl, Hn. simpl.
    pose proof (unvisited_length_le t n visiting). lia.
  - specialize (IH Hget).
    destruct (String.eqb_spec k n) as [->|_]; [congruence|]. simpl.
    destruct (existsb (String.eqb k) visiting); simpl; lia.
Qed.

Lemma not_visiting (n : string) (visiting : list string) :
  bool_decide (n ∈ visiting) = false -> existsb (String.eqb n) visiting = false.
Proof.
  intros H. apply bool_decide_eq_false in H.
  destruct (existsb (String.eqb n) visiting) eqn:E; [|reflexivity].
  exfalso. apply H. apply existsb_exists in E as (x & Hin & Hx).
  apply String.eqb_eq in Hx as <-. apply list_elem_of_In. exact Hin.
Qed.

(** Any fuel above the number of rows left to visit gives the same
    answer: the fuel of [resolve_default] is never what decides it. *)
Lemma current_value_fuel_irrelevant fuel1 fuel2 visiting (point : Dict) name :
  length (unvisited table visiting) < fuel1 ->
  length (unvisited table visiting) < fuel2 ->
  current_value table fuel1 visiting point name
  = current_value table fuel2 visiting point name.
Proof.
  revert fuel2 visiting name.
  induction fuel1 as [|fuel1 IH]; intros fuel2 visiting name H1 H2; [lia|].
  destruct fuel2 as [|fuel2]; [lia|]. simpl.
  destruct (point !! name); [reflexivity|].
  destruct (bool_decide (name ∈ visiting)) eqn:Hv; [reflexivity|].
  destruct (table_get name table) as [ps|] eqn:Hget; [|reflexivity].
  pose proof (unvisited_length_lt table name ps visiting Hget (not_visiting _ _ Hv)).
  rewrite (resolve_descriptor_ext
             (current_value table fuel1 (name :: visiting) point)
             (current_value table fuel2 (name :: visiting) point));
    [reflexivity|].
  intros n. apply IH; lia.
Qed.

Lemma unvisited_length (t : Table) visiting :
  length (unvisited t visiting) <= length t.
Proof. unfold unvisited. apply List.filter_length_le. Qed.

(** The default of a parameter resolves the same with any larger fuel. *)
Lemma resolve_default_enough_fuel fuel (point : Dict) name sv :
  length table < fuel ->
  resolve_descriptor (current_value table fuel [name] point)
    (fun v => v) (fun _ => inl (UnresolvedCategorical name)) [] sv
  = resolve_default table point name sv.
Proof.
  intros Hf. unfold resolve_default. apply resolve_descriptor_ext.
  intros n. pose proof (unvisited_length table [name]).
  apply current_value_fuel_irrelevant; lia.
Qed.

End Resolution.

Lemma invalid_parent_combination_fails_resolution_witness :
  resolve searched_activation_type qoperator_qint8_point
  = inl (InvalidSearchPoint "activation_type"
           [("quant_format", VStr "QOperator"); ("weight_type", VStr "QInt8")]).
Proof.
  refine (proj2 (proj2 (invalid_parent_combination_fails_resolution searched_activation_type
           (Fixed VInvalid)
           [ ("weight_type",
               param "str" (VStr "QInt8") (Some (Categorical [VStr "QInt8"; VStr "QUInt8"])));
             ("quant_format",
               param "str" (VStr "QDQ") (Some (Categorical [VStr "QOperator"; VStr "QDQ"]))) ]
           []
           {| type_ := "str";
              default_value := activation_type_searchable_values (Fixed VInvalid);
              searchable_values := None;
              category := NONE |}
           qoperator_qint8_point _ _ _ _ _ _)) qoperator_qint8_point _);
    try reflexivity.
  intros H. apply list_elem_of_In in H. simpl in H. intuition discriminate.
Defined.

(** ** Mode pruning *)

Lemma table_get_None (k : string) (t : Table) :
  table_get k t = None <-> k ∉ map fst t.
Proof.
  induction t as [|[k' p] t IH]; simpl.
  - split; [intros _ H; inversion H|reflexivity].
  - rewrite not_elem_of_cons. destruct (String.eqb_spec k k') as [->|Hne].
    + split; [discriminate|intros [H _]; contradiction].
    + rewrite IH. tauto.
Qed.

Lemma elem_of_table_set (x : string * PassConfigParam) k p (t : Table) :
  x ∈ table_set k p t -> x = (k, p) \/ x ∈ t.
Proof.
  induction t as [|[k' p'] t IH]; simpl.
  - intros H. apply list_elem_of_singleton in H. auto.
  - destruct (String.eqb k k').
    + intros H. apply elem_of_cons in H as [H|H]; [auto|right; right; exact H].
    + intros H. apply elem_of_cons in H as [->|H]; [right; left|].
      destruct (IH H); [auto|right; right; assumption].
Qed.

Lemma elem_of_update (x : string * PassConfigParam) (t u : Table) :
  x ∈ update t u -> x ∈ t \/ x ∈ u.
Proof.
  unfold update. revert t. induction u as [|[k p] u IH]; intros t; simpl; [auto|].
  intros H. destruct (IH _ H) as [H'|H'].
  - apply elem_of_table_set in H' as [->|H']; [right; left|auto].
  - right. right. exact H'.
Qed.

Section ModePruning.

Import OnnxQuantization.

Variable Conditional_default : SearchValue.
Variable ConditionalDefault_default : SearchValue.
Variable get_external_data_config : Table.

(** A default made conditional on [quant_mode] resolves to [IGNORED] in
    dynamic mode, whatever the table and the rest of the point. *)
Lemma conditional_default_ignored_when_dynamic (table : Table) (point : Dict) name value :
  point !! "quant_mode" = Some (VStr "dynamic") ->
  resolve_default table point name
    (default_value (make_conditional_on_quant_mode ConditionalDefault_default value))
  = inr IGNORED.
Proof.
  intros Hm. unfold resolve_default, make_conditional_on_quant_mode, ConditionalDefault.
  cbn [default_value resolve_descriptor collect].
  rewrite (current_value_present _ _ _ _ _ _ Hm). reflexivity.
Qed.

(** In dynamic mode, a parameter all of whose rows resolve to [IGNORED] is
    absent from the resolved configuration unless the point fixed it. *)
Lemma resolve_rows_drops_ignored (table rows : Table) (point config : Dict) k :
  (forall ps pt, (k, ps) ∈ rows -> pt !! "quant_mode" = Some (VStr "dynamic") ->
     resolve_default table pt k (default_value ps) = inr IGNORED) ->
  resolve_rows table rows point = inr config ->
  point !! "quant_mode" = Some (VStr "dynamic") ->
  has_concrete point k = false ->
  k ∈ map fst rows \/ point !! k = None ->
  config !! k = None.
Proof.
  intros Hign. revert point.
  induction rows as [|[name ps] rows IH]; intros point; simpl.
  - intros [= <-] _ _ [H|H]; [inversion H|exact H].
  - intros H Hm Hk Hin.
    assert (Hkm : k <> "quant_mode").
    { intros ->. unfold has_concrete in Hk. rewrite Hm in Hk. discriminate. }
    assert (IH' : forall pt, resolve_rows table rows pt = inr config ->
              pt !! "quant_mode" = Some (VStr "dynamic") ->
              has_concrete pt k = false ->
              k ∈ map fst rows \/ pt !! k = None -> config !! k = None).
    { intros pt. apply IH. intros ps' pt' Hps. apply Hign. right. exact Hps. }
    destruct (String.eqb_spec name k) as [->|Hne].
    + rewrite Hk in H. rewrite (Hign ps point) in H by (left || assumption).
      apply (IH' _ H).
      * rewrite lookup_delete_ne by congruence. exact Hm.
      * unfold has_concrete. rewrite lookup_delete_eq. reflexivity.
      * right. apply lookup_delete_eq.
    + assert (Hin' : forall pt : Dict, pt !! k = point !! k ->
                k ∈ map fst rows \/ pt !! k = None).
      { intros pt Hpt. destruct Hin as [Hin|Hin].
        - apply elem_of_cons in Hin as [Hin|Hin]; [simpl in Hin; congruence|auto].
        - right. congruence. }
      destruct (has_concrete point name) eqn:Hn.
      * apply (IH' _ H Hm Hk). apply Hin'. reflexivity.
      * assert (name <> "quant_mode").
        { intros ->. unfold has_concrete in Hn. rewrite Hm in Hn. discriminate. }
        destruct (resolve_default table point name (default_value ps)) as [e|[v|bl|]];
          try discriminate.
        -- apply (IH' _ H).
           ++ rewrite lookup_insert_ne by assumption. exact Hm.
           ++ unfold has_concrete in *. rewrite lookup_insert_ne by assumption. exact Hk.
           ++ apply Hin'. apply lookup_insert_ne. assumption.
        -- apply (IH' _ H).
           ++ rewrite lookup_delete_ne by assumption. exact Hm.
           ++ unfold has_concrete in *. rewrite lookup_delete_ne by assumption. exact Hk.
           ++ apply Hin'. apply lookup_delete_ne. assumption.
Qed.

Lemma table_get_Some_elem (k : string) (t : Table) ps :
  table_get k t = Some ps -> (k, ps) ∈ t.
Proof.
  induction t as [|[k' p] t IH]; simpl; [discriminate|].
  destruct (String.eqb_spec k k') as [->|Hne].
  - intros [= ->]. left.
  - intros H. right. apply IH. exact H.
Qed.

(** The rows of the static optional parameters in the table of the pass
    are the ones made conditional on [quant_mode]. *)
Lemma static_optional_rows_are_conditional accelerator_spec table k ps :
  _default_config Conditional_default ConditionalDefault_default
    get_external_data_config accelerator_spec = ret table ->
  k ∈ static_optional_keys ->
  table_get k get_external_data_config = None ->
  (k, ps) ∈ table ->
  exists value, ps = make_conditional_on_quant_mode ConditionalDefault_default value.
Proof.
  unfold _default_config. intros Ht Hk Hext Hin.
  apply ret_inr_inv in Ht as [<- _].
  apply table_get_None in Hext.
  repeat (apply elem_of_update in Hin as [Hin|Hin]).
  - exfalso. apply list_elem_of_In in Hk, Hin. simpl in Hk, Hin.
    intuition congruence.
  - exfalso. apply list_elem_of_In in Hk, Hin. simpl in Hk, Hin.
    intuition congruence.
  - exfalso. apply list_elem_of_In in Hk, Hin. simpl in Hk, Hin.
    intuition congruence.
  - apply list_elem_of_In in Hin. simpl in Hin.
    destruct Hin as [Hin|[Hin|[Hin|[Hin|[]]]]]; injection Hin as _ <-; eauto.
  - exfalso. apply list_elem_of_In in Hk, Hin. simpl in Hk, Hin.
    intuition congruence.
  - exfalso. apply list_elem_of_In in Hk, Hin. simpl in Hk, Hin.
    intuition congruence.
  - exfalso. apply Hext. apply list_elem_of_fmap. exists (k, ps). auto.
Qed.

Lemma static_optional_declared accelerator_spec table k :
  _default_config Conditional_default ConditionalDefault_default
    get_external_data_config accelerator_spec = ret table ->
  k ∈ static_optional_keys ->
  k ∈ map fst table.
Proof.
  unfold _default_config. intros Ht Hk.
  apply ret_inr_inv in Ht as [<- _].
  destruct (decide (k ∈ map fst (update
    (update (update (update (update (update [("quant_mode", quant_mode_param)]
       _onnx_quantization_config) _static_dataloader_config)
       (map (fun kv => (fst kv, make_conditional_on_quant_mode ConditionalDefault_default (snd kv)))
          (_static_optional_config Conditional_default)))
       (_exposed_extra_options_config ConditionalDefault_default))
       _extra_options_config) get_external_data_config))) as [Hin|Hnin];
    [exact Hin|exfalso].
  apply table_get_None in Hnin. revert Hnin.
  match goal with
  | |- table_get k (update ?base _) = None -> False =>
      intros Hnone; destruct (table_get_update_is_Some k get_external_data_config base)
        as [x Hx]; [|congruence]
  end.
  apply list_elem_of_In in Hk. simpl in Hk.
  destruct Hk as [<-|[<-|[<-|[<-|[]]]]]; eexists; reflexivity.
Qed.

(** C2.  Resolve a point with [quant_mode = "dynamic"] against the table
    of the pass.  The default of every static optional parameter resolves
    to [IGNORED]; the resolved configuration keeps [quant_mode] and has no
    entry for a static optional parameter the point did not fix itself; and
    any quantization call a run on that configuration reaches is the
    dynamic one, whose keyword arguments contain no static-only key. *)
Theorem dynamic_mode_prunes_static_only_parameters
    (w : World) accelerator_spec table (point : Dict) :
  _default_config Conditional_default ConditionalDefault_default
    get_external_data_config accelerator_spec = ret table ->
  (forall k, k ∈ static_optional_keys -> table_get k get_external_data_config = None) ->
  point !! "quant_mode" = Some (VStr "dynamic") ->
  (forall k ps, k ∈ static_optional_keys -> table_get k table = Some ps ->
     resolve_default table point k (default_value ps) = inr IGNORED)
  /\ forall config,
      resolve table point = inr config ->
      config !! "quant_mode" = Some (VStr "dynamic")
      /\ (forall k, k ∈ static_optional_keys -> has_concrete point k = false ->
            config !! k = None)
      /\ forall model data_root output_model_path ev,
           ev ∈ events (_run_for_config Conditional_default ConditionalDefault_default
                          get_external_data_config w model data_root config
                          output_model_path) ->
           is_quantize_entry ev = true ->
           exists m kwargs,
             ev = CallQuantizeDynamic m kwargs
             /\ forall k, k ∈ static_only_keys -> kwargs !! k = None.
Proof.
  intros Ht Hext Hm. split.
  - intros k ps Hk Hget.
    destruct (static_optional_rows_are_conditional _ _ _ _ Ht Hk (Hext k Hk)
                (table_get_Some_elem _ _ _ Hget)) as [value ->].
    apply conditional_default_ignored_when_dynamic. exact Hm.
  - intros config Hres. unfold resolve in Hres.
    destruct (resolve_rows table table point) as [e|c] eqn:Hrows; [discriminate|].
    injection Hres as <-.
    assert (Hcm : c !! "quant_mode" = Some (VStr "dynamic")).
    { rewrite (resolve_rows_keeps_concrete _ _ _ _ _ Hrows); [exact Hm|].
      unfold has_concrete. rewrite Hm. reflexivity. }
    assert (Hqm : drop_ignored c !! "quant_mode" = Some (VStr "dynamic")).
    { unfold drop_ignored. apply map_lookup_filter_Some. split; [exact Hcm|reflexivity]. }
    split; [exact Hqm|]. split.
    + intros k Hk Hnc. unfold drop_ignored. apply map_lookup_filter_None. left.
      apply (resolve_rows_drops_ignored table table point c k);
        try assumption.
      * intros ps pt Hin Hpt.
        destruct (static_optional_rows_are_conditional _ _ _ _ Ht Hk (Hext k Hk) Hin)
          as [value ->].
        apply conditional_default_ignored_when_dynamic. exact Hpt.
      * left. exact (static_optional_declared _ _ _ Ht Hk).
    + intros model data_root output_model_path ev Hin He.
      exact (dynamic_entry_lacks_static_keys _ _ _ _ _ _ _ _ _ Hqm Hin He).
Qed.

End ModePruning.

Lemma sample_external_data_config_disjoint k :
  k ∈ static_optional_keys -> table_get k sample_external_data_config = None.
Proof.
  intros Hk. apply list_elem_of_In in Hk. simpl in Hk.
  destruct Hk as [<-|[<-|[<-|[<-|[]]]]]; reflexivity.
Defined.

Lemma dynamic_mode_prunes_static_only_parameters_witness :
  exists table,
    OnnxQuantization._default_config (Fixed VInvalid) (Fixed VInvalid)
      sample_external_data_config cpu_spec = ret table
    /\ table_get "calibrate_method" table = Some wrapped_calibrate_method
    /\ resolve_default table dynamic_point "calibrate_method"
         (default_value wrapped_calibrate_method) = inr IGNORED.
Proof.
  eexists. split; [reflexivity|]. split; [reflexivity|].
  apply (proj1 (dynamic_mode_prunes_static_only_parameters
                  (Fixed VInvalid) (Fixed VInvalid) sample_external_data_config
                  quiet_world cpu_spec _ dynamic_point eq_refl
                  sample_external_data_config_disjoint eq_refl)
           "calibrate_method" wrapped_calibrate_method).
  - apply list_elem_of_In. simpl. auto.
  - reflexivity.
Defined.

(** The resolved dynamic configuration is one a run accepts: on the
    defaults of the pass, resolution succeeds and the run reaches
    [quantize_dynamic]. *)
Example dynamic_defaults_reach_quantize_dynamic :
  match OnnxQuantization._default_config (Fixed VInvalid) (Fixed VInvalid)
          sample_external_data_config cpu_spec with
  | (_, inr table) =>
      match resolve table dynamic_point with
      | inr config =>
          existsb is_quantize_entry
            (events (OnnxQuantization._run_for_config (Fixed VInvalid) (Fixed VInvalid)
                       sample_external_data_config quiet_world "model.onnx" VNone
                       config "out"))
      | inl _ => false
      end
  | _ => false
  end = true.
Proof. vm_compute. reflexivity. Qed.

(** * Further properties of the code *)

(** ** The validator *)

Section ValidatorProperties.

Import OnnxQuantization.

Variable config_at_search_point : option Dict -> M Dict.
Variable accelerator_spec : AcceleratorSpec.

(** X1.  A point whose [quant_mode] is anything but ["static"] is accepted
    without another key being read and without an event: the rules only
    apply to static quantization. *)
Theorem validate_accepts_every_other_mode
    search_point with_fixed_value t0 config quant_mode :
  inspected_config config_at_search_point search_point with_fixed_value = (t0, inr config) ->
  config !! "quant_mode" = Some quant_mode ->
  quant_mode <> VStr "static" ->
  validate_search_point config_at_search_point search_point accelerator_spec with_fixed_value
  = (t0, inr true).
Proof.
  intros Hc Hm Hne.
  rewrite (validate_search_point_unfold _ _ _ _ _ _ Hc).
  rewrite (getitem_Some _ _ _ Hm), bind_ret_l.
  apply py_eq_str_false in Hne. rewrite Hne. simpl. rewrite app_nil_r. reflexivity.
Qed.

(** X2.  On a fully resolved static point the verdict depends on
    [EnableSubgraph] alone: the point is rejected exactly when that value is
    the boolean [True] (any other value, truthy or not, is accepted), and
    the advisory warning, logged exactly for the QInt8/QInt8/QOperator
    triple, never changes the verdict. *)
Theorem validate_static_verdict
    search_point with_fixed_value t0 config wt at_ qf EnableSubgraph :
  inspected_config config_at_search_point search_point with_fixed_value = (t0, inr config) ->
  config !! "quant_mode" = Some (VStr "static") ->
  config !! "weight_type" = Some wt ->
  config !! "activation_type" = Some at_ ->
  config !! "quant_format" = Some qf ->
  config !! "EnableSubgraph" = Some EnableSubgraph ->
  validate_search_point config_at_search_point search_point accelerator_spec with_fixed_value
  = (t0 ++ advisory_events wt at_ qf ++ rejection_events EnableSubgraph,
     inr (negb (py_is_True EnableSubgraph))).
Proof.
  intros Hc Hm Hw Ha Hf He.
  rewrite (validate_search_point_unfold _ _ _ _ _ _ Hc).
  rewrite (getitem_Some _ _ _ Hm), bind_ret_l. simpl py_eq_str.
  rewrite (s8s8_qoperator_total _ _ _ _ Hw Ha Hf), bind_ret_l.
  rewrite (getitem_Some _ _ _ He).
  unfold advisory_events, rejection_events.
  destruct (py_eq_str wt "QInt8" && py_eq_str at_ "QInt8" && py_eq_str qf "QOperator");
    destruct (py_is_True EnableSubgraph) eqn:E; munfold; simpl; rewrite E; reflexivity.
Qed.

End ValidatorProperties.

Lemma validate_accepts_every_other_mode_witness :
  OnnxQuantization.validate_search_point (fun _ => ret ∅) (Some dynamic_subgraph_point)
    cpu_spec false = ([], inr true).
Proof.
  apply (validate_accepts_every_other_mode (fun _ => ret ∅) cpu_spec
           (Some dynamic_subgraph_point) false [] dynamic_subgraph_point (VStr "dynamic"));
    try reflexivity.
  discriminate.
Defined.

Lemma validate_static_verdict_witness :
  OnnxQuantization.validate_search_point (fun _ => ret ∅) (Some integer_subgraph_point)
    cpu_spec false = ([], inr true).
Proof.
  apply (validate_static_verdict (fun _ => ret ∅) cpu_spec
           (Some integer_subgraph_point) false [] integer_subgraph_point
           (VStr "QUInt8") (VStr "QUInt8") (VStr "QDQ") (VInt 1));
    reflexivity.
Defined.

(** ** The arguments of the quantization call *)

Lemma enum_getitem_inr_inv w cls v t v' :
  enum_getitem w cls v = (t, inr v') ->
  exists s, v = VStr s /\ enum_has_member w cls s = true /\ v' = VEnum cls s /\ t = [].
Proof.
  unfold enum_getitem. destruct v; try discriminate.
  destruct (enum_has_member w cls s) eqn:E; munfold; [|discriminate].
  intros [= <- <-]. eauto.
Qed.

Section RunArguments.

Import OnnxQuantization.

Variable Conditional_default : SearchValue.
Variable ConditionalDefault_default : SearchValue.
Variable get_external_data_config : Table.
Variable w : World.

Local Abbreviation run :=
  (_run_for_config Conditional_default ConditionalDefault_default
     get_external_data_config w).

Local Abbreviation exposed := (exposed_keys ConditionalDefault_default).

(** What the enum conversion requires and produces. *)
Lemma to_enum_values_converted static extra_options rc t rc' k :
  to_enum_values w static extra_options rc = (t, inr rc') ->
  k ∈ converted_keys static ->
  exists s cls,
    rc !! k = Some (VStr s) /\ enum_has_member w cls s = true
    /\ rc' !! k = Some (VEnum cls s)
    /\ cls = (if String.eqb k "calibrate_method" then "CalibrationMethod"
              else if String.eqb k "quant_format" then "QuantFormat"
              else "QuantType").
Proof.
  unfold to_enum_values, converted_keys. intros H Hk. destruct static.
  - repeat bind_inv.
    repeat match goal with
           | H : enum_getitem _ _ _ = _ |- _ =>
               apply enum_getitem_inr_inv in H as (? & -> & ? & -> & ->)
           end.
    subst rc'.
    repeat (apply elem_of_cons in Hk as [->|Hk]); [| | | |inversion Hk];
      eexists _, _; (split; [eassumption|]); (split; [eassumption|]);
      (split; [|reflexivity]);
      repeat (first [apply lookup_insert_eq | rewrite lookup_insert_ne by discriminate]).
  - repeat bind_inv.
    repeat match goal with
           | H : enum_getitem _ _ _ = _ |- _ =>
               apply enum_getitem_inr_inv in H as (? & -> & ? & -> & ->)
           end.
    subst rc'.
    repeat (apply elem_of_cons in Hk as [->|Hk]); [|inversion Hk];
      eexists _, _; (split; [eassumption|]); (split; [eassumption|]);
      (split; [|reflexivity]);
      repeat (first [apply lookup_insert_eq | rewrite lookup_insert_ne by discriminate]).
Qed.

Lemma to_enum_values_other static extra_options rc t rc' k :
  to_enum_values w static extra_options rc = (t, inr rc') ->
  k ∉ converted_keys static -> k <> "extra_options" ->
  rc' !! k = rc !! k.
Proof.
  unfold to_enum_values, converted_keys. intros H Hk Hne. destruct static.
  - repeat bind_inv. subst rc'. rewrite !not_elem_of_cons in Hk.
    rewrite !lookup_insert_ne by (intros E; symmetry in E; tauto). reflexivity.
  - repeat bind_inv. subst rc'. rewrite !not_elem_of_cons in Hk.
    rewrite !lookup_insert_ne by (intros E; symmetry in E; tauto). reflexivity.
Qed.

(** The model a successful first phase hands on is what [preprocess]
    returned on the run configuration left by the exposed-keys loop. *)
Lemma prepare_inputs_preprocess model config t i :
  prepare_inputs ConditionalDefault_default w model config = (t, inr i) ->
  exists t', preprocess w (in_run_config i) model = (t', inr (in_model i)).
Proof.
  unfold prepare_inputs. intros H. repeat bind_inv. subst i. simpl. eauto.
Qed.

Lemma preprocess_inr rc model t m :
  preprocess w rc model = (t, inr m) ->
  exists quant_preprocess,
    rc !! "quant_preprocess" = Some quant_preprocess
    /\ m = if py_truthy quant_preprocess then preprocessed_temp_model_path w else model.
Proof.
  unfold preprocess, _quant_preprocess. intros H. repeat bind_inv.
  exists a0. split; [assumption|].
  destruct (py_truthy a0); [|bind_inv; congruence].
  repeat bind_inv. destruct (negb a1).
  - repeat bind_inv. destruct (quant_pre_process w) as [e|[]].
    + destruct (isinstance e "Exception"); [|discriminate]. repeat bind_inv. congruence.
    + bind_inv. congruence.
  - repeat bind_inv. congruence.
Qed.

(** A plain entry and the state it was reached from. *)
Lemma plain_entry_inv model data_root config output_model_path ev kwargs :
  ev ∈ events (run model data_root config output_model_path) ->
  plain_entry config ev kwargs ->
  exists t1 i rc,
    prepare_inputs ConditionalDefault_default w model config = (t1, inr i)
    /\ to_enum_values w (in_is_static i) (in_extra_options i) (in_run_config i)
       = ([], inr rc)
    /\ kwargs = passed_on (in_is_static i)
                  (set_optimize_model w
                     (delete_keys (to_delete Conditional_default get_external_data_config
                                     (in_is_static i)) rc))
    /\ is_static_entry ev = in_is_static i
    /\ entry_model_input ev = Some (in_model i).
Proof.
  intros Hin Hev.
  assert (He : is_quantize_entry ev = true).
  { destruct Hev as [[m ->]|[(m & r & ->) _]]; reflexivity. }
  destruct (run_entry_inv _ _ _ _ _ _ _ _ _ Hin He) as (t1 & i & t2 & p & Hi & Ha & Hq & _).
  destruct (prepare_arguments_inr _ _ _ _ _ _ Ha) as (Hps & Hpm & rc & Hrc & Hrun).
  exists t1, i, rc. split; [exact Hi|]. split; [exact Hrc|].
  destruct (quantize_entry _ _ _ _ _ Hq He)
    as [[Hs ->]|(Hs & t & dl & t' & rc' & _ & Hqnn & ->)].
  - rewrite Hps in Hs. rewrite Hs. simpl.
    destruct Hev as [[m [= _ <-]]|[(m & r & [=]) _]].
    rewrite Hrun, Hs, Hpm. auto.
  - rewrite Hps in Hs. rewrite Hs. simpl.
    destruct Hev as [[m [=]]|[(m & r & [= _ _ <-]) (v & Hv & Hf)]].
    rewrite (prepare_qnn_not_requested _ _ _ _ _ _ Hv Hf) in Hqnn.
    apply ret_inr_inv in Hqnn as [<- _].
    rewrite Hrun, Hs, Hpm. auto.
Qed.

Lemma lookup_passed_on static (K : Dict) k :
  k <> "calibration_data_reader" -> k <> "use_external_data_format" ->
  passed_on static K !! k = K !! k.
Proof.
  intros H1 H2. unfold passed_on, delete_keys. destruct static; [|reflexivity].
  simpl. rewrite !lookup_delete_ne by congruence. reflexivity.
Qed.

Lemma lookup_passed_on_None static (K : Dict) k :
  K !! k = None -> passed_on static K !! k = None.
Proof.
  intros H. unfold passed_on. destruct static; [|exact H].
  rewrite lookup_delete_keys. destruct (decide _); [reflexivity|exact H].
Qed.

Lemma in_list (k : string) (l : list string) :
  existsb (String.eqb k) l = true -> k ∈ l.
Proof.
  intros H. apply existsb_exists in H as (x & Hin & Hx).
  apply String.eqb_eq in Hx as <-. apply list_elem_of_In. exact Hin.
Qed.

Lemma not_in_list (k : string) (l : list string) :
  existsb (String.eqb k) l = false -> k ∉ l.
Proof.
  intros H Hin. apply list_elem_of_In in Hin.
  assert (existsb (String.eqb k) l = true).
  { apply existsb_exists. exists k. split; [exact Hin|apply String.eqb_refl]. }
  congruence.
Qed.

Lemma initial_extra_options_caller config t extra_options :
  initial_extra_options config = (t, inr extra_options) ->
  extra_options = caller_options config.
Proof.
  unfold initial_extra_options, caller_options, getitem.
  destruct (config !! "extra_options") as [v|]; [|discriminate].
  rewrite bind_ret_l.
  destruct v; simpl;
    try (intros H; apply ret_inr_inv in H as [<- _]; reflexivity);
    try discriminate.
  - destruct b; [discriminate|]. intros H; apply ret_inr_inv in H as [<- _]; reflexivity.
  - destruct (negb (z =? 0)%Z); [discriminate|].
    intros H; apply ret_inr_inv in H as [<- _]; reflexivity.
  - destruct (negb (String.eqb s "")); [discriminate|].
    intros H; apply ret_inr_inv in H as [<- _]; reflexivity.
  - destruct l; [|discriminate].
    intros H; apply ret_inr_inv in H as [<- _]; reflexivity.
  - destruct d; intros H; apply ret_inr_inv in H as [<- _]; reflexivity.
Qed.

(** X3.  The keys a run cannot do without: whenever a run reaches a
    quantization entry point, the configuration had [quant_mode],
    [extra_options], [quant_preprocess] and every exposed key, every value
    to be converted was the name of a member of its enumeration, and a
    static run also had [dataloader_func] and [prepare_qnn_config]. *)
Theorem reaching_quantization_requires
    model data_root config output_model_path ev :
  ev ∈ events (run model data_root config output_model_path) ->
  is_quantize_entry ev = true ->
  (is_static_entry ev = true <-> config !! "quant_mode" = Some (VStr "static"))
  /\ is_Some (config !! "quant_mode")
  /\ is_Some (config !! "extra_options")
  /\ is_Some (config !! "quant_preprocess")
  /\ (forall k, k ∈ exposed -> is_Some (config !! k))
  /\ (forall k, k ∈ converted_keys (is_static_entry ev) ->
        exists s cls,
          config !! k = Some (VStr s)
          /\ enum_has_member w cls s = true
          /\ cls = (if String.eqb k "calibrate_method" then "CalibrationMethod"
                    else if String.eqb k "quant_format" then "QuantFormat"
                    else "QuantType"))
  /\ (is_static_entry ev = true ->
        is_Some (config !! "dataloader_func") /\ is_Some (config !! "prepare_qnn_config")).
Proof.
  intros Hin He.
  destruct (run_entry_inv _ _ _ _ _ _ _ _ _ Hin He) as (t1 & i & t2 & p & Hi & Ha & Hq & _).
  destruct (prepare_inputs_inr _ _ _ _ _ _ Hi)
    as (qm & eo0 & Hqm & Hstatic & Heo0 & Hexp & Hnexp & _).
  destruct (prepare_arguments_inr _ _ _ _ _ _ Ha) as (Hps & Hpm & rc & Hrc & Hrun).
  destruct (prepare_inputs_preprocess _ _ _ _ Hi) as [t' Hpre].
  destruct (preprocess_inr _ _ _ _ Hpre) as (qp & Hqp & _).
  assert (Hkind : is_static_entry ev = in_is_static i).
  { destruct (quantize_entry _ _ _ _ _ Hq He)
      as [[Hs ->]|(Hs & ? & ? & ? & ? & _ & _ & ->)]; simpl; congruence. }
  split; [|split; [|split; [|split; [|split; [|split]]]]].
  - rewrite Hkind, Hstatic, Hqm, py_eq_str_true. split; congruence.
  - rewrite Hqm. eauto.
  - unfold initial_extra_options, getitem in Heo0.
    destruct (config !! "extra_options"); [eauto|discriminate].
  - destruct (Hnexp "quant_preprocess") as [_ <-];
      [apply not_exposed_key; reflexivity|]. rewrite Hqp. eauto.
  - intros k Hk. apply Hexp. exact Hk.
  - intros k Hk. rewrite Hkind in Hk.
    destruct (to_enum_values_converted _ _ _ _ _ _ Hrc Hk)
      as (s & cls & Hk1 & Hk2 & _ & Hcls).
    exists s, cls. split; [|split; [exact Hk2|exact Hcls]].
    destruct (Hnexp k) as [_ <-]; [|exact Hk1].
    apply not_exposed_key. unfold converted_keys in Hk.
    destruct (in_is_static i); repeat (apply elem_of_cons in Hk as [->|Hk]);
      first [reflexivity | inversion Hk].
  - intros Hs.
    destruct (quantize_entry _ _ _ _ _ Hq He)
      as [[_ ->]|(_ & t & dl & t'' & rc' & Hdl & Hqnn & _)]; [discriminate|].
    split.
    + unfold get_dataloader, getitem in Hdl.
      destruct (config !! "dataloader_func"); [eauto|discriminate].
    + unfold prepare_qnn, getitem in Hqnn.
      destruct (config !! "prepare_qnn_config"); [eauto|discriminate].
Qed.

(** X4.  The bookkeeping keys, the external-data keys, the calibration
    keys and the exposed keys (which have moved into [extra_options]) are
    never among the keyword arguments of a plain entry. *)
Theorem internal_keys_never_passed
    model data_root config output_model_path ev kwargs k :
  ev ∈ events (run model data_root config output_model_path) ->
  plain_entry config ev kwargs ->
  k ∈ internal_keys
  \/ k ∈ map fst _static_dataloader_config
  \/ k ∈ exposed
  \/ (k ∈ map fst get_external_data_config /\ k <> "optimize_model") ->
  kwargs !! k = None.
Proof.
  intros Hin Hev Hk.
  destruct (plain_entry_inv _ _ _ _ _ _ Hin Hev)
    as (t1 & i & rc & Hi & Hrc & -> & _ & _).
  apply lookup_passed_on_None.
  assert (Hne : k <> "optimize_model").
  { destruct Hk as [Hk|[Hk|[Hk|[_ Hk]]]]; [| | |exact Hk];
      intros ->; apply list_elem_of_In in Hk; simpl in Hk; intuition discriminate. }
  rewrite lookup_set_optimize_model by exact Hne.
  rewrite lookup_delete_keys.
  destruct (decide (k ∈ to_delete Conditional_default get_external_data_config
                          (in_is_static i))) as [_|Hnd]; [reflexivity|].
  unfold to_delete in Hnd. rewrite !elem_of_app in Hnd.
  destruct Hk as [Hk|[Hk|[Hk|[Hk _]]]].
  - exfalso. apply Hnd. left. exact Hk.
  - exfalso. apply Hnd. right. right.
    destruct (in_is_static i); [exact Hk|apply elem_of_app; left; exact Hk].
  - destruct (prepare_inputs_inr _ _ _ _ _ _ Hi) as (_ & _ & _ & _ & _ & Hexp & _ & _).
    destruct (Hexp k Hk) as (_ & _ & Hnone).
    rewrite (to_enum_values_other _ _ _ _ _ _ Hrc); [exact Hnone| |].
    + intros Hc. apply list_elem_of_In in Hk, Hc. unfold converted_keys in Hc.
      simpl in Hk. destruct (in_is_static i); simpl in Hc; intuition congruence.
    + intros ->. apply list_elem_of_In in Hk. simpl in Hk. intuition discriminate.
  - exfalso. apply Hnd. right. left. exact Hk.
Qed.

Lemma converted_not_deleted static k :
  k ∈ converted_keys static ->
  k ∉ map fst get_external_data_config ->
  k ∉ to_delete Conditional_default get_external_data_config static.
Proof.
  intros Hk Hext Hd. unfold to_delete in Hd. rewrite !elem_of_app in Hd.
  destruct Hd as [Hd|[Hd|Hd]]; [|contradiction|].
  - apply list_elem_of_In in Hk, Hd. unfold converted_keys in Hk.
    destruct static; simpl in Hk, Hd; intuition congruence.
  - destruct static.
    + apply list_elem_of_In in Hk, Hd. simpl in Hk, Hd. intuition congruence.
    + apply elem_of_app in Hd as [Hd|Hd];
        apply list_elem_of_In in Hk, Hd; simpl in Hk, Hd; intuition congruence.
Qed.

(** X5.  String values become enum members exactly at the call: a plain
    entry receives [weight_type] (and, in a static run, [calibrate_method],
    [quant_format] and [activation_type]) as the member of the enumeration
    that the configured string names. *)
Theorem strings_become_enum_members
    model data_root config output_model_path ev kwargs k :
  ev ∈ events (run model data_root config output_model_path) ->
  plain_entry config ev kwargs ->
  k ∈ converted_keys (is_static_entry ev) ->
  k ∉ map fst get_external_data_config ->
  exists s cls,
    config !! k = Some (VStr s)
    /\ enum_has_member w cls s = true
    /\ kwargs !! k = Some (VEnum cls s)
    /\ cls = (if String.eqb k "calibrate_method" then "CalibrationMethod"
              else if String.eqb k "quant_format" then "QuantFormat"
              else "QuantType").
Proof.
  intros Hin Hev Hk Hext.
  destruct (plain_entry_inv _ _ _ _ _ _ Hin Hev)
    as (t1 & i & rc & Hi & Hrc & -> & Hkind & _).
  rewrite Hkind in Hk.
  destruct (to_enum_values_converted _ _ _ _ _ _ Hrc Hk) as (s & cls & Hk1 & Hk2 & Hk3 & Hcls).
  destruct (prepare_inputs_inr _ _ _ _ _ _ Hi) as (? & ? & _ & _ & _ & _ & Hnexp & _).
  assert (Hcases : k ∈ ["calibrate_method"; "quant_format"; "activation_type"; "weight_type"]).
  { unfold converted_keys in Hk. destruct (in_is_static i); [exact Hk|].
    apply list_elem_of_singleton in Hk as ->. do 3 right. left. }
  exists s, cls. split; [|split; [exact Hk2|split; [|exact Hcls]]].
  - destruct (Hnexp k) as [_ <-]; [|exact Hk1].
    apply not_exposed_key.
    repeat (apply elem_of_cons in Hcases as [->|Hcases]); first [reflexivity|inversion Hcases].
  - rewrite lookup_passed_on, lookup_set_optimize_model, lookup_delete_keys, decide_False;
      [exact Hk3|apply converted_not_deleted; assumption| | |];
      intros ->;
      repeat (apply elem_of_cons in Hcases as [Hcases|Hcases]);
      first [discriminate Hcases | inversion Hcases].
Qed.

(** X6.  [optimize_model] is forced to [False] on a runtime older than
    1.16.0 and is otherwise whatever the configuration says. *)
Theorem optimize_model_forced_off_on_old_runtime
    model data_root config output_model_path ev kwargs :
  ev ∈ events (run model data_root config output_model_path) ->
  plain_entry config ev kwargs ->
  "optimize_model" ∉ map fst get_external_data_config ->
  kwargs !! "optimize_model"
  = if version_lt (OrtVersion w) v1_16_0 then Some (VBool false)
    else config !! "optimize_model".
Proof.
  intros Hin Hev Hext.
  destruct (plain_entry_inv _ _ _ _ _ _ Hin Hev)
    as (t1 & i & rc & Hi & Hrc & -> & _ & _).
  rewrite lookup_passed_on by discriminate.
  unfold set_optimize_model.
  destruct (version_lt (OrtVersion w) v1_16_0); [apply lookup_insert_eq|].
  destruct (prepare_inputs_inr _ _ _ _ _ _ Hi) as (? & ? & _ & _ & _ & _ & Hnexp & _).
  rewrite lookup_delete_keys, decide_False.
  - rewrite (to_enum_values_other _ _ _ _ _ _ Hrc).
    + apply Hnexp. apply not_exposed_key. reflexivity.
    + intros H. apply list_elem_of_In in H. unfold converted_keys in H.
      destruct (in_is_static i); simpl in H; intuition discriminate.
    + discriminate.
  - unfold to_delete. rewrite !elem_of_app. intros [H|[H|H]]; [|contradiction|].
    + apply list_elem_of_In in H. simpl in H. intuition discriminate.
    + destruct (in_is_static i); [|apply elem_of_app in H as [H|H]];
        apply list_elem_of_In in H; simpl in H; intuition discriminate.
Qed.

(** X7.  Every other parameter reaches the call untouched: a key that is
    neither deleted, nor exposed, nor converted, nor one of the two keys the
    run sets itself has in the keyword arguments the value it has in the
    configuration. *)
Theorem other_parameters_pass_through
    model data_root config output_model_path ev kwargs k :
  ev ∈ events (run model data_root config output_model_path) ->
  plain_entry config ev kwargs ->
  k ∉ to_delete Conditional_default get_external_data_config (is_static_entry ev) ->
  k ∉ exposed ->
  k ∉ converted_keys (is_static_entry ev) ->
  k ∉ ["extra_options"; "optimize_model"; "calibration_data_reader";
       "use_external_data_format"] ->
  kwargs !! k = config !! k.
Proof.
  intros Hin Hev Hd Hx Hc Hk.
  destruct (plain_entry_inv _ _ _ _ _ _ Hin Hev)
    as (t1 & i & rc & Hi & Hrc & -> & Hkind & _).
  rewrite Hkind in Hd, Hc. rewrite !not_elem_of_cons in Hk.
  destruct (prepare_inputs_inr _ _ _ _ _ _ Hi) as (? & ? & _ & _ & _ & _ & Hnexp & _).
  rewrite lookup_passed_on, lookup_set_optimize_model, lookup_delete_keys, decide_False
    by tauto.
  rewrite (to_enum_values_other _ _ _ _ _ _ Hrc) by tauto.
  apply Hnexp. exact Hx.
Qed.

(** X8.  The [extra_options] of a plain entry are the caller's own with
    the exposed values laid over them: an exposed key carries the
    configuration's value, any other key exactly what the caller gave, and
    nothing else is added. *)
Theorem extra_options_are_caller_options_overlaid
    model data_root config output_model_path ev kwargs :
  ev ∈ events (run model data_root config output_model_path) ->
  plain_entry config ev kwargs ->
  "extra_options" ∉ map fst get_external_data_config ->
  exists options,
    kwargs !! "extra_options" = Some (VDict options)
    /\ forall k,
         dict_of_value options !! k
         = if bool_decide (k ∈ exposed) then config !! k
           else caller_options config !! k.
Proof.
  intros Hin Hev Hext.
  destruct (plain_entry_inv _ _ _ _ _ _ Hin Hev)
    as (t1 & i & rc & Hi & Hrc & -> & _ & _).
  destruct (prepare_inputs_inr _ _ _ _ _ _ Hi)
    as (? & eo0 & _ & _ & Heo0 & Hexp & Hnexp & _).
  destruct (to_enum_values_inr _ _ _ _ _ _ Hrc) as (_ & Hopt & _).
  exists (map_to_list (in_extra_options i)). split.
  - rewrite lookup_passed_on, lookup_set_optimize_model by discriminate.
    rewrite lookup_delete_keys, decide_False; [exact Hopt|].
    unfold to_delete. rewrite !elem_of_app. intros [H|[H|H]]; [|contradiction|].
    + apply list_elem_of_In in H. simpl in H. intuition discriminate.
    + destruct (in_is_static i); [|apply elem_of_app in H as [H|H]];
        apply list_elem_of_In in H; simpl in H; intuition discriminate.
  - intros k. unfold dict_of_value. rewrite list_to_map_to_list.
    destruct (bool_decide (k ∈ exposed)) eqn:E.
    + apply bool_decide_eq_true in E. apply Hexp. exact E.
    + apply bool_decide_eq_false in E. destruct (Hnexp k E) as [-> _].
      rewrite (initial_extra_options_caller _ _ _ Heo0). reflexivity.
Qed.

(** X9.  The quantization call is given the preprocessed model exactly
    when [quant_preprocess] is set, and the input model otherwise; this
    holds for every entry, the QNN branch included. *)
Theorem quantizes_preprocessed_model_iff_requested
    model data_root config output_model_path ev :
  ev ∈ events (run model data_root config output_model_path) ->
  is_quantize_entry ev = true ->
  exists quant_preprocess,
    config !! "quant_preprocess" = Some quant_preprocess
    /\ entry_model_input ev
       = Some (if py_truthy quant_preprocess
               then preprocessed_temp_model_path w else model).
Proof.
  intros Hin He.
  destruct (run_entry_inv _ _ _ _ _ _ _ _ _ Hin He) as (t1 & i & t2 & p & Hi & Ha & Hq & _).
  destruct (prepare_inputs_inr _ _ _ _ _ _ Hi) as (? & ? & _ & _ & _ & _ & Hnexp & _).
  destruct (prepare_arguments_inr _ _ _ _ _ _ Ha) as (_ & Hpm & _).
  destruct (prepare_inputs_preprocess _ _ _ _ Hi) as [t' Hpre].
  destruct (preprocess_inr _ _ _ _ Hpre) as (qp & Hqp & Hm).
  exists qp. split.
  - destruct (Hnexp "quant_preprocess") as [_ <-];
      [apply not_exposed_key; reflexivity|exact Hqp].
  - rewrite <- Hm, <- Hpm.
    destruct (quantize_entry _ _ _ _ _ Hq He)
      as [[_ ->]|(_ & ? & ? & ? & ? & _ & _ & ->)]; reflexivity.
Qed.

End RunArguments.

(** ** The course of a run *)

Lemma Forall_false_not_in (f : Event -> bool) (t : list Event) ev :
  Forall (fun ev => f ev = false) t -> ev ∈ t -> f ev = true -> False.
Proof.
  intros HF Hin He. rewrite List.Forall_forall in HF.
  apply list_elem_of_In in Hin. specialize (HF _ Hin). congruence.
Qed.

Lemma Forall_weaken (P Q : Event -> Prop) (t : list Event) :
  (forall ev, P ev -> Q ev) -> Forall P t -> Forall Q t.
Proof. intros H HF. eapply List.Forall_impl; eassumption. Qed.

Lemma filter_none (f : Event -> bool) (t : list Event) :
  Forall (fun ev => f ev = false) t -> List.filter f t = [].
Proof.
  induction 1 as [|ev t Hev _ IH]; simpl; [reflexivity|]. rewrite Hev. exact IH.
Qed.

Section RunCourse.

Import OnnxQuantization.

Variable Conditional_default : SearchValue.
Variable ConditionalDefault_default : SearchValue.
Variable get_external_data_config : Table.
Variable w : World.

Local Abbreviation run :=
  (_run_for_config Conditional_default ConditionalDefault_default
     get_external_data_config w).

Ltac course_step :=
  match goal with
  | |- Forall _ (events (assert_calibration_source _)) =>
      rewrite assert_calibration_source_events; exact (List.Forall_nil _)
  | |- Forall _ (events (initial_extra_options _)) =>
      rewrite initial_extra_options_events; exact (List.Forall_nil _)
  | |- Forall _ (events (move_exposed _ _ _)) =>
      rewrite move_exposed_events; exact (List.Forall_nil _)
  | |- Forall _ (events (check_qnn_version _ _)) =>
      rewrite check_qnn_version_events; exact (List.Forall_nil _)
  | |- Forall _ (events (to_enum_values _ _ _ _)) =>
      rewrite to_enum_values_events; exact (List.Forall_nil _)
  | _ => events_step
  end.

(** Preparation only logs, resolves the output path, uses the
    preprocessing cache and creates the temporary directory. *)
Lemma prepare_events model config :
  Forall (fun ev => is_prepare_event ev = true)
    (events (prepare Conditional_default ConditionalDefault_default
               get_external_data_config w model config)).
Proof.
  unfold prepare, prepare_inputs, prepare_arguments, preprocess, _quant_preprocess.
  repeat course_step.
Qed.

Lemma closing_events_spec :
  Forall (fun ev => ev ∈ closing_events)
    (events (call CallOnnxLoad (onnx_load w) ;;
             call CallCleanup (cleanup w) ;;
             call CallModelProtoToOliveModel (model_proto_to_olive_model w))).
Proof.
  unfold closing_events.
  repeat first [ events_step
               | apply elem_of_cons; left; reflexivity
               | apply elem_of_cons; right ].
Qed.

(** The events of a run, phase by phase. *)
Lemma run_events_by_phase (P : Event -> Prop) model data_root config output_model_path :
  (forall ev, is_prepare_event ev = true -> P ev) ->
  (forall t p,
      prepare Conditional_default ConditionalDefault_default get_external_data_config w
        model config = (t, inr p) ->
      Forall P (events (quantize w data_root config p))) ->
  (forall ev, ev ∈ closing_events -> P ev) ->
  Forall P (events (run model data_root config output_model_path)).
Proof.
  intros Hprep Hq Hclose. unfold _run_for_config.
  apply Forall_events_bind.
  - eapply Forall_weaken; [exact Hprep|apply prepare_events].
  - intros t p Hp. apply Forall_events_bind; [exact (Hq t p Hp)|].
    intros _ _ _. eapply Forall_weaken; [exact Hclose|apply closing_events_spec].
Qed.

Lemma prepare_is_static model config t p quant_mode :
  prepare Conditional_default ConditionalDefault_default get_external_data_config w
    model config = (t, inr p) ->
  config !! "quant_mode" = Some quant_mode ->
  is_static p = py_eq_str quant_mode "static".
Proof.
  unfold prepare. intros H Hm. bind_inv.
  destruct (prepare_inputs_inr _ _ _ _ _ _ Hm0) as (qm & ? & Hqm & Hs & _).
  destruct (prepare_arguments_inr _ _ _ _ _ _ H) as (-> & _).
  congruence.
Qed.

(** The quantize phase only obtains calibration data, possibly a QNN
    configuration, and calls one entry point. *)
Lemma quantize_events data_root config p :
  Forall (fun ev => is_calibration_call ev || is_quantize_entry ev = true)
    (events (quantize w data_root config p)).
Proof.
  unfold quantize, static_arguments, get_dataloader, prepare_qnn,
    call_quantize_static, call_quantize_dynamic.
  repeat course_step.
Qed.

Lemma preprocess_calls_quant_pre_process rc model :
  CallQuantPreProcess ∈ events (preprocess w rc model) ->
  (exists qp, rc !! "quant_preprocess" = Some qp /\ py_truthy qp = true)
  /\ preprocessed_exists w = inr false.
Proof.
  unfold preprocess. intros H.
  apply elem_of_events_bind in H as [H|(t & a & Hm & H)].
  { rewrite events_call in H. apply list_elem_of_singleton in H. discriminate. }
  apply elem_of_events_bind in H as [H|(t0 & qp & Hq & H)].
  { rewrite events_getitem in H. inversion H. }
  apply getitem_inr_inv in Hq as [Hq _].
  destruct (py_truthy qp) eqn:Hqp; [|inversion H].
  apply elem_of_events_bind in H as [H|(t1 & present & He & H)].
  { rewrite events_call in H. apply list_elem_of_singleton in H. discriminate. }
  apply call_inr_inv in He as [He _].
  destruct present; simpl in H.
  - apply elem_of_cons in H as [H|H]; [discriminate|inversion H].
  - split; [eauto|exact He].
Qed.

(** X10.  The preprocessing collaborator is called only on request and
    only when nothing is cached: if a run calls [quant_pre_process] at all,
    [quant_preprocess] was set and no preprocessed model existed for the
    input. *)
Theorem preprocessing_runs_only_when_requested_and_not_cached
    model data_root config output_model_path :
  CallQuantPreProcess ∈ events (run model data_root config output_model_path) ->
  (exists quant_preprocess,
      config !! "quant_preprocess" = Some quant_preprocess
      /\ py_truthy quant_preprocess = true)
  /\ preprocessed_exists w = inr false.
Proof.
  intros H. unfold _run_for_config in H.
  apply elem_of_events_bind in H as [H|(t & p & _ & H)].
  2:{ exfalso. apply elem_of_events_bind in H as [H|(t' & u & _ & H)].
      - pose proof (quantize_events data_root config p) as HF.
        rewrite List.Forall_forall in HF. apply list_elem_of_In in H.
        specialize (HF _ H). discriminate.
      - pose proof closing_events_spec as HF.
        rewrite List.Forall_forall in HF. apply list_elem_of_In in H.
        specialize (HF _ H). unfold closing_events in HF.
        repeat (apply elem_of_cons in HF as [HF|HF]; [discriminate|]). inversion HF. }
  unfold prepare in H.
  apply elem_of_events_bind in H as [H|(t & i & _ & H)].
  2:{ exfalso.
      pose proof (prepare_arguments_no_quantization_call Conditional_default
                    get_external_data_config w i) as HF.
      unfold prepare_arguments in H.
      apply elem_of_events_bind in H as [H|(? & ? & _ & H)];
        [rewrite check_qnn_version_events in H; inversion H|].
      apply elem_of_events_bind in H as [H|(? & ? & _ & H)];
        [rewrite to_enum_values_events in H; inversion H|].
      apply elem_of_events_bind in H as [H|(? & ? & _ & H)];
        [rewrite events_call in H; apply list_elem_of_singleton in H; discriminate|].
      inversion H. }
  unfold prepare_inputs in H.
  apply elem_of_events_bind in H as [H|(? & ? & _ & H)];
    [rewrite events_getitem in H; inversion H|].
  apply elem_of_events_bind in H as [H|(? & ? & _ & H)].
  { destruct (py_eq_str _ _); [rewrite assert_calibration_source_events in H|];
      inversion H. }
  apply elem_of_events_bind in H as [H|(? & ? & _ & H)];
    [rewrite events_call in H; apply list_elem_of_singleton in H; discriminate|].
  apply elem_of_events_bind in H as [H|(? & ? & _ & H)];
    [rewrite initial_extra_options_events in H; inversion H|].
  apply elem_of_events_bind in H as [H|(? & ? & _ & H)].
  { destruct (bool_decide _); simpl in H; [inversion H|].
    apply list_elem_of_singleton in H. discriminate. }
  apply elem_of_events_bind in H as [H|(tm & [eo rc] & Hmove & H)];
    [rewrite move_exposed_events in H; inversion H|].
  apply elem_of_events_bind in H as [H|(? & ? & _ & H)]; [|inversion H].
  apply move_exposed_inr in Hmove as [_ Hout].
  destruct (preprocess_calls_quant_pre_process _ _ H) as [(qp & Hqp & Ht) Hex].
  split; [|exact Hex]. exists qp. split; [|exact Ht].
  simpl in Hqp. destruct (Hout "quant_preprocess") as [_ <-]; [|exact Hqp].
  apply not_exposed_key. reflexivity.
Qed.

(** X11.  A failure of the preprocessing collaborator is absorbed:
    [_quant_preprocess] returns, and always the path of the preprocessed
    model, exactly when [quant_pre_process] succeeded or raised an
    [Exception] and the original model could then be loaded and saved in its
    place; an exception of any other kind is passed on unchanged. *)
Theorem quant_preprocess_absorbs_exceptions (model : string) :
  (forall m, outcome (_quant_preprocess w model) = inr m ->
     m = preprocessed_temp_model_path w)
  /\ ((exists m, outcome (_quant_preprocess w model) = inr m)
      <-> (exists u, quant_pre_process w = inr u)
          \/ (exists e, quant_pre_process w = inl e
                /\ isinstance e "Exception" = true
                /\ (exists u, onnx_load_input w = inr u)
                /\ (exists u, model_proto_to_file w = inr u)))
  /\ (forall e, quant_pre_process w = inl e -> isinstance e "Exception" = false ->
        _quant_preprocess w model = ([CallQuantPreProcess], inl (Foreign e))).
Proof.
  unfold _quant_preprocess, call. munfold.
  destruct (quant_pre_process w) as [e|u]; simpl.
  - destruct (isinstance e "Exception") eqn:Hi; simpl.
    + destruct (onnx_load_input w) as [e1|u1]; simpl.
      * split; [discriminate|]. split; [|congruence].
        split; [intros [m H]; discriminate|].
        intros [[u H]|(e' & _ & _ & [u H] & _)]; discriminate.
      * destruct (model_proto_to_file w) as [e2|u2]; simpl.
        -- split; [discriminate|]. split; [|congruence].
           split; [intros [m H]; discriminate|].
           intros [[u H]|(e' & _ & _ & _ & [u H])]; discriminate.
        -- split; [congruence|]. split; [|congruence].
           split; [intros _; right; exists e; eauto 10|eauto].
    + split; [discriminate|]. split.
      * split; [intros [m H]; discriminate|].
        intros [[u H]|(e' & He & Hi' & _)]; [discriminate|congruence].
      * intros e' [= <-] _. reflexivity.
  - split; [congruence|]. split; [|discriminate].
    split; [intros _; left; eauto|eauto].
Qed.

Lemma quantize_entry_count data_root config p :
  length (List.filter is_quantize_entry (events (quantize w data_root config p))) <= 1.
Proof.
  unfold quantize. destruct (is_static p).
  - rewrite events_bind, List.filter_app, length_app.
    rewrite (filter_none _ _ (static_arguments_no_entry w data_root config p)). simpl.
    destruct (outcome (static_arguments w data_root config p)) as [e|args]; [simpl; lia|].
    unfold call_quantize_static. destruct (repeated_keyword _ _); [simpl; lia|].
    destruct (quantize_static w _ _ _); simpl; lia.
  - unfold call_quantize_dynamic. destruct (repeated_keyword _ _); [simpl; lia|].
    destruct (quantize_dynamic w _ _); simpl; lia.
Qed.

(** X12.  A run calls at most one quantization entry point, whatever the
    configuration and whatever the collaborators answer. *)
Theorem at_most_one_quantization_call model data_root config output_model_path :
  length (List.filter is_quantize_entry
            (events (run model data_root config output_model_path))) <= 1.
Proof.
  unfold _run_for_config. rewrite events_bind, List.filter_app, length_app.
  rewrite (filter_none is_quantize_entry).
  2:{ eapply Forall_weaken; [|apply prepare_events]. intros ev. destruct ev; simpl; congruence. }
  simpl. destruct (outcome _) as [e|p]; [simpl; lia|].
  rewrite events_bind, List.filter_app, length_app.
  pose proof (quantize_entry_count data_root config p) as Hq. revert Hq.
  generalize (length (List.filter is_quantize_entry
                        (events (quantize w data_root config p)))).
  intros n Hn.
  destruct (outcome (quantize w data_root config p)); [simpl; lia|].
  rewrite (filter_none is_quantize_entry); [simpl; lia|].
  eapply Forall_weaken; [|apply closing_events_spec].
  intros ev Hev. unfold closing_events in Hev.
  repeat (apply elem_of_cons in Hev as [->|Hev]; [reflexivity|]). inversion Hev.
Qed.

Lemma quantize_inr data_root config p t u :
  quantize w data_root config p = (t, inr u) ->
  exists t' ev,
    t = t' ++ [ev]
    /\ is_quantize_entry ev = true
    /\ entry_returned w ev
    /\ Forall (fun ev => is_quantize_entry ev = false) t'.
Proof.
  unfold quantize. intros H. destruct (is_static p).
  - bind_inv. destruct a as [dl kw]. simpl in H.
    unfold call_quantize_static in H.
    destruct (repeated_keyword _ _); [discriminate|].
    destruct (quantize_static w (model_path p) dl kw) as [e|[]] eqn:Hq;
      munfold; simpl in H; [discriminate|].
    injection H as <-.
    exists t0, (CallQuantizeStatic (model_path p) dl kw).
    repeat split; [exact Hq|].
    pose proof (static_arguments_no_entry w data_root config p) as HF.
    rewrite Hm in HF. exact HF.
  - unfold call_quantize_dynamic in H.
    destruct (repeated_keyword _ _); [discriminate|].
    destruct (quantize_dynamic w (model_path p) (run_config p)) as [e|[]] eqn:Hq;
      munfold; simpl in H; [discriminate|].
    injection H as <-.
    exists [], (CallQuantizeDynamic (model_path p) (run_config p)).
    repeat split; [exact Hq|constructor].
Qed.

(** X13.  A run that returns has called exactly one quantization entry
    point, which returned normally; after it the run only loads the result,
    cleans up and saves, and what it returns is the handle the saving
    helper produced. *)
Theorem returning_run_quantized_once
    model data_root config output_model_path t v :
  run model data_root config output_model_path = (t, inr v) ->
  model_proto_to_olive_model w = inr v
  /\ exists t0 ev,
      t = t0 ++ ev :: closing_events
      /\ is_quantize_entry ev = true
      /\ entry_returned w ev
      /\ Forall (fun ev => is_quantize_entry ev = false) t0.
Proof.
  unfold _run_for_config. intros H. repeat bind_inv.
  destruct (quantize_inr _ _ _ _ _ Hm0) as (t' & ev & -> & He & Hr & HF).
  split; [exact H|].
  exists (t0 ++ t'), ev. split; [|split; [exact He|split; [exact Hr|]]].
  - unfold closing_events. rewrite <- !app_assoc. reflexivity.
  - apply Forall_app. split; [|exact HF].
    pose proof (prepare_events model config) as HP. rewrite Hm in HP.
    eapply Forall_weaken; [|exact HP]. intros e. destruct e; simpl; congruence.
Qed.

Lemma get_dataloader_events data_root config f :
  config !! "dataloader_func" = Some f ->
  Forall (fun ev => if py_truthy f then is_data_config_call ev = false
                    else is_dataloader_func_call ev = false)
    (events (get_dataloader w data_root config)).
Proof.
  intros Hf. unfold get_dataloader. rewrite (getitem_Some _ _ _ Hf), bind_ret_l.
  destruct (py_truthy f); repeat course_step.
Qed.

(** X14.  The calibration callable takes precedence over the data
    configuration: when [dataloader_func] is set, no run validates
    [data_config] or builds a loader from it, even if it is set too; when
    [dataloader_func] is unset, no run resolves the data directory or calls
    a loader function. *)
Theorem dataloader_func_takes_precedence
    model data_root config output_model_path f :
  config !! "dataloader_func" = Some f ->
  Forall (fun ev => if py_truthy f then is_data_config_call ev = false
                    else is_dataloader_func_call ev = false)
    (events (run model data_root config output_model_path)).
Proof.
  intros Hf. apply run_events_by_phase.
  - intros ev Hev. destruct (py_truthy f); destruct ev; simpl in *; congruence.
  - intros t p _. unfold quantize, static_arguments.
    destruct (is_static p).
    + apply Forall_events_bind.
      * apply Forall_events_bind; [apply get_dataloader_events; exact Hf|].
        intros ? ? _. unfold prepare_qnn.
        destruct (py_truthy f); repeat course_step.
      * intros ? ? _. unfold call_quantize_static.
        destruct (py_truthy f); repeat course_step.
    + unfold call_quantize_dynamic. destruct (py_truthy f); repeat course_step.
  - intros ev Hev. unfold closing_events in Hev.
    destruct (py_truthy f);
      repeat (apply elem_of_cons in Hev as [->|Hev]; [reflexivity|]); inversion Hev.
Qed.

(** X15.  Outside static mode a run never asks for calibration data or a
    QNN configuration: whatever [quant_mode] other than ["static"] is
    configured, no data directory is resolved, no loader is called, no data
    configuration is validated and the QNN helper is not called. *)
Theorem non_static_run_needs_no_calibration
    model data_root config output_model_path quant_mode :
  config !! "quant_mode" = Some quant_mode ->
  quant_mode <> VStr "static" ->
  Forall (fun ev => is_calibration_call ev = false)
    (events (run model data_root config output_model_path)).
Proof.
  intros Hm Hne. apply run_events_by_phase.
  - intros ev Hev. destruct ev; simpl in *; congruence.
  - intros t p Hp. unfold quantize.
    rewrite (prepare_is_static _ _ _ _ _ Hp Hm).
    apply py_eq_str_false in Hne. rewrite Hne.
    unfold call_quantize_dynamic. repeat course_step.
  - intros ev Hev. unfold closing_events in Hev.
    repeat (apply elem_of_cons in Hev as [->|Hev]; [reflexivity|]); inversion Hev.
Qed.

(** X16.  In the QNN branch the keyword arguments of [quantize_static]
    are the public attributes of the configuration object the helper
    returned, without [calibration_data_reader] and
    [use_external_data_format]: no attribute whose name starts with an
    underscore is passed, and nothing of the pass's own run configuration
    survives. *)
Theorem qnn_entry_passes_public_attributes
    model data_root config output_model_path m reader kwargs v :
  CallQuantizeStatic m reader kwargs
    ∈ events (run model data_root config output_model_path) ->
  config !! "prepare_qnn_config" = Some v ->
  py_truthy v = true ->
  exists calibrate_method activation_type weight_type per_channel members,
    get_qnn_qdq_config w m reader calibrate_method activation_type weight_type
      per_channel = inr members
    /\ forall k,
         kwargs !! k
         = if String.prefix "_" k
              || String.eqb k "calibration_data_reader"
              || String.eqb k "use_external_data_format"
           then None
           else last_value k members.
Proof.
  intros Hin Hv Ht.
  destruct (run_entry_inv _ _ _ _ _ _ _ _ _ Hin eq_refl)
    as (t1 & i & t2 & p & Hi & Ha & Hq & _).
  destruct (quantize_entry _ _ _ _ _ Hq eq_refl)
    as [[_ [=]]|(_ & t & dl & t' & rc' & _ & Hqnn & [= -> -> ->])].
  unfold prepare_qnn in Hqnn. rewrite (getitem_Some _ _ _ Hv), bind_ret_l, Ht in Hqnn.
  repeat bind_inv. subst rc'.
  exists a, a0, a1, a2, a3. split; [exact Hm3|].
  intros k. unfold delete_keys. simpl.
  destruct (String.eqb_spec k "use_external_data_format") as [->|Hn1].
  { rewrite lookup_delete_eq, !orb_true_r. reflexivity. }
  rewrite lookup_delete_ne by congruence.
  destruct (String.eqb_spec k "calibration_data_reader") as [->|Hn2].
  { rewrite lookup_delete_eq, orb_true_r. reflexivity. }
  rewrite !lookup_delete_ne by congruence. rewrite !orb_false_r.
  unfold public_members. rewrite lookup_fold_insert, last_value_filter.
  destruct (String.prefix "_" k); [apply lookup_empty|].
  destruct (last_value k a3); [reflexivity|apply lookup_empty].
Qed.

End RunCourse.

(** ** The 4-bit MatMul quantization pass *)

Section MatMul4.

Import OnnxMatMul4Quantizer.

Ltac run_unfold :=
  unfold mbind, Run_bind, and_then, mret, Run_ret, invoke, item, pure, fail in *.

Lemma and_then_inr {A B} (m : Run A) (f : A -> Run B) t b :
  and_then f m = (t, inr b) ->
  exists t1 a t2, m = (t1, inr a) /\ f a = (t2, inr b) /\ t = t1 ++ t2.
Proof.
  destruct m as [t1 [e|a]]; run_unfold; [discriminate|].
  destruct (f a) as [t2 r] eqn:Hf. intros [= <- ->]. eauto 6.
Qed.

Lemma invoke_inr {A} c (r : Ext A) t a :
  invoke c r = (t, inr a) -> r = inr a /\ t = [c].
Proof. unfold invoke. destruct r; intros [= <- <-]; auto. Qed.

Lemma item_inr d k t v : item d k = (t, inr v) -> d !! k = Some v /\ t = [].
Proof. unfold item. destruct (d !! k); run_unfold; intros [= <- <-]; auto. Qed.

Variable w : World.

Local Abbreviation run := (OnnxMatMul4Quantizer._run_for_config w).


(** X18.  A run of the 4-bit pass that returns has imported the quantizer,
    resolved the output path, loaded the model, built the quantizer from
    the loaded model and the three settings [block_size], [is_symmetric]
    and [nodes_to_exclude] of the configuration, processed it, sorted the
    graph and saved it, in this order and nothing else; the whole
    configuration goes to the saving helper only, and the run returns what
    that helper returned. *)
Theorem matmul4_returning_run
    model data_root config output_model_path t v :
  _run_for_config w model data_root config output_model_path = (t, inr v) ->
  exists out loaded block_size is_symmetric nodes_to_exclude,
    config !! "block_size" = Some block_size
    /\ config !! "is_symmetric" = Some is_symmetric
    /\ config !! "nodes_to_exclude" = Some nodes_to_exclude
    /\ resolve_onnx_path w output_model_path model = inr out
    /\ load_model w = inr loaded
    /\ t = [ ImportMatMul4BitsQuantizer; ResolveOnnxPath output_model_path;
             LoadModel;
             NewMatMul4BitsQuantizer loaded block_size is_symmetric nodes_to_exclude;
             Process; TopologicalSort; ModelProtoToOliveModel out config ]
    /\ model_proto_to_olive_model w out config = inr v.
Proof.
  unfold _run_for_config.
  destruct (version_lt (OrtVersion w) v1_16_2); [discriminate|].
  unfold mbind, Run_bind. intros H.
  apply and_then_inr in H as (t1 & [] & t2 & H1 & H & ->).
  apply invoke_inr in H1 as [_ ->].
  apply and_then_inr in H as (t1 & out & t3 & H1 & H & ->).
  apply invoke_inr in H1 as [Hout ->].
  apply and_then_inr in H as (t1 & loaded & t4 & H1 & H & ->).
  apply invoke_inr in H1 as [Hload ->].
  apply and_then_inr in H as (t1 & bs & t5 & H1 & H & ->).
  apply item_inr in H1 as [Hbs ->].
  apply and_then_inr in H as (t1 & sym & t6 & H1 & H & ->).
  apply item_inr in H1 as [Hsym ->].
  apply and_then_inr in H as (t1 & excl & t7 & H1 & H & ->).
  apply item_inr in H1 as [Hexcl ->].
  apply and_then_inr in H as (t1 & [] & t8 & H1 & H & ->).
  apply invoke_inr in H1 as [_ ->].
  apply and_then_inr in H as (t1 & [] & t9 & H1 & H & ->).
  apply invoke_inr in H1 as [_ ->].
  apply and_then_inr in H as (t1 & [] & t10 & H1 & H & ->).
  apply invoke_inr in H1 as [_ ->].
  apply invoke_inr in H as [Hsave ->].
  exists out, loaded, bs, sym, excl. repeat split; assumption.
Qed.

(** X19.  A configuration that lacks one of the three settings of the
    constructor makes the run fail with [KeyError] for the first one
    missing, and only after the model has been loaded: the settings are
    read while the constructor's arguments are evaluated, and no quantizer
    is built. *)
Theorem matmul4_missing_setting_fails_after_load
    model data_root config output_model_path out loaded k :
  version_lt (OrtVersion w) v1_16_2 = false ->
  import_MatMul4BitsQuantizer w = inr tt ->
  resolve_onnx_path w output_model_path model = inr out ->
  load_model w = inr loaded ->
  first_missing config = Some k ->
  run model data_root config output_model_path
  = ([ ImportMatMul4BitsQuantizer; ResolveOnnxPath output_model_path; LoadModel ],
     inl (KeyError k)).
Proof.
  intros Hv Hi Hr Hl Hk. unfold _run_for_config. rewrite Hv.
  run_unfold. rewrite Hi, Hr, Hl.
  unfold first_missing, constructor_settings in Hk. simpl in Hk.
  destruct (config !! "block_size") eqn:E1.
  2:{ rewrite bool_decide_eq_true_2 in Hk by reflexivity. injection Hk as <-. reflexivity. }
  rewrite bool_decide_eq_false_2 in Hk by discriminate.
  destruct (config !! "is_symmetric") eqn:E2.
  2:{ rewrite bool_decide_eq_true_2 in Hk by reflexivity. injection Hk as <-. reflexivity. }
  rewrite bool_decide_eq_false_2 in Hk by discriminate.
  destruct (config !! "nodes_to_exclude") eqn:E3.
  2:{ rewrite bool_decide_eq_true_2 in Hk by reflexivity. injection Hk as <-. reflexivity. }
  rewrite bool_decide_eq_false_2 in Hk by discriminate. discriminate.
Qed.

(** X20.  Whatever the collaborators answer and whatever the
    configuration holds, the calls of a run of the 4-bit pass are an
    initial part of the fixed order import, resolve, load, build, process,
    sort, save: no call is repeated or skipped, and the first failure ends
    the run. *)
Theorem matmul4_calls_in_order model data_root config output_model_path :
  map stage (calls (run model data_root config output_model_path))
  = seq 0 (length (calls (run model data_root config output_model_path))).
Proof.
  unfold _run_for_config, calls.
  destruct (version_lt (OrtVersion w) v1_16_2); [reflexivity|].
  run_unfold.
  destruct (import_MatMul4BitsQuantizer w); [reflexivity|].
  destruct (resolve_onnx_path w output_model_path model); [reflexivity|].
  destruct (load_model w); [reflexivity|].
  destruct (config !! "block_size"); [|reflexivity].
  destruct (config !! "is_symmetric"); [|reflexivity].
  destruct (config !! "nodes_to_exclude"); [|reflexivity].
  simpl.
  match goal with
  | |- context [MatMul4BitsQuantizer w ?a ?b ?c ?d] =>
      destruct (MatMul4BitsQuantizer w a b c d); [reflexivity|]
  end.
  destruct (process w); [reflexivity|].
  destruct (topological_sort w); [reflexivity|].
  match goal with
  | |- context [model_proto_to_olive_model w ?a ?b] =>
      destruct (model_proto_to_olive_model w a b); reflexivity
  end.
Qed.

End MatMul4.

(** ** Relations between the parameter tables *)

Lemma table_get_rev_absent (k : string) (t : Table) :
  k ∉ map fst t -> table_get k (rev t) = None.
Proof.
  intros H. apply table_get_None. intros Hin. apply H.
  apply list_elem_of_In. apply list_elem_of_In in Hin.
  rewrite map_rev in Hin. apply in_rev in Hin. exact Hin.
Qed.

Lemma map_fst_table_set (k : string) (p p' : PassConfigParam) (t t' : Table) :
  map fst t = map fst t' ->
  map fst (table_set k p t) = map fst (table_set k p' t').
Proof.
  revert t'. induction t as [|[k0 p0] r IH]; intros [|[k1 p1] r']; simpl;
    try discriminate; [reflexivity|].
  intros [= -> Hr]. destruct (String.eqb k k1); simpl; [congruence|].
  f_equal. apply IH, Hr.
Qed.

Lemma map_fst_update (t t' u u' : Table) :
  map fst t = map fst t' -> map fst u = map fst u' ->
  map fst (update t u) = map fst (update t' u').
Proof.
  unfold update. revert t t' u'.
  induction u as [|[k p] r IH]; intros t t' [|[k' p'] r']; simpl;
    try discriminate; [auto|].
  intros Ht [= -> Hr]. apply IH; [apply map_fst_table_set, Ht|exact Hr].
Qed.

Lemma map_fst_table_set_known (k : string) (p p0 : PassConfigParam) (t : Table) :
  table_get k t = Some p0 -> map fst (table_set k p t) = map fst t.
Proof.
  induction t as [|[k1 p1] r IH]; simpl; [discriminate|].
  destruct (String.eqb_spec k k1) as [->|Hne]; simpl; [reflexivity|].
  intros H. f_equal. apply IH, H.
Qed.

Section TableRelations.

Variable Conditional_default : SearchValue.
Variable ConditionalDefault_default : SearchValue.
Variable get_external_data_config : Table.

Local Abbreviation generic :=
  (OnnxQuantization._default_config Conditional_default
     ConditionalDefault_default get_external_data_config).
Local Abbreviation dynamic :=
  (OnnxDynamicQuantization._default_config ConditionalDefault_default
     get_external_data_config).
Local Abbreviation static :=
  (OnnxStaticQuantization._default_config Conditional_default
     ConditionalDefault_default get_external_data_config).
Local Abbreviation matmul4 :=
  (OnnxMatMul4Quantizer._default_config get_external_data_config).

Local Abbreviation static_rows :=
  (update
     (update
        (update
           (update
              (update
                 (update [("quant_mode", param "str" (VStr "static") None)]
                    _onnx_quantization_config)
                 _static_dataloader_config)
              (_static_optional_config Conditional_default))
           (_exposed_extra_options_config ConditionalDefault_default))
        _extra_options_config)
     get_external_data_config).

Lemma static_default_config_plain spec :
  is_QNN spec = false -> static spec = ([], inr static_rows).
Proof.
  intros Hq. unfold OnnxStaticQuantization._default_config. rewrite Hq. reflexivity.
Qed.

Lemma static_default_config_qnn spec :
  is_QNN spec = true ->
  exists p1 p2 p3 p4 p5,
    table_get "quant_format" static_rows = Some p1
    /\ table_get "activation_type" static_rows = Some p2
    /\ table_get "weight_type" static_rows = Some p3
    /\ table_get "prepare_qnn_config" static_rows = Some p4
    /\ table_get "quant_preprocess" static_rows = Some p5
    /\ static spec
       = ([], inr
            (table_set "quant_preprocess" (set_default_value (Fixed (VBool false)) p5)
               (table_set "prepare_qnn_config" (set_default_value (Fixed (VBool true)) p4)
                  (table_set "weight_type"
                     (set_searchable_values OnnxStaticQuantization.qnn_types p3)
                     (table_set "activation_type"
                        (set_searchable_values OnnxStaticQuantization.qnn_types p2)
                        (table_set "quant_format"
                           (set_searchable_values (Categorical [VStr "QDQ"]) p1)
                           static_rows)))))).
Proof.
  intros Hq. unfold OnnxStaticQuantization._default_config. rewrite Hq.
  destruct (table_get_update_is_Some "quant_format" get_external_data_config
              (update
                 (update
                    (update
                       (update
                          (update [("quant_mode", param "str" (VStr "static") None)]
                             _onnx_quantization_config)
                          _static_dataloader_config)
                       (_static_optional_config Conditional_default))
                    (_exposed_extra_options_config ConditionalDefault_default))
                 _extra_options_config)) as [p1 H1]; [eexists; reflexivity|].
  destruct (table_get_update_is_Some "activation_type" get_external_data_config
              (update
                 (update
                    (update
                       (update
                          (update [("quant_mode", param "str" (VStr "static") None)]
                             _onnx_quantization_config)
                          _static_dataloader_config)
                       (_static_optional_config Conditional_default))
                    (_exposed_extra_options_config ConditionalDefault_default))
                 _extra_options_config)) as [p2 H2]; [eexists; reflexivity|].
  destruct (table_get_update_is_Some "weight_type" get_external_data_config
              (update
                 (update
                    (update
                       (update
                          (update [("quant_mode", param "str" (VStr "static") None)]
                             _onnx_quantization_config)
                          _static_dataloader_config)
                       (_static_optional_config Conditional_default))
                    (_exposed_extra_options_config ConditionalDefault_default))
                 _extra_options_config)) as [p3 H3]; [eexists; reflexivity|].
  destruct (table_get_update_is_Some "prepare_qnn_config" get_external_data_config
              (update
                 (update
                    (update
                       (update
                          (update [("quant_mode", param "str" (VStr "static") None)]
                             _onnx_quantization_config)
                          _static_dataloader_config)
                       (_static_optional_config Conditional_default))
                    (_exposed_extra_options_config ConditionalDefault_default))
                 _extra_options_config)) as [p4 H4]; [eexists; reflexivity|].
  destruct (table_get_update_is_Some "quant_preprocess" get_external_data_config
              (update
                 (update
                    (update
                       (update
                          (update [("quant_mode", param "str" (VStr "static") None)]
                             _onnx_quantization_config)
                          _static_dataloader_config)
                       (_static_optional_config Conditional_default))
                    (_exposed_extra_options_config ConditionalDefault_default))
                 _extra_options_config)) as [p5 H5]; [eexists; reflexivity|].
  exists p1, p2, p3, p4, p5. repeat (split; [assumption|]).
  rewrite (table_modify_Some _ _ _ _ H1), bind_ret_l.
  erewrite table_modify_Some, bind_ret_l by (rewrite table_get_set; exact H2).
  erewrite table_modify_Some, bind_ret_l by (rewrite !table_get_set; exact H3).
  erewrite table_modify_Some, bind_ret_l by (rewrite !table_get_set; exact H4).
  erewrite table_modify_Some, bind_ret_l by (rewrite !table_get_set; exact H5).
  reflexivity.
Qed.

Lemma not_qnn_row k :
  k ∉ qnn_rows ->
  String.eqb k "quant_format" = false
  /\ String.eqb k "activation_type" = false
  /\ String.eqb k "weight_type" = false
  /\ String.eqb k "prepare_qnn_config" = false
  /\ String.eqb k "quant_preprocess" = false.
Proof.
  intros H. unfold qnn_rows in H.
  repeat (apply not_elem_of_cons in H as [? H]).
  repeat split; apply String.eqb_neq; assumption.
Qed.

(** X21.  In every pass of the file the external-data group is merged
    last, so a parameter it declares replaces a row of the same name that
    the pass declared itself: the tables of the generic pass, of the
    dynamic pass, of the static pass (for the QNN provider: outside the
    five rows rewritten afterwards) and of the 4-bit pass give such a
    parameter the row of the group. *)
Theorem external_data_rows_replace_own_rows k p spec :
  table_get k (rev get_external_data_config) = Some p ->
  (exists t, generic spec = ([], inr t) /\ table_get k t = Some p)
  /\ (is_QNN spec = false ->
      exists t, dynamic spec = ([], inr t) /\ table_get k t = Some p)
  /\ (is_QNN spec = false \/ k ∉ qnn_rows ->
      exists t, static spec = ([], inr t) /\ table_get k t = Some p)
  /\ table_get k (matmul4 spec) = Some p.
Proof.
  intros H. split; [|split; [|split]].
  - unfold OnnxQuantization._default_config. eexists. split; [reflexivity|].
    rewrite table_get_update, H. reflexivity.
  - intros Hq. unfold OnnxDynamicQuantization._default_config. rewrite Hq.
    eexists. split; [reflexivity|]. rewrite table_get_update, H. reflexivity.
  - intros Hk. destruct (is_QNN spec) eqn:Hq.
    + destruct Hk as [Hk|Hk]; [discriminate|].
      destruct (static_default_config_qnn spec Hq)
        as (p1 & p2 & p3 & p4 & p5 & _ & _ & _ & _ & _ & ->).
      eexists. split; [reflexivity|].
      destruct (not_qnn_row k Hk) as (E1 & E2 & E3 & E4 & E5).
      rewrite !table_get_set, E1, E2, E3, E4, E5, table_get_update, H. reflexivity.
    + rewrite (static_default_config_plain spec Hq).
      eexists. split; [reflexivity|]. rewrite table_get_update, H. reflexivity.
  - unfold OnnxMatMul4Quantizer._default_config.
    rewrite table_get_update, H. reflexivity.
Qed.

(** X22.  For the QNN provider the static pass rewrites five rows of the
    table it builds for any other provider and nothing else: the
    parameters and their order are the same, every other row is equal, and
    a rewritten row keeps its type and category. *)
Theorem static_qnn_rewrites_five_rows spec spec' :
  is_QNN spec = true ->
  is_QNN spec' = false ->
  exists t base,
    static spec = ([], inr t)
    /\ static spec' = ([], inr base)
    /\ map fst t = map fst base
    /\ (forall k, k ∉ qnn_rows -> table_get k t = table_get k base)
    /\ (forall k p, k ∈ qnn_rows -> table_get k t = Some p ->
        exists p0, table_get k base = Some p0
                   /\ type_ p = type_ p0 /\ category p = category p0).
Proof.
  intros Hq Hq'.
  destruct (static_default_config_qnn spec Hq)
    as (p1 & p2 & p3 & p4 & p5 & H1 & H2 & H3 & H4 & H5 & ->).
  rewrite (static_default_config_plain spec' Hq').
  eexists _, _. split; [reflexivity|]. split; [reflexivity|].
  split; [|split].
  - erewrite map_fst_table_set_known by (rewrite !table_get_set; exact H5).
    erewrite map_fst_table_set_known by (rewrite !table_get_set; exact H4).
    erewrite map_fst_table_set_known by (rewrite !table_get_set; exact H3).
    erewrite map_fst_table_set_known by (rewrite !table_get_set; exact H2).
    erewrite map_fst_table_set_known by exact H1.
    reflexivity.
  - intros k Hk. destruct (not_qnn_row k Hk) as (E1 & E2 & E3 & E4 & E5).
    rewrite !table_get_set, E1, E2, E3, E4, E5. reflexivity.
  - intros k p Hk. unfold qnn_rows in Hk.
    repeat (apply elem_of_cons in Hk as [->|Hk]);
      [| | | | |inversion Hk];
      rewrite !table_get_set; simpl; intros [= <-]; eexists;
      (split; [eassumption|split; reflexivity]).
Qed.

Ltac by_key k :=
  repeat match goal with
         | |- context [String.eqb k ?s] =>
             destruct (String.eqb_spec k s) as [->|?]; simpl
         end.

(** X23.  The table of the dynamic pass is the table of the generic pass
    without the rows only a static run reads: outside [quant_mode] and
    those rows the two tables agree, and the dynamic table has none of
    those rows unless the external-data group declares one. *)
Theorem dynamic_table_is_generic_without_static_rows spec :
  is_QNN spec = false ->
  exists dyn gen,
    dynamic spec = ([], inr dyn)
    /\ generic spec = ([], inr gen)
    /\ (forall k, k <> "quant_mode" -> k ∉ static_only_keys ->
        table_get k dyn = table_get k gen)
    /\ (forall k, k ∈ static_only_keys ->
        k ∉ map fst get_external_data_config ->
        table_get k dyn = None /\ is_Some (table_get k gen)).
Proof.
  intros Hq. unfold OnnxDynamicQuantization._default_config. rewrite Hq.
  unfold OnnxQuantization._default_config.
  eexists _, _. split; [reflexivity|]. split; [reflexivity|]. split.
  - intros k Hm Hs. rewrite !(table_get_update k get_external_data_config).
    destruct (table_get k (rev get_external_data_config)); [reflexivity|].
    cbn. by_key k; try reflexivity; try congruence;
      exfalso; apply Hs; apply list_elem_of_In; simpl; tauto.
  - intros k Hs He. rewrite !(table_get_update k get_external_data_config).
    rewrite (table_get_rev_absent _ _ He).
    apply list_elem_of_In in Hs. simpl in Hs.
    repeat (destruct Hs as [<-|Hs]; [split; [reflexivity|eexists; reflexivity]|]).
    contradiction.
Qed.

(** X24.  The generic pass declares the parameters of the static pass, in
    the same order; outside [quant_mode] its rows are those of the static
    pass for a provider other than QNN, except that each static optional
    parameter is made conditional on [quant_mode] (unless the external-data
    group declares it). *)
Theorem generic_table_is_static_made_conditional spec spec' :
  is_QNN spec' = false ->
  exists gen st,
    generic spec = ([], inr gen)
    /\ static spec' = ([], inr st)
    /\ map fst gen = map fst st
    /\ (forall k, k <> "quant_mode" -> k ∉ static_optional_keys ->
        table_get k gen = table_get k st)
    /\ (forall k, k ∈ static_optional_keys ->
        k ∉ map fst get_external_data_config ->
        table_get k gen
        = OnnxQuantization.make_conditional_on_quant_mode ConditionalDefault_default
            <$> table_get k st).
Proof.
  intros Hq. rewrite (static_default_config_plain spec' Hq).
  unfold OnnxQuantization._default_config.
  eexists _, _. split; [reflexivity|]. split; [reflexivity|]. split; [|split].
  - do 4 (apply map_fst_update; [|reflexivity]). reflexivity.
  - intros k Hm Hs. rewrite !(table_get_update k get_external_data_config).
    destruct (table_get k (rev get_external_data_config)); [reflexivity|].
    cbn. by_key k; try reflexivity; try congruence;
      exfalso; apply Hs; apply list_elem_of_In; simpl; tauto.
  - intros k Hs He. rewrite !(table_get_update k get_external_data_config).
    rewrite (table_get_rev_absent _ _ He).
    apply list_elem_of_In in Hs. simpl in Hs.
    repeat (destruct Hs as [<-|Hs]; [reflexivity|]).
    contradiction.
Qed.

End TableRelations.

(** ** The further properties on sample runs *)

Lemma dynamic_sample_entry :
  exists m kwargs,
    List.find is_quantize_entry
      (events (OnnxQuantization._run_for_config (Fixed VInvalid) (Fixed VInvalid)
                 sample_external_data_config quiet_world "model.onnx" VNone
                 colliding_config "out"))
    = Some (CallQuantizeDynamic m kwargs).
Proof. vm_compute. eexists _, _. reflexivity. Qed.

Lemma static_sample_entry :
  exists m reader kwargs,
    List.find is_quantize_entry
      (events (OnnxQuantization._run_for_config (Fixed VInvalid) (Fixed VInvalid)
                 sample_external_data_config quiet_world "model.onnx" VNone
                 static_config "out"))
    = Some (CallQuantizeStatic m reader kwargs).
Proof. vm_compute. eexists _, _, _. reflexivity. Qed.

Lemma qnn_sample_entry :
  exists m reader kwargs,
    List.find is_quantize_entry
      (events (OnnxQuantization._run_for_config (Fixed VInvalid) (Fixed VInvalid)
                 sample_external_data_config qnn_world "model.onnx" VNone
                 qnn_colliding_config "out"))
    = Some (CallQuantizeStatic m reader kwargs).
Proof. vm_compute. eexists _, _, _. reflexivity. Qed.

Lemma reaching_quantization_requires_witness :
  exists ev,
    ev ∈ events (OnnxQuantization._run_for_config (Fixed VInvalid) (Fixed VInvalid)
                   sample_external_data_config quiet_world "model.onnx" VNone
                   static_config "out")
    /\ is_quantize_entry ev = true
    /\ is_Some (static_config !! "quant_mode")
    /\ is_Some (static_config !! "extra_options")
    /\ is_Some (static_config !! "quant_preprocess").
Proof.
  destruct static_sample_entry as (m & reader & kwargs & Hf).
  apply find_some in Hf as [Hin Hq]. apply list_elem_of_In in Hin.
  exists (CallQuantizeStatic m reader kwargs).
  split; [exact Hin|]. split; [exact Hq|].
  destruct (reaching_quantization_requires (Fixed VInvalid) (Fixed VInvalid)
              sample_external_data_config quiet_world "model.onnx" VNone
              static_config "out" _ Hin Hq) as (_ & H1 & H2 & H3 & _).
  auto.
Defined.

Lemma internal_keys_never_passed_witness :
  exists m kwargs,
    CallQuantizeDynamic m kwargs
    ∈ events (OnnxQuantization._run_for_config (Fixed VInvalid) (Fixed VInvalid)
                sample_external_data_config quiet_world "model.onnx" VNone
                colliding_config "out")
    /\ kwargs !! "quant_mode" = None.
Proof.
  destruct dynamic_sample_entry as (m & kwargs & Hf).
  apply find_some in Hf as [Hin _]. apply list_elem_of_In in Hin.
  exists m, kwargs. split; [exact Hin|].
  apply (internal_keys_never_passed (Fixed VInvalid) (Fixed VInvalid)
           sample_external_data_config quiet_world "model.onnx" VNone
           colliding_config "out" _ kwargs "quant_mode" Hin).
  - left. exists m. reflexivity.
  - left. left.
Defined.

Lemma strings_become_enum_members_witness :
  exists m kwargs s cls,
    CallQuantizeDynamic m kwargs
    ∈ events (OnnxQuantization._run_for_config (Fixed VInvalid) (Fixed VInvalid)
                sample_external_data_config quiet_world "model.onnx" VNone
                colliding_config "out")
    /\ colliding_config !! "weight_type" = Some (VStr s)
    /\ kwargs !! "weight_type" = Some (VEnum cls s).
Proof.
  destruct dynamic_sample_entry as (m & kwargs & Hf).
  apply find_some in Hf as [Hin _]. apply list_elem_of_In in Hin.
  destruct (strings_become_enum_members (Fixed VInvalid) (Fixed VInvalid)
              sample_external_data_config quiet_world "model.onnx" VNone
              colliding_config "out" _ kwargs "weight_type" Hin)
    as (s & cls & H1 & _ & H2 & _).
  - left. exists m. reflexivity.
  - left.
  - intros H. apply list_elem_of_In in H. simpl in H. intuition discriminate.
  - exists m, kwargs, s, cls. auto.
Defined.

Lemma optimize_model_forced_off_on_old_runtime_witness :
  exists m kwargs,
    CallQuantizeDynamic m kwargs
    ∈ events (OnnxQuantization._run_for_config (Fixed VInvalid) (Fixed VInvalid)
                sample_external_data_config quiet_world "model.onnx" VNone
                colliding_config "out")
    /\ kwargs !! "optimize_model"
       = if version_lt (OrtVersion quiet_world) OnnxQuantization.v1_16_0
         then Some (VBool false)
         else colliding_config !! "optimize_model".
Proof.
  destruct dynamic_sample_entry as (m & kwargs & Hf).
  apply find_some in Hf as [Hin _]. apply list_elem_of_In in Hin.
  exists m, kwargs. split; [exact Hin|].
  apply (optimize_model_forced_off_on_old_runtime (Fixed VInvalid) (Fixed VInvalid)
           sample_external_data_config quiet_world "model.onnx" VNone
           colliding_config "out" _ kwargs Hin).
  - left. exists m. reflexivity.
  - intros H. apply list_elem_of_In in H. simpl in H. intuition discriminate.
Defined.

Lemma other_parameters_pass_through_witness :
  exists m kwargs,
    CallQuantizeDynamic m kwargs
    ∈ events (OnnxQuantization._run_for_config (Fixed VInvalid) (Fixed VInvalid)
                sample_external_data_config quiet_world "model.onnx" VNone
                colliding_config "out")
    /\ kwargs !! "per_channel" = colliding_config !! "per_channel".
Proof.
  destruct dynamic_sample_entry as (m & kwargs & Hf).
  apply find_some in Hf as [Hin _]. apply list_elem_of_In in Hin.
  exists m, kwargs. split; [exact Hin|].
  apply (other_parameters_pass_through (Fixed VInvalid) (Fixed VInvalid)
           sample_external_data_config quiet_world "model.onnx" VNone
           colliding_config "out" _ kwargs "per_channel" Hin).
  - left. exists m. reflexivity.
  - intros H. apply list_elem_of_In in H. simpl in H. intuition discriminate.
  - intros H. apply list_elem_of_In in H. simpl in H. intuition discriminate.
  - intros H. apply list_elem_of_In in H. simpl in H. intuition discriminate.
  - intros H. apply list_elem_of_In in H. simpl in H. intuition discriminate.
Defined.

Lemma extra_options_are_caller_options_overlaid_witness :
  exists m kwargs options,
    CallQuantizeDynamic m kwargs
    ∈ events (OnnxQuantization._run_for_config (Fixed VInvalid) (Fixed VInvalid)
                sample_external_data_config quiet_world "model.onnx" VNone
                colliding_config "out")
    /\ kwargs !! "extra_options" = Some (VDict options)
    /\ forall k,
         dict_of_value options !! k
         = if bool_decide (k ∈ OnnxQuantization.exposed_keys (Fixed VInvalid))
           then colliding_config !! k
           else caller_options colliding_config !! k.
Proof.
  destruct dynamic_sample_entry as (m & kwargs & Hf).
  apply find_some in Hf as [Hin _]. apply list_elem_of_In in Hin.
  destruct (extra_options_are_caller_options_overlaid (Fixed VInvalid) (Fixed VInvalid)
              sample_external_data_config quiet_world "model.onnx" VNone
              colliding_config "out" _ kwargs Hin) as (options & H1 & H2).
  - left. exists m. reflexivity.
  - intros H. apply list_elem_of_In in H. simpl in H. intuition discriminate.
  - exists m, kwargs, options. auto.
Defined.

Lemma quantizes_preprocessed_model_iff_requested_witness :
  exists ev quant_preprocess,
    ev ∈ events (OnnxQuantization._run_for_config (Fixed VInvalid) (Fixed VInvalid)
                   sample_external_data_config quiet_world "model.onnx" VNone
                   static_config "out")
    /\ static_config !! "quant_preprocess" = Some quant_preprocess
    /\ entry_model_input ev
       = Some (if py_truthy quant_preprocess
               then preprocessed_temp_model_path quiet_world else "model.onnx").
Proof.
  destruct static_sample_entry as (m & reader & kwargs & Hf).
  apply find_some in Hf as [Hin Hq]. apply list_elem_of_In in Hin.
  destruct (quantizes_preprocessed_model_iff_requested (Fixed VInvalid) (Fixed VInvalid)
              sample_external_data_config quiet_world "model.onnx" VNone
              static_config "out" _ Hin Hq) as (qp & H1 & H2).
  exists (CallQuantizeStatic m reader kwargs), qp. auto.
Defined.

Lemma preprocessing_runs_only_when_requested_and_not_cached_witness :
  CallQuantPreProcess
  ∈ events (OnnxQuantization._run_for_config (Fixed VInvalid) (Fixed VInvalid)
              sample_external_data_config quiet_world "model.onnx" VNone
              dynamic_config "out")
  /\ (exists quant_preprocess,
        dynamic_config !! "quant_preprocess" = Some quant_preprocess
        /\ py_truthy quant_preprocess = true)
  /\ preprocessed_exists quiet_world = inr false.
Proof.
  assert (Hin : CallQuantPreProcess
    ∈ events (OnnxQuantization._run_for_config (Fixed VInvalid) (Fixed VInvalid)
                sample_external_data_config quiet_world "model.onnx" VNone
                dynamic_config "out")).
  { apply list_elem_of_In.
    apply (find_some is_preprocess_call). reflexivity. }
  split; [exact Hin|].
  exact (preprocessing_runs_only_when_requested_and_not_cached (Fixed VInvalid)
           (Fixed VInvalid) sample_external_data_config quiet_world "model.onnx"
           VNone dynamic_config "out" Hin).
Defined.

Lemma returning_run_quantized_once_witness :
  model_proto_to_olive_model quiet_world = inr (VObj "output_model")
  /\ exists t0 ev,
      events (OnnxQuantization._run_for_config (Fixed VInvalid) (Fixed VInvalid)
                sample_external_data_config quiet_world "model.onnx" VNone
                dynamic_config "out")
      = t0 ++ ev :: closing_events
      /\ is_quantize_entry ev = true
      /\ entry_returned quiet_world ev
      /\ Forall (fun ev => is_quantize_entry ev = false) t0.
Proof.
  apply (returning_run_quantized_once (Fixed VInvalid) (Fixed VInvalid)
           sample_external_data_config quiet_world "model.onnx" VNone
           dynamic_config "out").
  reflexivity.
Defined.

Lemma dataloader_func_takes_precedence_witness :
  Forall (fun ev => if py_truthy (VObj "create_dataloader")
                    then is_data_config_call ev = false
                    else is_dataloader_func_call ev = false)
    (events (OnnxQuantization._run_for_config (Fixed VInvalid) (Fixed VInvalid)
               sample_external_data_config quiet_world "model.onnx" VNone
               static_config "out")).
Proof.
  apply (dataloader_func_takes_precedence (Fixed VInvalid) (Fixed VInvalid)
           sample_external_data_config quiet_world "model.onnx" VNone
           static_config "out" (VObj "create_dataloader")).
  reflexivity.
Defined.

Lemma non_static_run_needs_no_calibration_witness :
  Forall (fun ev => is_calibration_call ev = false)
    (events (OnnxQuantization._run_for_config (Fixed VInvalid) (Fixed VInvalid)
               sample_external_data_config quiet_world "model.onnx" VNone
               dynamic_config "out")).
Proof.
  apply (non_static_run_needs_no_calibration (Fixed VInvalid) (Fixed VInvalid)
           sample_external_data_config quiet_world "model.onnx" VNone
           dynamic_config "out" (VStr "dynamic")).
  - reflexivity.
  - discriminate.
Defined.

Lemma qnn_entry_passes_public_attributes_witness :
  exists m reader kwargs,
    CallQuantizeStatic m reader kwargs
    ∈ events (OnnxQuantization._run_for_config (Fixed VInvalid) (Fixed VInvalid)
                sample_external_data_config qnn_world "model.onnx" VNone
                qnn_colliding_config "out")
    /\ kwargs !! "_op_types" = None
    /\ kwargs !! "use_external_data_format" = None
    /\ kwargs !! "quant_mode" = None.
Proof.
  destruct qnn_sample_entry as (m & reader & kwargs & Hf).
  apply find_some in Hf as [Hin _]. apply list_elem_of_In in Hin.
  exists m, reader, kwargs. split; [exact Hin|].
  destruct (qnn_entry_passes_public_attributes (Fixed VInvalid) (Fixed VInvalid)
              sample_external_data_config qnn_world "model.onnx" VNone
              qnn_colliding_config "out" m reader kwargs (VBool true) Hin
              eq_refl eq_refl)
    as (cm & aty & wt & pc & members & Hm & Hk).
  injection Hm as <-.
  rewrite !Hk. repeat split.
Defined.

Lemma matmul4_returning_run_witness :
  exists out loaded block_size is_symmetric nodes_to_exclude,
    OnnxMatMul4Quantizer.sample_config !! "block_size" = Some block_size
    /\ OnnxMatMul4Quantizer.sample_config !! "is_symmetric" = Some is_symmetric
    /\ OnnxMatMul4Quantizer.sample_config !! "nodes_to_exclude" = Some nodes_to_exclude
    /\ OnnxMatMul4Quantizer.resolve_onnx_path
         (OnnxMatMul4Quantizer.sample_world v1_17) "out" "model.onnx" = inr out
    /\ OnnxMatMul4Quantizer.load_model (OnnxMatMul4Quantizer.sample_world v1_17)
       = inr loaded
    /\ OnnxMatMul4Quantizer.calls
         (OnnxMatMul4Quantizer._run_for_config (OnnxMatMul4Quantizer.sample_world v1_17)
            "model.onnx" VNone OnnxMatMul4Quantizer.sample_config "out")
       = [ OnnxMatMul4Quantizer.ImportMatMul4BitsQuantizer;
           OnnxMatMul4Quantizer.ResolveOnnxPath "out";
           OnnxMatMul4Quantizer.LoadModel;
           OnnxMatMul4Quantizer.NewMatMul4BitsQuantizer loaded block_size
             is_symmetric nodes_to_exclude;
           OnnxMatMul4Quantizer.Process;
           OnnxMatMul4Quantizer.TopologicalSort;
           OnnxMatMul4Quantizer.ModelProtoToOliveModel out
             OnnxMatMul4Quantizer.sample_config ]
    /\ OnnxMatMul4Quantizer.model_proto_to_olive_model
         (OnnxMatMul4Quantizer.sample_world v1_17) out
         OnnxMatMul4Quantizer.sample_config
       = inr (VObj "ONNXModelHandler").
Proof.
  apply (matmul4_returning_run (OnnxMatMul4Quantizer.sample_world v1_17)
           "model.onnx" VNone OnnxMatMul4Quantizer.sample_config "out").
  reflexivity.
Defined.

Lemma matmul4_missing_setting_fails_after_load_witness :
  OnnxMatMul4Quantizer._run_for_config (OnnxMatMul4Quantizer.sample_world v1_17)
    "model.onnx" VNone (delete "is_symmetric" OnnxMatMul4Quantizer.sample_config) "out"
  = ([ OnnxMatMul4Quantizer.ImportMatMul4BitsQuantizer;
       OnnxMatMul4Quantizer.ResolveOnnxPath "out";
       OnnxMatMul4Quantizer.LoadModel ],
     inl (KeyError "is_symmetric")).
Proof.
  apply (matmul4_missing_setting_fails_after_load
           (OnnxMatMul4Quantizer.sample_world v1_17) "model.onnx" VNone
           (delete "is_symmetric" OnnxMatMul4Quantizer.sample_config) "out"
           "out" (VObj "ModelProto") "is_symmetric");
    reflexivity.
Defined.

Lemma external_data_rows_replace_own_rows_witness :
  (exists t,
      OnnxQuantization._default_config (Fixed VInvalid) (Fixed VInvalid)
        sample_external_data_config cpu_spec = ([], inr t)
      /\ table_get "size_threshold" t = Some (param "int" (VInt 1024) None))
  /\ table_get "size_threshold"
       (OnnxMatMul4Quantizer._default_config sample_external_data_config cpu_spec)
     = Some (param "int" (VInt 1024) None).
Proof.
  destruct (external_data_rows_replace_own_rows (Fixed VInvalid) (Fixed VInvalid)
              sample_external_data_config "size_threshold"
              (param "int" (VInt 1024) None) cpu_spec eq_refl)
    as (H1 & _ & _ & H4).
  split; assumption.
Defined.

Lemma static_qnn_rewrites_five_rows_witness :
  exists t base,
    OnnxStaticQuantization._default_config (Fixed VInvalid) (Fixed VInvalid)
      sample_external_data_config qnn_spec = ([], inr t)
    /\ OnnxStaticQuantization._default_config (Fixed VInvalid) (Fixed VInvalid)
         sample_external_data_config cpu_spec = ([], inr base)
    /\ map fst t = map fst base
    /\ (forall k, k ∉ qnn_rows -> table_get k t = table_get k base)
    /\ (forall k p, k ∈ qnn_rows -> table_get k t = Some p ->
        exists p0, table_get k base = Some p0
                   /\ type_ p = type_ p0 /\ category p = category p0).
Proof.
  apply (static_qnn_rewrites_five_rows (Fixed VInvalid) (Fixed VInvalid)
           sample_external_data_config qnn_spec cpu_spec); reflexivity.
Defined.

Lemma dynamic_table_is_generic_without_static_rows_witness :
  exists dyn gen,
    OnnxDynamicQuantization._default_config (Fixed VInvalid)
      sample_external_data_config cpu_spec = ([], inr dyn)
    /\ OnnxQuantization._default_config (Fixed VInvalid) (Fixed VInvalid)
         sample_external_data_config cpu_spec = ([], inr gen)
    /\ (forall k, k <> "quant_mode" -> k ∉ static_only_keys ->
        table_get k dyn = table_get k gen)
    /\ (forall k, k ∈ static_only_keys ->
        k ∉ map fst sample_external_data_config ->
        table_get k dyn = None /\ is_Some (table_get k gen)).
Proof.
  apply (dynamic_table_is_generic_without_static_rows (Fixed VInvalid) (Fixed VInvalid)
           sample_external_data_config cpu_spec).
  reflexivity.
Defined.

Lemma generic_table_is_static_made_conditional_witness :
  exists gen st,
    OnnxQuantization._default_config (Fixed VInvalid) (Fixed VInvalid)
      sample_external_data_config cpu_spec = ([], inr gen)
    /\ OnnxStaticQuantization._default_config (Fixed VInvalid) (Fixed VInvalid)
         sample_external_data_config cpu_spec = ([], inr st)
    /\ map fst gen = map fst st
    /\ (forall k, k <> "quant_mode" -> k ∉ static_optional_keys ->
        table_get k gen = table_get k st)
    /\ (forall k, k ∈ static_optional_keys ->
        k ∉ map fst sample_external_data_config ->
        table_get k gen
        = OnnxQuantization.make_conditional_on_quant_mode (Fixed VInvalid)
            <$> table_get k st).
Proof.
  apply (generic_table_is_static_made_conditional (Fixed VInvalid) (Fixed VInvalid)
           sample_external_data_config cpu_spec cpu_spec).
  reflexivity.
Defined.
